(** * Authentication and session core of the budget tracker backend

    A shallow embedding of the backend's authentication code.  Source files
    and the modules that embed them:
    - [config/env.ts]                 -> [Env]
    - [services/userService.ts]       -> [UserService]   (class [UserService])
    - [services/tokenBlacklist.ts]    -> [TokenBlacklist]
    - [services/authService.ts]       -> [AuthService]   (class [AuthService])
    - [middleware/auth.ts]            -> [AuthMiddleware]
    - [middleware/rateLimit.ts]       -> [RateLimit]     (class [RateLimiter])
    - [routes/auth.ts]                -> [AuthRoutes]
    - [middleware/errorHandler.ts]    -> [ErrorHandler]
    - [routes/users.ts]               -> [UsersRoutes]
    - [services/tokenService.ts]      -> [TokenService]  (class [TokenService])
    and what the code calls of its runtime and libraries:
    - [hono/jwt], [sign] and [verify] -> [HonoJwt]
    - [Bun.password]                  -> [BunPassword]
    - [Bun.sql], the result array     -> [BunSql]

    Conventions.  Instants are integers in milliseconds since the epoch
    ([Date.now()], SQL [NOW()]); JWT claims are in seconds.  A request is
    served at one instant [now], which every operation it runs receives.  The
    PostgreSQL tables are explicit values threaded through the operations.
    A statement fails only on a constraint of the schema that the model
    names (unique keys, the foreign keys of the two revocation tables);
    connection failures are outside the model.  A JavaScript value that may
    be [undefined] is an [option].  A string is the UTF-8 encoding of the
    JavaScript string; [js_length] is the JavaScript [length] of the string it
    encodes.  Each call of [Bun.password.hash] takes the salt it draws as an
    argument. *)

From Stdlib Require Import ZArith Lia Ascii String.
From stdpp Require Import base decidable option strings pretty list gmap.

Local Open Scope string_scope.
Local Open Scope Z_scope.

(** ** Environment ([config/env.ts]) *)

Module Env.

Record t := {
  JWT_SECRET : string;
  COOKIE_ACCESS_TOKEN_MAX_AGE : Z;
  COOKIE_REFRESH_TOKEN_MAX_AGE : Z;
  BCRYPT_ROUNDS : Z;
  PASSWORD_RESET_EXPIRY_HOURS : Z;
  RATE_LIMIT_WINDOW_MS : Z;
  RATE_LIMIT_MAX_REQUESTS : Z;
  RATE_LIMIT_AUTH_WINDOW_MS : Z;
  RATE_LIMIT_AUTH_MAX_REQUESTS : Z;
  RATE_LIMIT_STRICT_WINDOW_MS : Z;
  RATE_LIMIT_STRICT_MAX_REQUESTS : Z;
  RATE_LIMIT_USER_AGENT_LENGTH : nat
}.

(** The values [envSchema] falls back to when a variable is unset; the
    signing secret has no default. *)
Definition defaults (secret : string) : t := {|
  JWT_SECRET := secret;
  COOKIE_ACCESS_TOKEN_MAX_AGE := 15 * 60;
  COOKIE_REFRESH_TOKEN_MAX_AGE := 7 * 24 * 60 * 60;
  BCRYPT_ROUNDS := 12;
  PASSWORD_RESET_EXPIRY_HOURS := 1;
  RATE_LIMIT_WINDOW_MS := 60000;
  RATE_LIMIT_MAX_REQUESTS := 1000;
  RATE_LIMIT_AUTH_WINDOW_MS := 900000;
  RATE_LIMIT_AUTH_MAX_REQUESTS := 10;
  RATE_LIMIT_STRICT_WINDOW_MS := 60000;
  RATE_LIMIT_STRICT_MAX_REQUESTS := 20;
  RATE_LIMIT_USER_AGENT_LENGTH := 50
|}.

End Env.

(** ** JavaScript truthiness of the values the code tests with [!] and [&&] *)

Definition truthy_string (s : option string) : bool :=
  match s with
  | Some s => negb (String.eqb s "")
  | None => false
  end.

Definition truthy_number (n : option Z) : bool :=
  match n with
  | Some n => negb (n =? 0)
  | None => false
  end.

(** ** The [length] of a JavaScript string

    [s.length] counts UTF-16 code units.  In the UTF-8 encoding of [s] a code
    point below U+10000 (one unit) starts with a byte below 128 or with a lead
    byte from 192 to 239, a code point from U+10000 on (two units, a surrogate
    pair) starts with a lead byte from 240 on, and the bytes from 128 to 191
    continue a sequence. *)

Definition utf16_units (c : ascii) : nat :=
  let n := Ascii.nat_of_ascii c in
  if (n <? 128)%nat then 1%nat
  else if (n <? 192)%nat then 0%nat
  else if (n <? 240)%nat then 1%nat
  else 2%nat.

Fixpoint js_length (s : string) : nat :=
  match s with
  | EmptyString => 0%nat
  | String c rest => (utf16_units c + js_length rest)%nat
  end.

(** ** [hono/jwt]: [sign] and [verify] with HS256

    The MAC is idealised: a signed token records the key it was signed under,
    and the signature verifies exactly under that key.  [sign] serialises the
    payload it is given and adds no claim of its own; [verify] checks the
    registered time claims, then the signature: [nbf] and [iat] when they are
    truthy, [exp] whenever the claim is there, so that a token with [exp: 0]
    has expired. *)

Module HonoJwt.

Record JWTPayload := {
  userId : option string;
  email : option string;
  tokenType : option string;
  iat : option Z;
  exp : option Z;
  nbf : option Z
}.

(** A raw token string: either [header.payload.signature] with the
    signature computed under [key], or any other string. *)
Inductive Token :=
| Signed (payload : JWTPayload) (key : string)
| Malformed (raw : string).

Inductive JwtError :=
| JwtTokenInvalid
| JwtTokenNotBefore
| JwtTokenExpired
| JwtTokenIssuedAt
| JwtTokenSignatureMismatched.

#[global] Instance JWTPayload_eq_dec : EqDecision JWTPayload.
Proof. solve_decision. Defined.

#[global] Instance Token_eq_dec : EqDecision Token.
Proof. solve_decision. Defined.

Definition sign (payload : JWTPayload) (secret : string) : Token :=
  Signed payload secret.

(** [now] is [Date.now()]; the library compares against
    [Math.floor(Date.now() / 1000)]. *)
Definition verify (token : Token) (secret : string) (now : Z)
  : JwtError + JWTPayload :=
  match token with
  | Malformed _ => inl JwtTokenInvalid
  | Signed payload key =>
      let now_s := now / 1000 in
      if truthy_number (nbf payload) && (now_s <? default 0 (nbf payload))
      then inl JwtTokenNotBefore
      else if match exp payload with
              | Some e => e <=? now_s
              | None => false
              end
      then inl JwtTokenExpired
      else if truthy_number (iat payload) && (now_s <? default 0 (iat payload))
      then inl JwtTokenIssuedAt
      else if String.eqb key secret then inr payload
      else inl JwtTokenSignatureMismatched
  end.

(** [!accessToken] on a cookie value: only the empty string is falsy. *)
Definition is_empty (token : Token) : bool :=
  match token with
  | Malformed raw => String.eqb raw ""
  | Signed _ _ => false
  end.

End HonoJwt.

(** ** [Bun.password]: salted password hashing

    [Bun.password.hash] draws a fresh random salt on every call and returns an
    encoded string that contains the salt next to the digest, so the result is
    a function of the salt and the input.  The digest is idealised as
    collision free: a hash is the pair of the salt and the hashed input.
    [Bun.password.verify] recomputes the digest with the salt stored in the
    hash. *)

Module BunPassword.

Record Hash (A : Type) := MkHash { salt : nat; input : A }.
Arguments MkHash {A} _ _.
Arguments salt {A} _.
Arguments input {A} _.

#[global] Instance Hash_eq_dec `{EqDecision A} : EqDecision (Hash A).
Proof. solve_decision. Defined.

Definition hash {A} (salt : nat) (input : A) : Hash A := MkHash salt input.

Definition verify `{EqDecision A} (plain : A) (hashed : Hash A) : bool :=
  bool_decide (plain = input hashed).

End BunPassword.

(** ** [Bun.sql]: the array a statement resolves to

    A tagged-template statement resolves to the array of the rows it returns;
    the number of rows it touched is in [count], which the code never reads.
    An UPDATE or DELETE without a RETURNING clause returns no row, so its
    array is empty however many rows it touched. *)

Module BunSql.

Definition result_length (touched : nat) : nat := 0%nat.

End BunSql.

(** ** [services/userService.ts] *)

Module UserService.

Record User := {
  id : string;
  email : string;
  password_hash : BunPassword.Hash string;
  name : string;
  created_at : Z;
  updated_at : Z;
  email_verified : bool;
  password_reset_token : option string;
  password_reset_expires : option Z
}.

(** [Omit<User, "password_hash">], what the handlers send back. *)
Record UserWithoutPassword := {
  pub_id : string;
  pub_email : string;
  pub_name : string;
  pub_created_at : Z;
  pub_updated_at : Z;
  pub_email_verified : bool;
  pub_password_reset_token : option string;
  pub_password_reset_expires : option Z
}.

Definition without_password (user : User) : UserWithoutPassword := {|
  pub_id := id user;
  pub_email := email user;
  pub_name := name user;
  pub_created_at := created_at user;
  pub_updated_at := updated_at user;
  pub_email_verified := email_verified user;
  pub_password_reset_token := password_reset_token user;
  pub_password_reset_expires := password_reset_expires user
|}.

(** The [users] table, in row order. *)
Definition Users := list User.

(** [SELECT * FROM users WHERE email = ...], first row. *)
Definition findByEmail (e : string) (users : Users) : option User :=
  List.find (fun u => String.eqb (email u) e) users.

(** [SELECT * FROM users WHERE id = ...], first row. *)
Definition findById (i : string) (users : Users) : option User :=
  List.find (fun u => String.eqb (id u) i) users.

Definition verifyPassword (plainPassword : string)
    (hashedPassword : BunPassword.Hash string) : bool :=
  BunPassword.verify plainPassword hashedPassword.

(** The row filter of the guarded UPDATE in [resetPassword]:
    [password_reset_token = token AND password_reset_expires > NOW()].
    A NULL column satisfies neither comparison. *)
Definition reset_token_matches (token : string) (now : Z) (u : User) : bool :=
  match password_reset_token u, password_reset_expires u with
  | Some t, Some e => String.eqb t token && (now <? e)
  | _, _ => false
  end.

(** [SET password_hash = ..., password_reset_token = NULL,
    password_reset_expires = NULL] on one row, under the schema of
    [initializeDatabase], which has no trigger on [users]. *)
Definition with_new_password (h : BunPassword.Hash string) (u : User) : User := {|
  id := id u;
  email := email u;
  password_hash := h;
  name := name u;
  created_at := created_at u;
  updated_at := updated_at u;
  email_verified := email_verified u;
  password_reset_token := None;
  password_reset_expires := None
|}.

Definition with_reset_token (token : string) (expires : Z) (u : User) : User := {|
  id := id u;
  email := email u;
  password_hash := password_hash u;
  name := name u;
  created_at := created_at u;
  updated_at := updated_at u;
  email_verified := email_verified u;
  password_reset_token := Some token;
  password_reset_expires := Some expires
|}.

(** Number of rows an UPDATE with row filter [p] touches. *)
Definition affected (p : User -> bool) (users : Users) : nat :=
  length (List.filter p users).

(** The code reads [result.length] of an UPDATE that has no RETURNING
    clause.  What the driver stores there for a statement that touched [k]
    rows is a property of the driver, kept as the parameter
    [result_length : nat -> nat] of the two functions below; the driver of
    the program is [BunSql.result_length]. *)

Definition setPasswordResetToken (env : Env.t) (result_length : nat -> nat)
    (now : Z) (e : string) (token : string) (users : Users) : Users * bool :=
  let expires := now + Env.PASSWORD_RESET_EXPIRY_HOURS env * 60 * 60 * 1000 in
  let hit := fun u => String.eqb (email u) e in
  (List.map (fun u => if hit u then with_reset_token token expires u else u) users,
   (0 <? result_length (affected hit users))%nat).

Definition resetPassword (result_length : nat -> nat) (salt : nat) (now : Z)
    (token : string) (newPassword : string) (users : Users) : Users * bool :=
  let password_hash := BunPassword.hash salt newPassword in
  let hit := reset_token_matches token now in
  (List.map (fun u => if hit u then with_new_password password_hash u else u) users,
   (0 <? result_length (affected hit users))%nat).

(** *** The rest of the class: [create], [update], [delete] *)

Record CreateUserData := {
  new_email : string;
  new_password : string;
  new_name : string
}.

(** [INSERT INTO users (email, password_hash, name) ... RETURNING *].
    [new_id] is what [gen_random_uuid()] gives the row and the other columns
    take their defaults.  The statement fails ([None]) on the primary key
    and on the UNIQUE constraint of [email]. *)
Definition new_row (password_hash : BunPassword.Hash string) (now : Z)
    (new_id : string) (userData : CreateUserData) : User := {|
  id := new_id;
  email := new_email userData;
  password_hash := password_hash;
  name := new_name userData;
  created_at := now;
  updated_at := now;
  email_verified := false;
  password_reset_token := None;
  password_reset_expires := None
|}.

Definition create (salt : nat) (now : Z) (new_id : string)
    (userData : CreateUserData) (users : Users) : option (Users * User) :=
  let password_hash := BunPassword.hash salt (new_password userData) in
  if existsb (fun u => String.eqb (email u) (new_email userData)
                       || String.eqb (id u) new_id) users
  then None
  else
    let row := new_row password_hash now new_id userData in
    Some ((users ++ [row])%list, row).

Record UpdateUserData := {
  upd_email : option string;
  upd_name : option string;
  upd_email_verified : option bool;
  upd_password : option string
}.

(** One [SET ..., updated_at = NOW()] clause: the columns that are given are
    assigned, the others keep their value. *)
Definition assign (e n : option string) (v : option bool)
    (h : option (BunPassword.Hash string)) (now : Z) (u : User) : User := {|
  id := id u;
  email := default (email u) e;
  password_hash := default (password_hash u) h;
  name := default (name u) n;
  created_at := created_at u;
  updated_at := now;
  email_verified := default (email_verified u) v;
  password_reset_token := password_reset_token u;
  password_reset_expires := password_reset_expires u
|}.

Definition is_defined {A} (o : option A) : bool :=
  match o with Some _ => true | None => false end.

(** The chain of [if ... else if ...] that picks the UPDATE statement;
    [None] is the final [return null] (no fields to update). *)
Definition update_statement (salt : nat) (now : Z) (userData : UpdateUserData)
  : option (User -> User) :=
  let e := upd_email userData in
  let n := upd_name userData in
  let v := upd_email_verified userData in
  if truthy_string (upd_password userData) then
    let h := Some (BunPassword.hash salt (default "" (upd_password userData))) in
    if truthy_string e && truthy_string n && is_defined v
    then Some (assign e n v h now)
    else if truthy_string e && truthy_string n
    then Some (assign e n None h now)
    else Some (assign None None None h now)
  else if truthy_string e && truthy_string n && is_defined v
  then Some (assign e n v None now)
  else if truthy_string e && truthy_string n
  then Some (assign e n None None now)
  else if truthy_string e && is_defined v
  then Some (assign e None v None now)
  else if truthy_string n && is_defined v
  then Some (assign None n v None now)
  else if truthy_string e
  then Some (assign e None None None now)
  else if truthy_string n
  then Some (assign None n None None now)
  else if is_defined v
  then Some (assign None None v None now)
  else None.

(** [UPDATE users SET ... WHERE id = ... RETURNING *], then
    [result.length > 0 ? result[0] : null]. *)
Definition update (salt : nat) (now : Z) (i : string) (userData : UpdateUserData)
    (users : Users) : Users * option User :=
  match update_statement salt now userData with
  | None => (users, None)
  | Some set =>
      let hit := fun u => String.eqb (id u) i in
      (List.map (fun u => if hit u then set u else u) users,
       head (List.map set (List.filter hit users)))
  end.

(** [DELETE FROM users WHERE id = ...] has no RETURNING clause either, so
    [result.length] is again the driver's. *)
Definition delete (result_length : nat -> nat) (i : string) (users : Users)
  : Users * bool :=
  let hit := fun u => String.eqb (id u) i in
  (List.filter (fun u => negb (hit u)) users,
   (0 <? result_length (affected hit users))%nat).

End UserService.

(** ** The database: the three tables the authentication core touches *)

Module Db.

(** A row of [token_blacklist]; [token_hash] is UNIQUE. *)
Record BlacklistRow := {
  token_hash : BunPassword.Hash HonoJwt.Token;
  user_id : option string;
  expires_at : option Z
}.

(** [user_logout_timestamps] has [user_id] as primary key, so it is a map
    from user id to [logout_at]. *)
Record t := {
  users : UserService.Users;
  token_blacklist : list BlacklistRow;
  user_logout_timestamps : gmap string Z
}.

Definition with_users (us : UserService.Users) (db : t) : t :=
  {| users := us;
     token_blacklist := token_blacklist db;
     user_logout_timestamps := user_logout_timestamps db |}.

Definition with_token_blacklist (bl : list BlacklistRow) (db : t) : t :=
  {| users := users db;
     token_blacklist := bl;
     user_logout_timestamps := user_logout_timestamps db |}.

Definition with_user_logout_timestamps (ts : gmap string Z) (db : t) : t :=
  {| users := users db;
     token_blacklist := token_blacklist db;
     user_logout_timestamps := ts |}.

(** [user_id UUID ... REFERENCES users(id)], the foreign key of both
    revocation tables: an INSERT whose [user_id] is not the id of a stored
    user is rejected (as is one whose [user_id] is no UUID at all). *)
Definition references_user (userId : string) (db : t) : bool :=
  match UserService.findById userId (users db) with
  | Some _ => true
  | None => false
  end.

(** [UserService.delete] on the whole database: [token_blacklist.user_id] and
    [user_logout_timestamps.user_id] reference [users(id)] with ON DELETE
    CASCADE, so the user's rows in both tables go with the user. *)
Definition delete_user (result_length : nat -> nat) (i : string) (db : t) : t * bool :=
  let r := UserService.delete result_length i (users db) in
  if (0 <? UserService.affected (fun u => String.eqb (UserService.id u) i) (users db))%nat
  then
    ({| users := r.1;
        token_blacklist :=
          List.filter (fun row => negb (bool_decide (user_id row = Some i)))
                      (token_blacklist db);
        user_logout_timestamps := delete i (user_logout_timestamps db) |},
     r.2)
  else (with_users r.1 db, r.2).

End Db.

(** ** [services/tokenBlacklist.ts] *)

Module TokenBlacklist.

(** [setDate(getDate() + 8)]: eight calendar days, taken as 8 x 24 hours. *)
Definition eight_days : Z := 8 * 24 * 60 * 60 * 1000.

Definition has_hash (h : BunPassword.Hash HonoJwt.Token) (r : Db.BlacklistRow) : bool :=
  bool_decide (Db.token_hash r = h).

(** [userId || null] *)
Definition or_null (userId : option string) : option string :=
  if truthy_string userId then userId else None.

(** [INSERT ... ON CONFLICT (token_hash) DO NOTHING]; [salt] is the salt
    [Bun.password.hash] draws for this call.  A row that conflicts is
    skipped; a row that is inserted has to satisfy the foreign key of
    [user_id] unless that is NULL.  [None]: the statement is rejected, the
    promise rejects and the table is as it was. *)
Definition blacklistToken (salt : nat) (now : Z) (token : HonoJwt.Token)
    (userId : option string) (db : Db.t) : option Db.t :=
  let expiresAt := now + eight_days in
  let h := BunPassword.hash salt token in
  if existsb (has_hash h) (Db.token_blacklist db) then Some db
  else
    let row := {| Db.token_hash := h;
                  Db.user_id := or_null userId;
                  Db.expires_at := Some expiresAt |} in
    match or_null userId with
    | Some i =>
        if Db.references_user i db
        then Some (Db.with_token_blacklist (Db.token_blacklist db ++ [row]) db)
        else None
    | None => Some (Db.with_token_blacklist (Db.token_blacklist db ++ [row]) db)
    end.

(** [SELECT 1 ... WHERE token_hash = tokenHash AND (expires_at IS NULL OR
    expires_at > NOW()) LIMIT 1], then [result.length > 0]; [salt] is the
    salt drawn by the [Bun.password.hash] call that computes [tokenHash]. *)
Definition isBlacklisted (salt : nat) (now : Z) (token : HonoJwt.Token)
    (db : Db.t) : bool :=
  let tokenHash := BunPassword.hash salt token in
  existsb
    (fun r => has_hash tokenHash r &&
              match Db.expires_at r with
              | None => true
              | Some e => now <? e
              end)
    (Db.token_blacklist db).

(** [INSERT ... ON CONFLICT (user_id) DO UPDATE SET logout_at = NOW()].
    [user_id] references [users(id)], so the statement is rejected ([None])
    for an id that is not a stored user's; no row of the table can carry such
    an id, so nothing conflicts in that case. *)
Definition blacklistAllUserTokens (now : Z) (userId : string) (db : Db.t)
  : option Db.t :=
  if Db.references_user userId db
  then Some (Db.with_user_logout_timestamps
               (<[userId := now]> (Db.user_logout_timestamps db)) db)
  else None.

(** [tokenIssuedAt > new Date(logout_at).getTime() / 1000]: the claim is in
    seconds and the stored instant in milliseconds, so the comparison is
    [1000 * tokenIssuedAt > logout_at] on integers.  [decoded.iat] is
    [undefined] when the payload has no such claim, and [undefined > x] is
    [false]. *)
Definition isTokenValidForUser (userId : string) (tokenIssuedAt : option Z)
    (db : Db.t) : bool :=
  match Db.user_logout_timestamps db !! userId with
  | None => true
  | Some logout_at =>
      match tokenIssuedAt with
      | Some issued => logout_at <? 1000 * issued
      | None => false
      end
  end.

Definition thirty_days : Z := 30 * 24 * 60 * 60 * 1000.

Definition cleanupExpired (now : Z) (db : Db.t) : Db.t :=
  Db.with_user_logout_timestamps
    (filter (fun kv => negb (kv.2 <? now - thirty_days) = true)
            (Db.user_logout_timestamps db))
    (Db.with_token_blacklist
       (List.filter
          (fun r => negb match Db.expires_at r with
                         | Some e => e <? now
                         | None => false
                         end)
          (Db.token_blacklist db))
       db).

End TokenBlacklist.

(** ** [services/authService.ts] *)

Module AuthService.

(** The decoded payload after the required-field check.  The interface
    declares [iat] and [exp] as numbers, but the value is a cast of whatever
    the token carried, so both may be [undefined]. *)
Record AuthTokenPayload := {
  userId : string;
  email : string;
  tokenType : string;
  iat : option Z;
  exp : option Z
}.

Record LoginCredentials := {
  cred_email : string;
  cred_password : string
}.

Record AuthResponse := {
  user : UserService.UserWithoutPassword;
  accessToken : HonoJwt.Token;
  refreshToken : HonoJwt.Token
}.

(** The payload handed to [sign] is [Omit<AuthTokenPayload, "iat" | "exp">]:
    the three fields below and nothing else. *)
Definition token_payload (u : UserService.User) (kind : string) : HonoJwt.JWTPayload := {|
  HonoJwt.userId := Some (UserService.id u);
  HonoJwt.email := Some (UserService.email u);
  HonoJwt.tokenType := Some kind;
  HonoJwt.iat := None;
  HonoJwt.exp := None;
  HonoJwt.nbf := None
|}.

Definition generateAccessToken (env : Env.t) (u : UserService.User) : HonoJwt.Token :=
  HonoJwt.sign (token_payload u "access") (Env.JWT_SECRET env).

Definition generateRefreshToken (env : Env.t) (u : UserService.User) : HonoJwt.Token :=
  HonoJwt.sign (token_payload u "refresh") (Env.JWT_SECRET env).

Definition generateTokens (env : Env.t) (u : UserService.User)
  : HonoJwt.Token * HonoJwt.Token :=
  (generateAccessToken env u, generateRefreshToken env u).

(** Every exception of [verify] is caught and turned into [null]. *)
Definition verifyToken (env : Env.t) (now : Z) (token : HonoJwt.Token)
    (expectedType : option string) : option AuthTokenPayload :=
  match HonoJwt.verify token (Env.JWT_SECRET env) now with
  | inl _ => None
  | inr payload =>
      if negb (truthy_string (HonoJwt.userId payload))
         || negb (truthy_string (HonoJwt.email payload))
         || negb (truthy_string (HonoJwt.tokenType payload))
      then None
      else
        let kind := default "" (HonoJwt.tokenType payload) in
        if truthy_string expectedType
           && negb (String.eqb kind (default "" expectedType))
        then None
        else Some {| userId := default "" (HonoJwt.userId payload);
                     email := default "" (HonoJwt.email payload);
                     tokenType := kind;
                     iat := HonoJwt.iat payload;
                     exp := HonoJwt.exp payload |}
  end.

Definition verifyAccessToken (env : Env.t) (now : Z) (token : HonoJwt.Token) :=
  verifyToken env now token (Some "access").

Definition verifyRefreshToken (env : Env.t) (now : Z) (token : HonoJwt.Token) :=
  verifyToken env now token (Some "refresh").

(** [throw new Error(msg)] is [inl msg]. *)
Definition login (env : Env.t) (credentials : LoginCredentials)
    (users : UserService.Users) : string + AuthResponse :=
  match UserService.findByEmail (cred_email credentials) users with
  | None => inl "Invalid email or password"
  | Some u =>
      if negb (UserService.verifyPassword (cred_password credentials)
                 (UserService.password_hash u))
      then inl "Invalid email or password"
      else
        let tokens := generateTokens env u in
        inr {| user := UserService.without_password u;
               accessToken := tokens.1;
               refreshToken := tokens.2 |}
  end.

Definition getUserFromToken (env : Env.t) (now : Z) (token : HonoJwt.Token)
    (users : UserService.Users) : option UserService.UserWithoutPassword :=
  match verifyToken env now token None with
  | None => None
  | Some decoded =>
      match UserService.findById (userId decoded) users with
      | None => None
      | Some u => Some (UserService.without_password u)
      end
  end.

Definition refreshAccessToken (env : Env.t) (now : Z) (refreshToken : HonoJwt.Token)
    (users : UserService.Users) : option (HonoJwt.Token * HonoJwt.Token) :=
  match verifyRefreshToken env now refreshToken with
  | None => None
  | Some decoded =>
      match UserService.findById (userId decoded) users with
      | None => None
      | Some u => Some (generateTokens env u)
      end
  end.

(** *** [validatePassword] *)

Fixpoint some_char (p : ascii -> bool) (s : string) : bool :=
  match s with
  | EmptyString => false
  | String c rest => p c || some_char p rest
  end.

Definition in_range (lo hi : nat) (c : ascii) : bool :=
  let n := Ascii.nat_of_ascii c in
  ((lo <=? n) && (n <=? hi))%nat.

Definition is_lower : ascii -> bool := in_range 97 122.
Definition is_upper : ascii -> bool := in_range 65 90.
Definition is_digit : ascii -> bool := in_range 48 57.

(** The class [[@$!%*?&]] *)
Definition is_special (c : ascii) : bool :=
  existsb (Ascii.eqb c) ["@"; "$"; "!"; "%"; "*"; "?"; "&"]%char.

Record Validation := {
  valid : bool;
  errors : list string
}.

Definition validatePassword (password : string) : Validation :=
  let errors :=
    ((if (js_length password <? 8)%nat
     then ["Password must be at least 8 characters long"] else [])
    ++ (if negb (some_char is_lower password)
        then ["Password must contain at least one lowercase letter"] else [])
    ++ (if negb (some_char is_upper password)
        then ["Password must contain at least one uppercase letter"] else [])
    ++ (if negb (some_char is_digit password)
        then ["Password must contain at least one number"] else [])
    ++ (if negb (some_char is_special password)
        then ["Password must contain at least one special character (@$!%*?&)"]
        else []))%list
  in
  {| valid := (length errors =? 0)%nat; errors := errors |}.

(** The whole body sits in [try { ... } catch { return false }]: a failed
    validation and a failed update both [throw] inside the [try], so the
    caller only ever sees the boolean. *)
Definition resetPassword (result_length : nat -> nat) (salt : nat) (now : Z)
    (token : string) (newPassword : string) (users : UserService.Users)
  : UserService.Users * bool :=
  let validation := validatePassword newPassword in
  if negb (valid validation) then (users, false)
  else
    let r := UserService.resetPassword result_length salt now token newPassword users in
    if negb r.2 then (r.1, false) else (r.1, true).

(** *** The rest of the class: registration, legacy wrappers, reset request *)

Record RegisterData := {
  reg_email : string;
  reg_password : string;
  reg_name : string
}.

(** The text of the driver's error when the INSERT itself fails. *)
Definition insert_failed : string := "insert into users failed".

(** The welcome mail is sent without being awaited and its failure is only
    logged, so it has no part in the result. *)
Definition register (env : Env.t) (salt : nat) (now : Z) (new_id : string)
    (userData : RegisterData) (users : UserService.Users)
  : string + (UserService.Users * AuthResponse) :=
  match UserService.findByEmail (reg_email userData) users with
  | Some _ => inl "User with this email already exists"
  | None =>
      if (js_length (reg_password userData) <? 8)%nat
      then inl "Password must be at least 8 characters long"
      else
        match UserService.create salt now new_id
                {| UserService.new_email := reg_email userData;
                   UserService.new_password := reg_password userData;
                   UserService.new_name := reg_name userData |} users with
        | None => inl insert_failed
        | Some (users', u) =>
            let tokens := generateTokens env u in
            inr (users',
                 {| user := UserService.without_password u;
                    accessToken := tokens.1;
                    refreshToken := tokens.2 |})
        end
  end.

(** The row a successful [register] inserts. *)
Definition registered_row (salt : nat) (now : Z) (new_id : string)
    (userData : RegisterData) : UserService.User :=
  UserService.new_row (BunPassword.hash salt (reg_password userData)) now new_id
    {| UserService.new_email := reg_email userData;
       UserService.new_password := reg_password userData;
       UserService.new_name := reg_name userData |}.

(** Legacy wrappers. *)
Definition generateToken (env : Env.t) (u : UserService.User) : HonoJwt.Token :=
  generateAccessToken env u.

Definition refreshToken_legacy (env : Env.t) (now : Z) (oldToken : HonoJwt.Token)
    (users : UserService.Users) : option HonoJwt.Token :=
  match refreshAccessToken env now oldToken users with
  | Some tokens => Some tokens.1
  | None => None
  end.

(** [resetToken] is the 64 hex characters drawn from
    [crypto.getRandomValues]; [emailSent] is what
    [EmailService.sendPasswordResetEmail] resolves to.  A token that could not
    be stored [throw]s inside the [try], which returns [false]. *)
Definition requestPasswordReset (env : Env.t) (result_length : nat -> nat)
    (now : Z) (resetToken : string) (emailSent : bool) (e : string)
    (users : UserService.Users) : UserService.Users * bool :=
  match UserService.findByEmail e users with
  | None => (users, true)
  | Some _ =>
      let r := UserService.setPasswordResetToken env result_length now e resetToken users in
      if negb r.2 then (r.1, false)
      else if negb emailSent then (r.1, true)
      else (r.1, true)
  end.

End AuthService.

(** ** HTTP responses ([c.json(body, status, headers)] plus cookie writes) *)

Module Http.

Inductive Body :=
| Failure (error : string)
    (* { success: false, error } *)
| Success (message : string)
    (* { success: true, message } *)
| SuccessUser (message : option string) (user : UserService.UserWithoutPassword)
    (* { success: true, message?, data: { user } } *)
| RateLimited (error : string) (retryAfter : option Z)
    (* { success: false, error, retryAfter } *)
| ValidationFailed (issues : list string).
    (* what zValidator answers when the schema rejects the body *)

Inductive CookieOp :=
| SetCookie (name : string) (value : HonoJwt.Token) (maxAge : Z)
| DeleteCookie (name : string).

Record Response := {
  status : Z;
  body : Body;
  headers : list (string * string);
  cookies : list CookieOp
}.

(** [c.json(body)] answers 200. *)
Definition json (b : Body) (st : Z) : Response :=
  {| status := st; body := b; headers := []; cookies := [] |}.

(** What a middleware does: answer, or call [next()] after [c.set("user", _)]. *)
Inductive Outcome :=
| Respond (r : Response)
| Next (user : UserService.UserWithoutPassword).

End Http.

(** ** [middleware/auth.ts] *)

Module AuthMiddleware.

(** [accessToken] is the value of the [access_token] cookie; [salt] is the
    salt of the hash computed inside [isBlacklisted]. *)
Definition authMiddleware (env : Env.t) (salt : nat) (now : Z)
    (accessToken : option HonoJwt.Token) (db : Db.t) : Http.Outcome :=
  match accessToken with
  | None =>
      Http.Respond (Http.json
        (Http.Failure "No access token provided. Please login first.") 401)
  | Some accessToken =>
      if HonoJwt.is_empty accessToken then
        Http.Respond (Http.json
          (Http.Failure "No access token provided. Please login first.") 401)
      else if TokenBlacklist.isBlacklisted salt now accessToken db then
        Http.Respond (Http.json
          (Http.Failure "Token has been invalidated. Please login again.") 401)
      else
        match AuthService.verifyToken env now accessToken None with
        | None =>
            Http.Respond (Http.json
              (Http.Failure
                 "Invalid or expired access token. Please refresh your session.")
              401)
        | Some decoded =>
            if negb (TokenBlacklist.isTokenValidForUser
                       (AuthService.userId decoded) (AuthService.iat decoded) db)
            then
              Http.Respond (Http.json
                (Http.Failure "Session has been terminated. Please login again.")
                401)
            else
              match AuthService.getUserFromToken env now accessToken (Db.users db) with
              | None =>
                  Http.Respond (Http.json
                    (Http.Failure
                       "Invalid or expired access token. Please refresh your session.")
                    401)
              | Some u => Http.Next u
              end
        end
  end.

(** [optionalAuthMiddleware]: the user it puts in the context, if any; it
    always calls [next()]. *)
Definition optionalAuthMiddleware (env : Env.t) (now : Z)
    (accessToken : option HonoJwt.Token) (db : Db.t)
  : option UserService.UserWithoutPassword :=
  match accessToken with
  | None => None
  | Some accessToken =>
      if HonoJwt.is_empty accessToken then None
      else AuthService.getUserFromToken env now accessToken (Db.users db)
  end.

(** [c.get("user") || null] *)
Definition getAuthUser (user : option UserService.UserWithoutPassword)
  : option UserService.UserWithoutPassword := user.

(** [user?.id || null] *)
Definition getAuthUserId (user : option UserService.UserWithoutPassword)
  : option string :=
  match getAuthUser user with
  | Some u => if String.eqb (UserService.pub_id u) "" then None
              else Some (UserService.pub_id u)
  | None => None
  end.

Definition requireVerifiedUser (user : option UserService.UserWithoutPassword)
  : Http.Outcome :=
  match getAuthUser user with
  | None => Http.Respond (Http.json (Http.Failure "Authentication required") 401)
  | Some u =>
      if negb (UserService.pub_email_verified u) then
        Http.Respond (Http.json
          (Http.Failure "Email verification required. Please verify your email address.")
          403)
      else Http.Next u
  end.

End AuthMiddleware.

(** ** [middleware/rateLimit.ts] *)

Module RateLimit.

(** The request headers the limiter reads. *)
Record Context := {
  x_forwarded_for : option string;
  x_real_ip : option string;
  user_agent : option string
}.

Record ClientData := {
  count : Z;
  resetTime : Z
}.

Record RateLimiter := {
  requests : gmap string ClientData;
  windowSize : Z;
  maxRequests : Z
}.

Definition with_requests (m : gmap string ClientData) (l : RateLimiter) : RateLimiter :=
  {| requests := m; windowSize := windowSize l; maxRequests := maxRequests l |}.

Definition new_RateLimiter (windowSizeMs maxRequests : Z) : RateLimiter :=
  {| requests := ∅; windowSize := windowSizeMs; maxRequests := maxRequests |}.

Definition cleanup (now : Z) (l : RateLimiter) : RateLimiter :=
  with_requests
    (filter (fun kv => negb (resetTime kv.2 <? now) = true) (requests l)) l.

(** [split(",")[0]] *)
Fixpoint before_comma (s : string) : string :=
  match s with
  | EmptyString => EmptyString
  | String c rest =>
      if Ascii.eqb c "," then EmptyString else String c (before_comma rest)
  end.

(** Whitespace stripped by [trim], within ASCII. *)
Definition is_space (c : ascii) : bool :=
  existsb (Nat.eqb (Ascii.nat_of_ascii c)) [9; 10; 11; 12; 13; 32]%nat.

Fixpoint trim_start (s : string) : string :=
  match s with
  | EmptyString => EmptyString
  | String c rest => if is_space c then trim_start rest else s
  end.

Fixpoint trim_end (s : string) : string :=
  match s with
  | EmptyString => EmptyString
  | String c rest =>
      let rest' := trim_end rest in
      if is_space c && String.eqb rest' "" then EmptyString else String c rest'
  end.

Definition trim (s : string) : string := trim_end (trim_start s).

(** [a || b] on strings that may be [undefined] *)
Definition or_else (a : option string) (b : option string) : option string :=
  if truthy_string a then a else b.

(** Header values are ASCII, where a byte is a code unit, so [slice(0, n)]
    is the substring of the first [n] bytes. *)
Definition getClientId (env : Env.t) (c : Context) : string :=
  let forwarded := x_forwarded_for c in
  let realIp := x_real_ip c in
  let clientIp :=
    default "unknown"
      (or_else (or_else (option_map (fun f => trim (before_comma f)) forwarded) realIp)
               (Some "unknown")) in
  let userAgent := default "unknown" (or_else (user_agent c) (Some "unknown")) in
  (clientIp ++ ":" ++
     String.substring 0 (Env.RATE_LIMIT_USER_AGENT_LENGTH env) userAgent)%string.

Record Verdict := {
  allowed : bool;
  retryAfter : option Z
}.

(** [Math.ceil(x / 1000)] for an integer [x] *)
Definition ceil_div_1000 (x : Z) : Z := - ((- x) / 1000).

Definition isAllowed (env : Env.t) (now : Z) (c : Context) (l : RateLimiter)
  : RateLimiter * Verdict :=
  let clientId := getClientId env c in
  match requests l !! clientId with
  | None =>
      (with_requests
         (<[clientId := {| count := 1; resetTime := now + windowSize l |}]> (requests l)) l,
       {| allowed := true; retryAfter := None |})
  | Some clientData =>
      if resetTime clientData <? now then
        (with_requests
           (<[clientId := {| count := 1; resetTime := now + windowSize l |}]> (requests l)) l,
         {| allowed := true; retryAfter := None |})
      else if maxRequests l <=? count clientData then
        (l, {| allowed := false;
               retryAfter := Some (ceil_div_1000 (resetTime clientData - now)) |})
      else
        (with_requests
           (<[clientId := {| count := count clientData + 1;
                             resetTime := resetTime clientData |}]> (requests l)) l,
         {| allowed := true; retryAfter := None |})
  end.

(** [n.toString()] of an integer *)
Definition toString (n : Z) : string := pretty n.

(** [None] stands for [await next()]. *)
Definition rateLimitMiddleware (env : Env.t) (now : Z) (c : Context)
    (l : RateLimiter) : RateLimiter * option Http.Response :=
  let r := isAllowed env now c l in
  if negb (allowed r.2) then
    (r.1,
     Some {| Http.status := 429;
             Http.body := Http.RateLimited
                            "Rate limit exceeded. Please try again later."
                            (retryAfter r.2);
             Http.headers :=
               [("Retry-After",
                 default "60" (or_else (option_map toString (retryAfter r.2)) (Some "60")));
                ("X-RateLimit-Remaining", "0")];
             Http.cookies := [] |})
  else (r.1, None).

(** [getRateLimitHeaders]; it reads the counter as stored, without looking
    at the clock when an entry exists. *)
Definition remaining (c : ClientData) (l : RateLimiter) : Z :=
  Z.max 0 (maxRequests l - count c).

Definition getRateLimitHeaders (env : Env.t) (now : Z) (c : Context)
    (l : RateLimiter) : list (string * string) :=
  match requests l !! getClientId env c with
  | None =>
      [("X-RateLimit-Limit", toString (maxRequests l));
       ("X-RateLimit-Remaining", toString (maxRequests l));
       ("X-RateLimit-Reset", toString (ceil_div_1000 (now + windowSize l)))]
  | Some clientData =>
      [("X-RateLimit-Limit", toString (maxRequests l));
       ("X-RateLimit-Remaining", toString (remaining clientData l));
       ("X-RateLimit-Reset", toString (ceil_div_1000 (resetTime clientData)))]
  end.

End RateLimit.

(** ** [routes/auth.ts]

    Each handler is modelled together with the [zValidator] in front of it;
    the rate limiters mounted on the same paths are [RateLimit] above. *)

Module AuthRoutes.

(** [loginSchema]; [is_email] is zod's [string().email()] test. *)
Definition loginSchema (is_email : string -> bool)
    (body : AuthService.LoginCredentials) : list string :=
  ((if is_email (AuthService.cred_email body) then [] else ["Invalid email address"])
   ++ (if (1 <=? js_length (AuthService.cred_password body))%nat then []
       else ["Password is required"]))%list.

Record ResetPasswordBody := {
  token : string;
  password : string
}.

Definition resetPasswordSchema (body : ResetPasswordBody) : list string :=
  ((if (1 <=? js_length (token body))%nat then []
    else ["Reset token is required"])
   ++ (if (8 <=? js_length (password body))%nat then []
       else ["Password must be at least 8 characters long"]))%list.

Definition is_nil {A} (l : list A) : bool :=
  match l with [] => true | _ => false end.

(** [auth.post("/login", ...)] *)
Definition login (env : Env.t) (is_email : string -> bool)
    (body : AuthService.LoginCredentials) (db : Db.t) : Http.Response :=
  let issues := loginSchema is_email body in
  if negb (is_nil issues) then Http.json (Http.ValidationFailed issues) 400
  else
    match AuthService.login env body (Db.users db) with
    | inr authResponse =>
        {| Http.status := 200;
           Http.body := Http.SuccessUser (Some "Login successful")
                          (AuthService.user authResponse);
           Http.headers := [];
           Http.cookies :=
             [Http.SetCookie "access_token" (AuthService.accessToken authResponse)
                (Env.COOKIE_ACCESS_TOKEN_MAX_AGE env);
              Http.SetCookie "refresh_token" (AuthService.refreshToken authResponse)
                (Env.COOKIE_REFRESH_TOKEN_MAX_AGE env)] |}
    | inl message => Http.json (Http.Failure message) 401
    end.

(** [auth.get("/me", ...)] *)
Definition me (env : Env.t) (now : Z) (accessToken : option HonoJwt.Token)
    (db : Db.t) : Http.Response :=
  match accessToken with
  | None => Http.json (Http.Failure "No access token provided") 401
  | Some accessToken =>
      if HonoJwt.is_empty accessToken
      then Http.json (Http.Failure "No access token provided") 401
      else
        match AuthService.getUserFromToken env now accessToken (Db.users db) with
        | None => Http.json (Http.Failure "Invalid or expired access token") 401
        | Some u => Http.json (Http.SuccessUser None u) 200
        end
  end.

(** [auth.post("/reset-password", ...)]: the handler awaits
    [AuthService.resetPassword] and drops the boolean it resolves to; the
    [catch] branch answering 400 needs an exception, which that call never
    lets out. *)
Definition reset_password (result_length : nat -> nat) (salt : nat) (now : Z)
    (body : ResetPasswordBody) (db : Db.t) : Db.t * Http.Response :=
  let issues := resetPasswordSchema body in
  if negb (is_nil issues) then (db, Http.json (Http.ValidationFailed issues) 400)
  else
    let r := AuthService.resetPassword result_length salt now
               (token body) (password body) (Db.users db) in
    (Db.with_users r.1 db, Http.json (Http.Success "Password reset successfully") 200).

(** [auth.post("/logout", ...)]: when [blacklistToken] rejects, the [catch]
    deletes the cookies and answers as the [try] would have. *)
Definition logout (env : Env.t) (salt : nat) (now : Z)
    (accessToken : option HonoJwt.Token) (db : Db.t) : Db.t * Http.Response :=
  let db' :=
    match accessToken with
    | None => db
    | Some accessToken =>
        if HonoJwt.is_empty accessToken then db
        else
          match AuthService.verifyAccessToken env now accessToken with
          | Some decoded =>
              match TokenBlacklist.blacklistToken salt now accessToken
                      (Some (AuthService.userId decoded)) db with
              | Some db' => db'
              | None => db
              end
          | None => db
          end
    end in
  (db',
   {| Http.status := 200;
      Http.body := Http.Success "Logout successful";
      Http.headers := [];
      Http.cookies := [Http.DeleteCookie "access_token";
                       Http.DeleteCookie "refresh_token"] |}).

(** The [Authorization] header: [Bearer token] when it starts with
    ["Bearer "], with [token] the rest of the header. *)
Inductive Authorization :=
| Bearer (token : HonoJwt.Token)
| OtherScheme (raw : string).

(** [auth.post("/logout-all", ...)] *)
Definition logout_all (env : Env.t) (now : Z) (authHeader : option Authorization)
    (db : Db.t) : Db.t * Http.Response :=
  match authHeader with
  | Some (Bearer token) =>
      match AuthService.verifyToken env now token None with
      | None => (db, Http.json (Http.Failure "Invalid token") 401)
      | Some decoded =>
          match TokenBlacklist.blacklistAllUserTokens now
                  (AuthService.userId decoded) db with
          | Some db' =>
              (db', Http.json (Http.Success "Logged out from all devices") 200)
          | None => (db, Http.json (Http.Failure "Logout failed") 500)
          end
      end
  | _ => (db, Http.json (Http.Failure "No token provided") 401)
  end.

(** [registerSchema] *)
Definition registerSchema (is_email : string -> bool)
    (body : AuthService.RegisterData) : list string :=
  ((if is_email (AuthService.reg_email body) then [] else ["Invalid email address"])
   ++ (if (8 <=? js_length (AuthService.reg_password body))%nat then []
       else ["Password must be at least 8 characters long"])
   ++ (if (2 <=? js_length (AuthService.reg_name body))%nat then []
       else ["Name must be at least 2 characters long"]))%list.

(** [auth.post("/register", ...)] *)
Definition register (env : Env.t) (is_email : string -> bool) (salt : nat)
    (now : Z) (new_id : string) (body : AuthService.RegisterData) (db : Db.t)
  : Db.t * Http.Response :=
  let issues := registerSchema is_email body in
  if negb (is_nil issues) then (db, Http.json (Http.ValidationFailed issues) 400)
  else
    match AuthService.register env salt now new_id body (Db.users db) with
    | inr (users', authResponse) =>
        (Db.with_users users' db,
         {| Http.status := 201;
            Http.body := Http.SuccessUser (Some "User registered successfully")
                           (AuthService.user authResponse);
            Http.headers := [];
            Http.cookies :=
              [Http.SetCookie "access_token" (AuthService.accessToken authResponse)
                 (Env.COOKIE_ACCESS_TOKEN_MAX_AGE env);
               Http.SetCookie "refresh_token" (AuthService.refreshToken authResponse)
                 (Env.COOKIE_REFRESH_TOKEN_MAX_AGE env)] |})
    | inl message => (db, Http.json (Http.Failure message) 400)
    end.

(** [auth.post("/refresh", ...)] *)
Definition refresh (env : Env.t) (now : Z) (refreshToken : option HonoJwt.Token)
    (db : Db.t) : Http.Response :=
  match refreshToken with
  | None => Http.json (Http.Failure "No refresh token provided") 401
  | Some refreshToken =>
      if HonoJwt.is_empty refreshToken
      then Http.json (Http.Failure "No refresh token provided") 401
      else
        match AuthService.refreshAccessToken env now refreshToken (Db.users db) with
        | None => Http.json (Http.Failure "Token refresh failed") 401
        | Some tokens =>
            {| Http.status := 200;
               Http.body := Http.Success "Tokens refreshed successfully";
               Http.headers := [];
               Http.cookies :=
                 [Http.SetCookie "access_token" tokens.1
                    (Env.COOKIE_ACCESS_TOKEN_MAX_AGE env);
                  Http.SetCookie "refresh_token" tokens.2
                    (Env.COOKIE_REFRESH_TOKEN_MAX_AGE env)] |}
        end
  end.

(** [resetPasswordRequestSchema] *)
Definition resetPasswordRequestSchema (is_email : string -> bool) (e : string)
  : list string :=
  if is_email e then [] else ["Invalid email address"].

(** [auth.post("/forgot-password", ...)]: the handler awaits
    [requestPasswordReset] and answers without looking at its result. *)
Definition forgot_password (env : Env.t) (is_email : string -> bool)
    (result_length : nat -> nat) (now : Z) (resetToken : string) (emailSent : bool)
    (e : string) (db : Db.t) : Db.t * Http.Response :=
  let issues := resetPasswordRequestSchema is_email e in
  if negb (is_nil issues) then (db, Http.json (Http.ValidationFailed issues) 400)
  else
    let r := AuthService.requestPasswordReset env result_length now resetToken
               emailSent e (Db.users db) in
    (Db.with_users r.1 db,
     Http.json
       (Http.Success "If an account with that email exists, a reset code has been sent")
       200).

End AuthRoutes.

(** ** [middleware/errorHandler.ts] *)

Module ErrorHandler.

(** An error as the handler reads it; a plain [Error] has neither
    [statusCode] nor [expose]. *)
Record SecurityError := {
  message : string;
  stack : option string;
  statusCode : option Z;
  isOperational : option bool;
  expose : option bool
}.

(** [new AppError(message, statusCode = 500, expose = false)] *)
Definition AppError (message : string) (statusCode : option Z)
    (expose : option bool) (stack : option string) : SecurityError := {|
  message := message;
  stack := stack;
  statusCode := Some (default 500 statusCode);
  isOperational := Some true;
  expose := Some (default false expose)
|}.

Definition createValidationError (message : string) :=
  AppError message (Some 400) (Some true).
Definition createAuthError (message : option string) :=
  AppError (default "Authentication failed" message) (Some 401) (Some true).
Definition createForbiddenError (message : option string) :=
  AppError (default "Access denied" message) (Some 403) (Some true).
Definition createNotFoundError (message : option string) :=
  AppError (default "Resource not found" message) (Some 404) (Some true).
Definition createRateLimitError (message : option string) :=
  AppError (default "Rate limit exceeded" message) (Some 429) (Some true).
Definition createInternalError (message : option string) :=
  AppError (default "Internal server error" message) (Some 500) (Some false).

Record Details := {
  details_stack : option string;
  originalMessage : string
}.

Record Response := {
  status : Z;
  error : string;
  body_statusCode : Z;
  timestamp : Z;
  details : option Details;
  headers : list (string * string)
}.

(** The statuses the runtime's [Response], which [c.json] builds, accepts:
    101 and 200 to 599.  For any other status its constructor throws a
    [RangeError]. *)
Definition status_accepted (status : Z) : bool :=
  (status =? 101) || ((200 <=? status) && (status <=? 599)).

(** The function [createSecureErrorHandler()] returns; [isDevelopment] is
    [env.NODE_ENV === "development"] and [now] the instant of the
    timestamp.  [None]: [c.json] throws and the handler returns no
    response. *)
Definition secureErrorHandler (isDevelopment : bool) (now : Z)
    (err : SecurityError) : option Response :=
  let statusCode :=
    if truthy_number (statusCode err) then default 500 (statusCode err) else 500 in
  let clientMessage :=
    if default false (expose err) || (statusCode <? 500) then message err
    else "Internal server error" in
  let details :=
    if isDevelopment && (500 <=? statusCode)
    then Some {| details_stack := stack err; originalMessage := message err |}
    else None in
  if status_accepted statusCode then
    Some {| status := statusCode;
            error := clientMessage;
            body_statusCode := statusCode;
            timestamp := now;
            details := details;
            headers := [("X-Content-Type-Options", "nosniff");
                        ("Cache-Control", "no-store")] |}
  else None.

(** What a route handler may throw: an [AppError], or anything else. *)
Inductive Thrown :=
| AnAppError (err : SecurityError)
| Other (message : string) (stack : option string).

(** The [catch] of [asyncHandler]: what is thrown on to the error handler;
    [stack] is the stack captured by the new error. *)
Definition asyncHandler_rethrow (stack : option string) (err : Thrown) : SecurityError :=
  match err with
  | AnAppError e => e
  | Other _ _ => createInternalError (Some "An unexpected error occurred") stack
  end.

End ErrorHandler.

(** ** [routes/users.ts]

    Every route of this file runs behind [authMiddleware]; [user] is what the
    middleware left in the context. *)

Module UsersRoutes.

Definition Ctx := option UserService.UserWithoutPassword.

(** [users.use("*", authMiddleware)]: a handler of this file behind its
    middleware. *)
Definition behind_auth (env : Env.t) (salt : nat) (now : Z)
    (accessToken : option HonoJwt.Token)
    (handler : Ctx -> Db.t -> Db.t * Http.Response) (db : Db.t)
  : Db.t * Http.Response :=
  match AuthMiddleware.authMiddleware env salt now accessToken db with
  | Http.Respond r => (db, r)
  | Http.Next u => handler (Some u) db
  end.

(** [users.get("/profile", ...)] *)
Definition get_profile (user : Ctx) (db : Db.t) : Http.Response :=
  match AuthMiddleware.getAuthUserId user with
  | None => Http.json (Http.Failure "User not found") 401
  | Some userId =>
      match UserService.findById userId (Db.users db) with
      | None => Http.json (Http.Failure "User not found") 404
      | Some u => Http.json (Http.SuccessUser None (UserService.without_password u)) 200
      end
  end.

Record UpdateProfileBody := {
  body_name : option string;
  body_email : option string
}.

(** [updateUserSchema]: both fields are optional. *)
Definition updateUserSchema (is_email : string -> bool) (body : UpdateProfileBody)
  : list string :=
  ((match body_name body with
    | Some n => if (2 <=? js_length n)%nat then []
                else ["Name must be at least 2 characters long"]
    | None => []
    end)
   ++ (match body_email body with
       | Some e => if is_email e then [] else ["Invalid email address"]
       | None => []
       end))%list.

(** [users.put("/profile", ...)] *)
Definition put_profile (is_email : string -> bool) (salt : nat) (now : Z)
    (user : Ctx) (body : UpdateProfileBody) (db : Db.t) : Db.t * Http.Response :=
  let issues := updateUserSchema is_email body in
  if negb (AuthRoutes.is_nil issues)
  then (db, Http.json (Http.ValidationFailed issues) 400)
  else
    match AuthMiddleware.getAuthUserId user with
    | None => (db, Http.json (Http.Failure "User not found") 401)
    | Some userId =>
        let taken :=
          if truthy_string (body_email body) then
            match UserService.findByEmail (default "" (body_email body)) (Db.users db) with
            | Some existingUser => negb (String.eqb (UserService.id existingUser) userId)
            | None => false
            end
          else false in
        if taken then (db, Http.json (Http.Failure "Email is already in use") 400)
        else
          let r := UserService.update salt now userId
                     {| UserService.upd_email := body_email body;
                        UserService.upd_name := body_name body;
                        UserService.upd_email_verified := None;
                        UserService.upd_password := None |} (Db.users db) in
          match r.2 with
          | None => (Db.with_users r.1 db,
                     Http.json (Http.Failure "Failed to update user") 500)
          | Some updatedUser =>
              (Db.with_users r.1 db,
               Http.json (Http.SuccessUser (Some "Profile updated successfully")
                            (UserService.without_password updatedUser)) 200)
          end
    end.

Record ChangePasswordBody := {
  currentPassword : string;
  newPassword : string
}.

Definition changePasswordSchema (body : ChangePasswordBody) : list string :=
  ((if (1 <=? js_length (currentPassword body))%nat then []
    else ["Current password is required"])
   ++ (if (8 <=? js_length (newPassword body))%nat then []
       else ["New password must be at least 8 characters long"]))%list.

(** [users.post("/change-password", ...)] *)
Definition change_password (salt : nat) (now : Z) (user : Ctx)
    (body : ChangePasswordBody) (db : Db.t) : Db.t * Http.Response :=
  let issues := changePasswordSchema body in
  if negb (AuthRoutes.is_nil issues)
  then (db, Http.json (Http.ValidationFailed issues) 400)
  else
    match AuthMiddleware.getAuthUserId user with
    | None => (db, Http.json (Http.Failure "User not found") 401)
    | Some userId =>
        match UserService.findById userId (Db.users db) with
        | None => (db, Http.json (Http.Failure "User not found") 404)
        | Some u =>
            if negb (UserService.verifyPassword (currentPassword body)
                       (UserService.password_hash u))
            then (db, Http.json (Http.Failure "Current password is incorrect") 400)
            else
              let r := UserService.update salt now userId
                         {| UserService.upd_email := None;
                            UserService.upd_name := None;
                            UserService.upd_email_verified := None;
                            UserService.upd_password := Some (newPassword body) |}
                         (Db.users db) in
              match r.2 with
              | None => (Db.with_users r.1 db,
                         Http.json (Http.Failure "Failed to update password") 500)
              | Some _ => (Db.with_users r.1 db,
                           Http.json (Http.Success "Password updated successfully") 200)
              end
        end
    end.

(** [users.delete("/account", ...)] *)
Definition delete_account (result_length : nat -> nat) (user : Ctx) (db : Db.t)
  : Db.t * Http.Response :=
  match AuthMiddleware.getAuthUserId user with
  | None => (db, Http.json (Http.Failure "User not found") 401)
  | Some userId =>
      let r := Db.delete_user result_length userId db in
      if negb r.2 then (r.1, Http.json (Http.Failure "Failed to delete account") 500)
      else (r.1, Http.json (Http.Success "Account deleted successfully") 200)
  end.

End UsersRoutes.

(** ** [services/tokenService.ts]: the [user_tokens] table *)

Module TokenService.

Inductive TokenType := auth | password_reset | email_verification.

#[global] Instance TokenType_eq_dec : EqDecision TokenType.
Proof. solve_decision. Defined.

Record UserToken := {
  id : string;
  user_id : string;
  token : string;
  token_type : TokenType;
  expires_at : option Z;
  created_at : Z;
  used_at : option Z;
  ip_address : option string;
  user_agent : option string
}.

Record CreateTokenData := {
  data_user_id : string;
  data_token_type : TokenType;
  data_expires_at : option Z;
  data_ip_address : option string;
  data_user_agent : option string
}.

(** The [user_tokens] table, in row order. *)
Definition UserTokens := list UserToken.

(** [x || null] on a string that may be [undefined] *)
Definition or_null (x : option string) : option string :=
  if truthy_string x then x else None.

(** [token] is what [generateSecureToken()] draws and [new_id] the row's
    [gen_random_uuid()].  The column [token] is UNIQUE, so the INSERT fails
    ([None]) when the value is already stored. *)
Definition createToken (new_id token : string) (now : Z) (data : CreateTokenData)
    (tokens : UserTokens) : option (UserTokens * UserToken) :=
  if existsb (fun t => String.eqb (TokenService.token t) token
                       || String.eqb (id t) new_id) tokens
  then None
  else
    let row := {| id := new_id;
                  user_id := data_user_id data;
                  token := token;
                  token_type := data_token_type data;
                  expires_at := data_expires_at data;
                  created_at := now;
                  used_at := None;
                  ip_address := or_null (data_ip_address data);
                  user_agent := or_null (data_user_agent data) |} in
    Some ((tokens ++ [row])%list, row).

Definition unused (t : UserToken) : bool :=
  match used_at t with None => true | Some _ => false end.

(** [expires_at IS NULL OR expires_at > NOW()] *)
Definition unexpired (now : Z) (t : UserToken) : bool :=
  match expires_at t with None => true | Some e => now <? e end.

Definition findByToken (token : string) (tokens : UserTokens) : option UserToken :=
  head (List.filter (fun t => String.eqb (TokenService.token t) token && unused t) tokens).

(** [tokenType] is an optional string of the enumeration, so [if (tokenType)]
    tests whether it was given. *)
Definition verifyToken (now : Z) (token : string) (tokenType : option TokenType)
    (tokens : UserTokens) : option UserToken :=
  match tokenType with
  | Some ty =>
      head (List.filter
              (fun t => String.eqb (TokenService.token t) token && unused t
                        && unexpired now t && bool_decide (token_type t = ty))
              tokens)
  | None =>
      head (List.filter
              (fun t => String.eqb (TokenService.token t) token && unused t
                        && unexpired now t)
              tokens)
  end.

Definition set_used (now : Z) (t : UserToken) : UserToken := {|
  id := id t;
  user_id := user_id t;
  token := token t;
  token_type := token_type t;
  expires_at := expires_at t;
  created_at := created_at t;
  used_at := Some now;
  ip_address := ip_address t;
  user_agent := user_agent t
|}.

Definition markTokenAsUsed (now : Z) (token : string) (tokens : UserTokens)
  : UserTokens :=
  List.map (fun t => if String.eqb (TokenService.token t) token
                     then set_used now t else t) tokens.

Definition revokeAllUserTokens (now : Z) (userId : string)
    (tokenType : option TokenType) (tokens : UserTokens) : UserTokens :=
  match tokenType with
  | Some ty =>
      List.map (fun t => if String.eqb (user_id t) userId && unused t
                            && bool_decide (token_type t = ty)
                         then set_used now t else t) tokens
  | None =>
      List.map (fun t => if String.eqb (user_id t) userId && unused t
                         then set_used now t else t) tokens
  end.

Definition revokeToken (now : Z) (token : string) (tokens : UserTokens)
  : UserTokens :=
  List.map (fun t => if String.eqb (TokenService.token t) token
                     then set_used now t else t) tokens.

(** The number it returns is the constant 0. *)
Definition cleanupExpiredTokens (now : Z) (tokens : UserTokens) : UserTokens * Z :=
  (List.filter (fun t => negb match expires_at t with
                              | Some e => e <? now
                              | None => false
                              end) tokens,
   0).

Definition getActiveSessionCount (now : Z) (userId : string) (tokens : UserTokens)
  : Z :=
  Z.of_nat
    (length (List.filter
               (fun t => String.eqb (user_id t) userId
                         && bool_decide (token_type t = auth)
                         && unused t && unexpired now t)
               tokens)).

(** [setDate(getDate() + 7)], taken as 7 x 24 hours. *)
Definition seven_days : Z := 7 * 24 * 60 * 60 * 1000.

(** [setHours(getHours() + 1)] *)
Definition one_hour : Z := 60 * 60 * 1000.

Definition createAuthToken (new_id token : string) (now : Z) (userId : string)
    (ipAddress userAgent : option string) (tokens : UserTokens)
  : option (UserTokens * UserToken) :=
  createToken new_id token now
    {| data_user_id := userId;
       data_token_type := auth;
       data_expires_at := Some (now + seven_days);
       data_ip_address := ipAddress;
       data_user_agent := userAgent |} tokens.

(** The earlier reset tokens of the user are revoked first; the revocation
    stays when the INSERT then fails. *)
Definition createPasswordResetToken (new_id token : string) (now : Z)
    (userId : string) (tokens : UserTokens) : UserTokens * option UserToken :=
  let revoked := revokeAllUserTokens now userId (Some password_reset) tokens in
  match createToken new_id token now
          {| data_user_id := userId;
             data_token_type := password_reset;
             data_expires_at := Some (now + one_hour);
             data_ip_address := None;
             data_user_agent := None |} revoked with
  | Some (tokens', row) => (tokens', Some row)
  | None => (revoked, None)
  end.

Definition createEmailVerificationToken (new_id token : string) (now : Z)
    (userId : string) (tokens : UserTokens) : UserTokens * option UserToken :=
  let revoked := revokeAllUserTokens now userId (Some email_verification) tokens in
  match createToken new_id token now
          {| data_user_id := userId;
             data_token_type := email_verification;
             data_expires_at := None;
             data_ip_address := None;
             data_user_agent := None |} revoked with
  | Some (tokens', row) => (tokens', Some row)
  | None => (revoked, None)
  end.

End TokenService.

(** ** A request trace for one limiter *)

Module Trace.

(** Requests of one client, served at the given instants in order. *)
Fixpoint serve (env : Env.t) (c : RateLimit.Context) (times : list Z)
    (l : RateLimit.RateLimiter) : RateLimit.RateLimiter * list RateLimit.Verdict :=
  match times with
  | [] => (l, [])
  | now :: rest =>
      let r := RateLimit.isAllowed env now c l in
      let rs := serve env c rest r.1 in
      (rs.1, r.2 :: rs.2)
  end.

End Trace.

(** ** A schedule of limiter events: requests of any client and cleanup runs *)

Module Schedule.

Inductive Event :=
| Request (now : Z) (c : RateLimit.Context)
| Cleanup (now : Z).

Definition step (env : Env.t) (l : RateLimit.RateLimiter) (e : Event)
  : RateLimit.RateLimiter :=
  match e with
  | Request now c => (RateLimit.isAllowed env now c l).1
  | Cleanup now => RateLimit.cleanup now l
  end.

Definition run (env : Env.t) (events : list Event) (l : RateLimit.RateLimiter)
  : RateLimit.RateLimiter :=
  fold_left (step env) events l.

End Schedule.

(** ** Concrete data used in the worked examples *)

Module Sample.

Definition secret : string := "0123456789abcdef0123456789abcdef".

Definition env : Env.t := Env.defaults secret.

Definition alice : UserService.User := {|
  UserService.id := "7c9e6679-7425-40de-944b-e07fc1f90ae7";
  UserService.email := "alice@example.com";
  UserService.password_hash := BunPassword.hash 11 "Correct-Horse-1!";
  UserService.name := "Alice";
  UserService.created_at := 0;
  UserService.updated_at := 0;
  UserService.email_verified := true;
  UserService.password_reset_token := None;
  UserService.password_reset_expires := None
|}.

Definition db0 : Db.t := {|
  Db.users := [alice];
  Db.token_blacklist := [];
  Db.user_logout_timestamps := ∅
|}.

Definition access : HonoJwt.Token := AuthService.generateAccessToken env alice.
Definition refresh : HonoJwt.Token := AuthService.generateRefreshToken env alice.

Definition browser : RateLimit.Context := {|
  RateLimit.x_forwarded_for := Some "203.0.113.7, 10.0.0.1";
  RateLimit.x_real_ip := None;
  RateLimit.user_agent := Some "curl/8.5.0"
|}.

Definition contains_at (s : string) : bool :=
  AuthService.some_char (Ascii.eqb "@") s.

Definition reset_token : string := "9f86d081884c7d659a2feaa0c55ad015".

(** The users table after Alice asked for a password reset at instant 0. *)
Definition users_resetting : UserService.Users :=
  (UserService.setPasswordResetToken env BunSql.result_length 0 "alice@example.com"
     reset_token (Db.users db0)).1.

(** A second person, not registered yet. *)
Definition bob : AuthService.RegisterData := {|
  AuthService.reg_email := "bob@example.com";
  AuthService.reg_password := "hunter2-hunter2";
  AuthService.reg_name := "Bob"
|}.

Definition bob_id : string := "3f2b8c1e-5d47-4a6b-9c0d-112233445566".

End Sample.

(** * Properties *)

(** ** The revocation ledger *)

Section Blacklist.

Context (salt : nat) (now : Z) (token : HonoJwt.Token) (userId : option string).

(** A lookup whose salt occurs in no stored hash finds nothing. *)
Lemma isBlacklisted_unused_salt (db : Db.t) :
  Forall (fun r => BunPassword.salt (Db.token_hash r) ≠ salt) (Db.token_blacklist db) ->
  TokenBlacklist.isBlacklisted salt now token db = false.
Proof.
  unfold TokenBlacklist.isBlacklisted.
  induction (Db.token_blacklist db) as [|r rows IH]; intros Hall; [reflexivity|].
  inversion Hall as [|? ? Hr Hrows]; subst. simpl.
  rewrite (IH Hrows), orb_false_r.
  unfold TokenBlacklist.has_hash.
  rewrite bool_decide_eq_false_2; [reflexivity|].
  intros Heq. apply Hr. rewrite Heq. reflexivity.
Qed.

(** What an accepted [blacklistToken] leaves behind. *)
Lemma blacklistToken_Some (db db1 : Db.t) :
  TokenBlacklist.blacklistToken salt now token userId db = Some db1 ->
  (existsb (TokenBlacklist.has_hash (BunPassword.hash salt token))
     (Db.token_blacklist db) = true /\ db1 = db)
  \/ (existsb (TokenBlacklist.has_hash (BunPassword.hash salt token))
        (Db.token_blacklist db) = false
      /\ db1 = Db.with_token_blacklist
                 (Db.token_blacklist db ++
                    [ {| Db.token_hash := BunPassword.hash salt token;
                         Db.user_id := TokenBlacklist.or_null userId;
                         Db.expires_at := Some (now + TokenBlacklist.eight_days) |} ])
                 db).
Proof.
  unfold TokenBlacklist.blacklistToken. cbv zeta.
  destruct (existsb _ (Db.token_blacklist db)); [intros [= <-]; by left|].
  destruct (TokenBlacklist.or_null userId) as [i|].
  - destruct (Db.references_user i db); [|discriminate].
    intros [= <-]. by right.
  - intros [= <-]. by right.
Qed.

(** With the salt of the insertion, the lookup does find the row until it
    expires: the table and the query are sound, only the hash differs
    between calls. *)
Lemma isBlacklisted_same_salt (db db1 : Db.t) (later : Z) :
  later < now + TokenBlacklist.eight_days ->
  Forall (fun r => Db.token_hash r ≠ BunPassword.hash salt token) (Db.token_blacklist db) ->
  TokenBlacklist.blacklistToken salt now token userId db = Some db1 ->
  TokenBlacklist.isBlacklisted salt later token db1 = true.
Proof.
  intros Hlater Hfresh Hsome.
  assert (existsb (TokenBlacklist.has_hash (BunPassword.hash salt token))
            (Db.token_blacklist db) = false) as Hnew.
  { induction Hfresh as [|r rows Hr _ IH]; [reflexivity|]. simpl.
    rewrite IH, orb_false_r. unfold TokenBlacklist.has_hash.
    by rewrite bool_decide_eq_false_2. }
  destruct (blacklistToken_Some db db1 Hsome) as [[Hold _]|[_ ->]];
    [rewrite Hold in Hnew; discriminate|].
  unfold TokenBlacklist.isBlacklisted. simpl.
  rewrite existsb_app. simpl.
  unfold TokenBlacklist.has_hash at 2. simpl.
  rewrite bool_decide_eq_true_2 by reflexivity. simpl.
  assert ((later <? now + TokenBlacklist.eight_days) = true) as -> by lia.
  by rewrite orb_true_r.
Qed.

(** [ON CONFLICT (token_hash) DO NOTHING]: inserting a hash that is already
    stored leaves the table as it is, whatever user id comes with it. *)
Lemma blacklistToken_conflict (db db1 : Db.t) (now' : Z) (userId' : option string) :
  TokenBlacklist.blacklistToken salt now token userId db = Some db1 ->
  TokenBlacklist.blacklistToken salt now' token userId' db1 = Some db1.
Proof.
  intros Hsome.
  assert (existsb (TokenBlacklist.has_hash (BunPassword.hash salt token))
            (Db.token_blacklist db1) = true) as Hstored.
  { destruct (blacklistToken_Some db db1 Hsome) as [[Hold ->]|[_ ->]]; [exact Hold|].
    simpl. rewrite existsb_app. simpl.
    unfold TokenBlacklist.has_hash at 2. simpl.
    rewrite bool_decide_eq_true_2 by reflexivity.
    by rewrite orb_true_r. }
  unfold TokenBlacklist.blacklistToken. cbv zeta. by rewrite Hstored.
Qed.

End Blacklist.

(** A second insertion of the same token under another salt adds a row. *)
Lemma blacklistToken_unused_salt (salt : nat) (now : Z) (token : HonoJwt.Token)
    (userId : option string) (db db1 : Db.t) :
  Forall (fun r => BunPassword.salt (Db.token_hash r) ≠ salt) (Db.token_blacklist db) ->
  TokenBlacklist.blacklistToken salt now token userId db = Some db1 ->
  Db.token_blacklist db1
  = (Db.token_blacklist db ++
       [ {| Db.token_hash := BunPassword.hash salt token;
            Db.user_id := TokenBlacklist.or_null userId;
            Db.expires_at := Some (now + TokenBlacklist.eight_days) |} ])%list.
Proof.
  intros Hall Hsome.
  assert (existsb (TokenBlacklist.has_hash (BunPassword.hash salt token))
            (Db.token_blacklist db) = false) as Hnew.
  { induction Hall as [|r rows Hr _ IH]; [reflexivity|]. simpl.
    rewrite IH, orb_false_r. unfold TokenBlacklist.has_hash.
    apply bool_decide_eq_false_2. intros Heq. apply Hr. by rewrite Heq. }
  destruct (blacklistToken_Some salt now token userId db db1 Hsome)
    as [[Hold _]|[_ ->]]; [rewrite Hold in Hnew; discriminate|reflexivity].
Qed.

(** The foreign key of [token_blacklist]: a token whose subject is no stored
    user cannot be blacklisted. *)
Lemma blacklistToken_foreign_key (salt : nat) (now : Z) (token : HonoJwt.Token)
    (userId : string) (db : Db.t) :
  userId <> "" ->
  UserService.findById userId (Db.users db) = None ->
  Forall (fun r => BunPassword.salt (Db.token_hash r) ≠ salt) (Db.token_blacklist db) ->
  TokenBlacklist.blacklistToken salt now token (Some userId) db = None.
Proof.
  intros Hid Hnone Hall.
  assert (existsb (TokenBlacklist.has_hash (BunPassword.hash salt token))
            (Db.token_blacklist db) = false) as Hnew.
  { induction Hall as [|r rows Hr _ IH]; [reflexivity|]. simpl.
    rewrite IH, orb_false_r. unfold TokenBlacklist.has_hash.
    apply bool_decide_eq_false_2. intros Heq. apply Hr. by rewrite Heq. }
  unfold TokenBlacklist.blacklistToken, TokenBlacklist.or_null, Db.references_user.
  cbv zeta. rewrite Hnew.
  assert (truthy_string (Some userId) = true) as ->
    by (simpl; apply negb_true_iff, String.eqb_neq; exact Hid).
  by rewrite Hnone.
Qed.

(** The boundary policy of [isTokenValidForUser]. *)
Lemma isTokenValidForUser_no_logout (userId : string) (issued : option Z) (db : Db.t) :
  Db.user_logout_timestamps db !! userId = None ->
  TokenBlacklist.isTokenValidForUser userId issued db = true.
Proof. intros H. unfold TokenBlacklist.isTokenValidForUser. by rewrite H. Qed.

Lemma isTokenValidForUser_strict (userId : string) (issued logout_at : Z) (db : Db.t) :
  Db.user_logout_timestamps db !! userId = Some logout_at ->
  TokenBlacklist.isTokenValidForUser userId (Some issued) db = true
  <-> logout_at < 1000 * issued.
Proof.
  intros H. unfold TokenBlacklist.isTokenValidForUser. rewrite H.
  apply Z.ltb_lt.
Qed.

Lemma isTokenValidForUser_no_iat (userId : string) (logout_at : Z) (db : Db.t) :
  Db.user_logout_timestamps db !! userId = Some logout_at ->
  TokenBlacklist.isTokenValidForUser userId None db = false.
Proof. intros H. unfold TokenBlacklist.isTokenValidForUser. by rewrite H. Qed.

(** [blacklistAllUserTokens] is accepted exactly for the id of a stored user,
    and then stores the instant of the call for that id and nothing else. *)
Lemma blacklistAllUserTokens_Some (now : Z) (userId : string) (db db1 : Db.t) :
  TokenBlacklist.blacklistAllUserTokens now userId db = Some db1
  <-> (exists u, UserService.findById userId (Db.users db) = Some u)
      /\ db1 = Db.with_user_logout_timestamps
                 (<[userId := now]> (Db.user_logout_timestamps db)) db.
Proof.
  unfold TokenBlacklist.blacklistAllUserTokens, Db.references_user.
  destruct (UserService.findById userId (Db.users db)) as [u|]; split.
  - intros [= <-]. split; [by exists u|reflexivity].
  - by intros [_ ->].
  - discriminate.
  - by intros [[u [=]] _].
Qed.

Lemma blacklistAllUserTokens_lookup (now : Z) (userId : string) (db db1 : Db.t) :
  TokenBlacklist.blacklistAllUserTokens now userId db = Some db1 ->
  Db.user_logout_timestamps db1 !! userId = Some now.
Proof.
  intros H. apply blacklistAllUserTokens_Some in H. destruct H as [_ ->].
  simpl. apply lookup_insert_eq.
Qed.

(** ** The request-authentication middleware *)

(** Whatever the middleware answers itself is a 401. *)
Lemma authMiddleware_respond_401 (env : Env.t) (salt : nat) (now : Z)
    (cookie : option HonoJwt.Token) (db : Db.t) (r : Http.Response) :
  AuthMiddleware.authMiddleware env salt now cookie db = Http.Respond r ->
  Http.status r = 401.
Proof.
  unfold AuthMiddleware.authMiddleware.
  repeat case_match; intros [= <-]; reflexivity.
Qed.

(** The steps a request has to pass, as the middleware runs them. *)
Lemma authMiddleware_next_iff (env : Env.t) (salt : nat) (now : Z)
    (token : HonoJwt.Token) (db : Db.t) (u : UserService.UserWithoutPassword) :
  AuthMiddleware.authMiddleware env salt now (Some token) db = Http.Next u
  <-> HonoJwt.is_empty token = false
      /\ TokenBlacklist.isBlacklisted salt now token db = false
      /\ exists decoded usr,
           AuthService.verifyToken env now token None = Some decoded
           /\ TokenBlacklist.isTokenValidForUser
                (AuthService.userId decoded) (AuthService.iat decoded) db = true
           /\ UserService.findById (AuthService.userId decoded) (Db.users db) = Some usr
           /\ u = UserService.without_password usr.
Proof.
  unfold AuthMiddleware.authMiddleware, AuthService.getUserFromToken.
  split.
  - destruct (HonoJwt.is_empty token); [discriminate|].
    destruct (TokenBlacklist.isBlacklisted salt now token db); [discriminate|].
    destruct (AuthService.verifyToken env now token None) as [decoded|]; [|discriminate].
    destruct (TokenBlacklist.isTokenValidForUser _ _ db) eqn:Hvalid; [|discriminate].
    simpl.
    destruct (UserService.findById _ _) as [usr|] eqn:Hfind; [|discriminate].
    intros [= <-]. repeat split. exists decoded, usr. done.
  - intros (-> & -> & decoded & usr & -> & -> & -> & ->). reflexivity.
Qed.

(** The middleware reads the blacklist only through [isBlacklisted]. *)
Lemma authMiddleware_blacklist_irrelevant (env : Env.t) (salt : nat) (now : Z)
    (cookie : option HonoJwt.Token) (db : Db.t) (rows : list Db.BlacklistRow) :
  (forall token, cookie = Some token ->
     TokenBlacklist.isBlacklisted salt now token (Db.with_token_blacklist rows db)
     = TokenBlacklist.isBlacklisted salt now token db) ->
  AuthMiddleware.authMiddleware env salt now cookie (Db.with_token_blacklist rows db)
  = AuthMiddleware.authMiddleware env salt now cookie db.
Proof.
  intros H. unfold AuthMiddleware.authMiddleware.
  destruct cookie as [token|]; [|reflexivity].
  rewrite (H token eq_refl). reflexivity.
Qed.

(** Logging out leaves the outcome of every later request as it was, as soon
    as the later request's hash draws a salt that no stored row carries and
    that differs from the one drawn at logout. *)
Lemma logout_leaves_middleware_unchanged (env : Env.t) (salt1 salt2 : nat)
    (now1 now2 : Z) (cookie1 cookie2 : option HonoJwt.Token) (db : Db.t) :
  salt1 ≠ salt2 ->
  Forall (fun r => BunPassword.salt (Db.token_hash r) ≠ salt2) (Db.token_blacklist db) ->
  AuthMiddleware.authMiddleware env salt2 now2 cookie2
    (AuthRoutes.logout env salt1 now1 cookie1 db).1
  = AuthMiddleware.authMiddleware env salt2 now2 cookie2 db.
Proof.
  intros Hsalt Hrows. unfold AuthRoutes.logout. simpl.
  destruct cookie1 as [t1|]; [|reflexivity].
  destruct (HonoJwt.is_empty t1); [reflexivity|].
  destruct (AuthService.verifyAccessToken env now1 t1) as [decoded|]; [|reflexivity].
  destruct (TokenBlacklist.blacklistToken salt1 now1 t1
              (Some (AuthService.userId decoded)) db) as [db1|] eqn:Hsome;
    [|reflexivity].
  destruct (blacklistToken_Some _ _ _ _ _ _ Hsome) as [[_ ->]|[_ ->]]; [reflexivity|].
  apply authMiddleware_blacklist_irrelevant. intros token _.
  rewrite !isBlacklisted_unused_salt; [reflexivity|exact Hrows|].
  simpl. apply Forall_app. split; [exact Hrows|].
  constructor; [|constructor]. simpl. exact Hsalt.
Qed.

(** C1.  Claim: a token blacklisted by logout is rejected by the middleware.
    Evaluated on the code: Alice logs out with her access token (the hash of
    the insertion draws salt 1), which stores one blacklist row; a later
    request with the same token (the hash of the lookup draws salt 2) passes
    the middleware and reaches the route as Alice. *)
Theorem logout_then_request_reaches_route :
  let db1 := (AuthRoutes.logout Sample.env 1 1000 (Some Sample.access) Sample.db0).1 in
  length (Db.token_blacklist db1) = 1%nat
  /\ AuthMiddleware.authMiddleware Sample.env 2 2000 (Some Sample.access) db1
     = Http.Next (UserService.without_password Sample.alice).
Proof. vm_compute. split; reflexivity. Qed.

(** C2.  Claim: the middleware accepts a token only if its kind is access.
    Evaluated on the code: the middleware calls [verifyToken] without an
    expected type, so Alice's refresh token in the [access_token] cookie
    reaches the route as Alice, while [verifyAccessToken] (used by logout)
    refuses the same token. *)
Theorem refresh_token_passes_middleware :
  AuthMiddleware.authMiddleware Sample.env 1 1000 (Some Sample.refresh) Sample.db0
  = Http.Next (UserService.without_password Sample.alice)
  /\ AuthService.verifyAccessToken Sample.env 1000 Sample.refresh = None.
Proof. vm_compute. split; reflexivity. Qed.

(** C3.  Claim: issued tokens carry an expiry of TTL(kind) after issuance and
    verification fails as expired once it has elapsed.  Evaluated on the
    code: the payload that is signed has no [exp] (and no [iat]) claim, for
    either kind, and [verify] returns that payload at every instant, so no
    issued token ever fails as expired. *)
Theorem issued_tokens_have_no_expiry (env : Env.t) (u : UserService.User) (now : Z) :
  HonoJwt.verify (AuthService.generateAccessToken env u) (Env.JWT_SECRET env) now
  = inr (AuthService.token_payload u "access")
  /\ HonoJwt.verify (AuthService.generateRefreshToken env u) (Env.JWT_SECRET env) now
     = inr (AuthService.token_payload u "refresh")
  /\ HonoJwt.exp (AuthService.token_payload u "access") = None
  /\ HonoJwt.exp (AuthService.token_payload u "refresh") = None
  /\ HonoJwt.iat (AuthService.token_payload u "access") = None
  /\ HonoJwt.iat (AuthService.token_payload u "refresh") = None.
Proof.
  unfold AuthService.generateAccessToken, AuthService.generateRefreshToken,
    HonoJwt.sign, HonoJwt.verify. simpl.
  rewrite String.eqb_refl. repeat split; reflexivity.
Qed.

(** The two TTLs of the configuration are the defaults the claim quotes; the
    code uses them as [maxAge] of the cookies and nowhere else. *)
Example cookie_max_age_defaults (secret : string) :
  Env.COOKIE_ACCESS_TOKEN_MAX_AGE (Env.defaults secret) = 900
  /\ Env.COOKIE_REFRESH_TOKEN_MAX_AGE (Env.defaults secret) = 604800.
Proof. split; reflexivity. Qed.

(** A token issued at instant 0 still passes the middleware a thousand days
    later, far beyond the 900 seconds of the access cookie. *)
Example access_token_after_a_thousand_days :
  AuthMiddleware.authMiddleware Sample.env 1 (1000 * 24 * 60 * 60 * 1000)
    (Some Sample.access) Sample.db0
  = Http.Next (UserService.without_password Sample.alice).
Proof. vm_compute. reflexivity. Qed.

(** After a logout-all of a user, no token issued by the codec for that user
    satisfies [isTokenValidForUser], whenever it was issued. *)
Lemma issued_token_invalid_after_logout_all (u : UserService.User) (kind : string)
    (now : Z) (db db1 : Db.t) :
  TokenBlacklist.blacklistAllUserTokens now (UserService.id u) db = Some db1 ->
  TokenBlacklist.isTokenValidForUser (UserService.id u)
    (HonoJwt.iat (AuthService.token_payload u kind)) db1 = false.
Proof.
  intros Hsome. eapply isTokenValidForUser_no_iat.
  eapply blacklistAllUserTokens_lookup. exact Hsome.
Qed.

(** What [verifyToken] returns on a token issued by the codec. *)
Lemma verifyToken_issued (env : Env.t) (now : Z) (u : UserService.User)
    (kind : string) (expected : option string) (decoded : AuthService.AuthTokenPayload) :
  AuthService.verifyToken env now
    (HonoJwt.sign (AuthService.token_payload u kind) (Env.JWT_SECRET env)) expected
  = Some decoded ->
  decoded = {| AuthService.userId := UserService.id u;
               AuthService.email := UserService.email u;
               AuthService.tokenType := kind;
               AuthService.iat := None;
               AuthService.exp := None |}.
Proof.
  unfold AuthService.verifyToken, HonoJwt.sign, HonoJwt.verify. simpl.
  rewrite String.eqb_refl.
  destruct (_ || _); [discriminate|].
  destruct (_ && _); [discriminate|].
  by intros [= <-].
Qed.

(** So the middleware answers 401 to every token the codec issues for a user
    who has logged out of all devices, at every instant and whenever the
    token was issued. *)
Lemma issued_token_rejected_after_logout_all (env : Env.t) (u : UserService.User)
    (kind : string) (salt : nat) (logout_at now : Z) (db db1 : Db.t) :
  TokenBlacklist.blacklistAllUserTokens logout_at (UserService.id u) db = Some db1 ->
  exists r,
    AuthMiddleware.authMiddleware env salt now
      (Some (HonoJwt.sign (AuthService.token_payload u kind) (Env.JWT_SECRET env))) db1
    = Http.Respond r
    /\ Http.status r = 401.
Proof.
  intros Hsome.
  destruct (AuthMiddleware.authMiddleware _ _ _ _ _) as [r|usr] eqn:Hmw.
  - exists r. split; [reflexivity|]. by eapply authMiddleware_respond_401.
  - exfalso. apply authMiddleware_next_iff in Hmw.
    destruct Hmw as (_ & _ & decoded & usr' & Hverify & Hvalid & _).
    apply verifyToken_issued in Hverify. subst decoded. simpl in Hvalid.
    pose proof (issued_token_invalid_after_logout_all u kind logout_at db db1 Hsome)
      as Hinv.
    simpl in Hinv. rewrite Hinv in Hvalid. discriminate.
Qed.

(** C4.  Claim: after logout-all, tokens issued at or before the recorded
    instant fail and tokens issued strictly after it still pass.  Evaluated on
    the code: Alice calls logout-all at instant 1000; she then logs in again,
    and the access token of that login, presented at instant 6000, is answered
    401 by the middleware, because the token has no [iat] to compare. *)
Theorem token_issued_after_logout_all_rejected :
  let db1 :=
    (AuthRoutes.logout_all Sample.env 1000
       (Some (AuthRoutes.Bearer Sample.access)) Sample.db0).1 in
  Db.user_logout_timestamps db1 !! UserService.id Sample.alice = Some 1000
  /\ exists fresh,
       AuthService.login Sample.env
         {| AuthService.cred_email := "alice@example.com";
            AuthService.cred_password := "Correct-Horse-1!" |}
         (Db.users db1) = inr fresh
       /\ AuthMiddleware.authMiddleware Sample.env 1 6000
            (Some (AuthService.accessToken fresh)) db1
          = Http.Respond
              (Http.json
                 (Http.Failure "Session has been terminated. Please login again.")
                 401).
Proof.
  split; [vm_compute; reflexivity|].
  eexists. split; vm_compute; reflexivity.
Qed.

(** C8.  Claim: blacklisting the same token twice is a no-op on the stored
    state.  Evaluated on the code: the two calls hash the token under
    different salts, the second hash conflicts with no stored row, both
    statements are accepted and the table grows from one row to two. *)
Theorem blacklisting_twice_adds_a_row :
  let uid := Some (UserService.id Sample.alice) in
  exists db1 db2,
    TokenBlacklist.blacklistToken 1 1000 Sample.access uid Sample.db0 = Some db1
    /\ TokenBlacklist.blacklistToken 2 2000 Sample.access uid db1 = Some db2
    /\ length (Db.token_blacklist db1) = 1%nat
    /\ length (Db.token_blacklist db2) = 2%nat
    /\ db2 <> db1.
Proof.
  cbv zeta. eexists. eexists.
  split; [vm_compute; reflexivity|].
  split; [vm_compute; reflexivity|].
  vm_compute. repeat split. intros [= H].
Qed.

(** ** [GET /auth/me] *)

(** A token that [verifyToken] accepts is not the empty string. *)
Lemma verifyToken_not_empty (env : Env.t) (now : Z) (token : HonoJwt.Token)
    (expected : option string) (decoded : AuthService.AuthTokenPayload) :
  AuthService.verifyToken env now token expected = Some decoded ->
  HonoJwt.is_empty token = false.
Proof.
  unfold AuthService.verifyToken, HonoJwt.verify.
  destruct token as [payload key|raw]; [reflexivity|discriminate].
Qed.

(** A token that [verifyToken] accepts is a signed one, and an [iat] claim it
    carries is not in the future. *)
Lemma verifyToken_Some_inv (env : Env.t) (now : Z) (token : HonoJwt.Token)
    (expected : option string) (decoded : AuthService.AuthTokenPayload) :
  0 <= now ->
  AuthService.verifyToken env now token expected = Some decoded ->
  HonoJwt.is_empty token = false
  /\ forall issued, AuthService.iat decoded = Some issued -> 1000 * issued <= now.
Proof.
  intros Hnow. unfold AuthService.verifyToken, HonoJwt.verify.
  destruct token as [payload key|raw]; [|discriminate]. cbv zeta.
  destruct (truthy_number (HonoJwt.nbf payload) && _); [discriminate|].
  destruct (match HonoJwt.exp payload with
            | Some e => e <=? now / 1000
            | None => false
            end); [discriminate|].
  destruct (truthy_number (HonoJwt.iat payload)
            && (now / 1000 <? default 0 (HonoJwt.iat payload))) eqn:Hiat;
    [discriminate|].
  destruct (String.eqb key (Env.JWT_SECRET env)); [|discriminate].
  destruct (negb (truthy_string (HonoJwt.userId payload)) || _ || _); [discriminate|].
  destruct (truthy_string expected && _); [discriminate|].
  intros [= Hdecoded]. subst decoded. simpl. split; [reflexivity|].
  intros issued Hissued. rewrite Hissued in Hiat. simpl in Hiat.
  destruct (decide (issued = 0)) as [Hzero|Hne]; [lia|].
  apply Z.eqb_neq in Hne. rewrite Hne in Hiat. simpl in Hiat.
  apply Z.ltb_ge in Hiat.
  pose proof (Z.mul_div_le now 1000 ltac:(lia)). lia.
Qed.

(** What [GET /auth/me] answers for a token that [verifyToken] accepts and
    whose subject is stored: it reads the users table and nothing else. *)
Lemma me_of_verified (env : Env.t) (now : Z) (token : HonoJwt.Token)
    (decoded : AuthService.AuthTokenPayload) (usr : UserService.User) (db : Db.t) :
  AuthService.verifyToken env now token None = Some decoded ->
  UserService.findById (AuthService.userId decoded) (Db.users db) = Some usr ->
  AuthRoutes.me env now (Some token) db
  = Http.json (Http.SuccessUser None (UserService.without_password usr)) 200.
Proof.
  intros Hverify Hfind. unfold AuthRoutes.me, AuthService.getUserFromToken.
  by rewrite (verifyToken_not_empty _ _ _ _ _ Hverify), Hverify, Hfind.
Qed.

(** C10, as the code has it.  [GET /auth/me] answers 200 with the public
    fields of the user for every token that [verifyToken] accepts without an
    expected kind (the signature verifies, the time claims the token carries
    hold at the instant of the request, [userId], [email] and [tokenType] are
    non-empty) and whose subject is a stored user, whatever the blacklist and
    the logout-all table contain and whatever the token's kind.  In
    particular, once the user has logged out of all devices with that very
    token, the middleware answers 401 to it under every salt, and [/auth/me]
    still answers 200 with the user. *)
Theorem me_ignores_revocation (env : Env.t) (now : Z) (token : HonoJwt.Token)
    (decoded : AuthService.AuthTokenPayload) (usr : UserService.User) (db : Db.t) :
  AuthService.verifyToken env now token None = Some decoded ->
  UserService.findById (AuthService.userId decoded) (Db.users db) = Some usr ->
  let ok :=
    {| Http.status := 200;
       Http.body :=
         Http.SuccessUser None
           {| UserService.pub_id := UserService.id usr;
              UserService.pub_email := UserService.email usr;
              UserService.pub_name := UserService.name usr;
              UserService.pub_created_at := UserService.created_at usr;
              UserService.pub_updated_at := UserService.updated_at usr;
              UserService.pub_email_verified := UserService.email_verified usr;
              UserService.pub_password_reset_token := UserService.password_reset_token usr;
              UserService.pub_password_reset_expires :=
                UserService.password_reset_expires usr |};
       Http.headers := [];
       Http.cookies := [] |} in
  (forall db', Db.users db' = Db.users db ->
     AuthRoutes.me env now (Some token) db' = ok)
  /\ (0 <= now ->
      exists db1,
        AuthRoutes.logout_all env now (Some (AuthRoutes.Bearer token)) db
        = (db1, Http.json (Http.Success "Logged out from all devices") 200)
        /\ (forall salt, exists r,
              AuthMiddleware.authMiddleware env salt now (Some token) db1
              = Http.Respond r
              /\ Http.status r = 401)
        /\ AuthRoutes.me env now (Some token) db1 = ok).
Proof.
  intros Hverify Hfind ok.
  assert (forall db', Db.users db' = Db.users db ->
            AuthRoutes.me env now (Some token) db' = ok) as Hme.
  { intros db' Husers. rewrite <- Husers in Hfind.
    by rewrite (me_of_verified _ _ _ _ _ _ Hverify Hfind). }
  split; [exact Hme|]. intros Hnow.
  set (db1 := Db.with_user_logout_timestamps
                (<[AuthService.userId decoded := now]> (Db.user_logout_timestamps db))
                db).
  assert (TokenBlacklist.blacklistAllUserTokens now (AuthService.userId decoded) db
          = Some db1) as Hsome.
  { apply blacklistAllUserTokens_Some. split; [by exists usr|reflexivity]. }
  exists db1. split; [|split].
  - unfold AuthRoutes.logout_all. by rewrite Hverify, Hsome.
  - intros salt.
    destruct (AuthMiddleware.authMiddleware env salt now (Some token) db1) as [r|u] eqn:Hmw.
    + exists r. split; [reflexivity|]. by eapply authMiddleware_respond_401.
    + exfalso. apply authMiddleware_next_iff in Hmw.
      destruct Hmw as (_ & _ & decoded' & usr' & Hverify' & Hvalid & _).
      rewrite Hverify in Hverify'. injection Hverify' as <-.
      destruct (verifyToken_Some_inv _ _ _ _ _ Hnow Hverify) as [_ Hiat].
      destruct (AuthService.iat decoded) as [issued|] eqn:Hissued.
      * apply isTokenValidForUser_strict with (logout_at := now) in Hvalid;
          [|by eapply blacklistAllUserTokens_lookup].
        specialize (Hiat issued eq_refl). lia.
      * erewrite isTokenValidForUser_no_iat in Hvalid; [discriminate|].
        by eapply blacklistAllUserTokens_lookup.
  - by apply Hme.
Qed.

Lemma me_ignores_revocation_witness :
  exists db1,
    AuthRoutes.logout_all Sample.env 5000 (Some (AuthRoutes.Bearer Sample.refresh))
      Sample.db0
    = (db1, Http.json (Http.Success "Logged out from all devices") 200)
    /\ (forall salt, exists r,
          AuthMiddleware.authMiddleware Sample.env salt 5000 (Some Sample.refresh) db1
          = Http.Respond r
          /\ Http.status r = 401)
    /\ Http.status (AuthRoutes.me Sample.env 5000 (Some Sample.refresh) db1) = 200.
Proof.
  assert (0 <= 5000) as Hnow by lia.
  destruct (proj2 (me_ignores_revocation Sample.env 5000 Sample.refresh
                     {| AuthService.userId := UserService.id Sample.alice;
                        AuthService.email := UserService.email Sample.alice;
                        AuthService.tokenType := "refresh";
                        AuthService.iat := None;
                        AuthService.exp := None |}
                     Sample.alice Sample.db0 eq_refl eq_refl) Hnow)
    as (db1 & Hlogout & Hmw & Hme).
  exists db1. split; [exact Hlogout|]. split; [exact Hmw|].
  by rewrite Hme.
Defined.

(** C10, as the claim has it, fails on a token whose signature verifies,
    whose three fields are present and whose subject is Alice, a stored user,
    but whose [exp] claim lies in the past: [verify] throws, [verifyToken]
    returns [null] and [/auth/me] answers 401. *)
Lemma me_rejects_signed_token_past_expiry :
  let expired :=
    HonoJwt.sign
      {| HonoJwt.userId := Some (UserService.id Sample.alice);
         HonoJwt.email := Some (UserService.email Sample.alice);
         HonoJwt.tokenType := Some "access";
         HonoJwt.iat := Some 1;
         HonoJwt.exp := Some 2;
         HonoJwt.nbf := None |}
      (Env.JWT_SECRET Sample.env) in
  UserService.findById (UserService.id Sample.alice) (Db.users Sample.db0)
  = Some Sample.alice
  /\ HonoJwt.verify expired (Env.JWT_SECRET Sample.env) 5000 = inl HonoJwt.JwtTokenExpired
  /\ AuthRoutes.me Sample.env 5000 (Some expired) Sample.db0
     = Http.json (Http.Failure "Invalid or expired access token") 401.
Proof. vm_compute. repeat split; reflexivity. Qed.

(** ** [POST /auth/login] *)

(** C7.  A login that fails on a wrong password for an existing email and a
    login that fails on an unknown email are answered with the same response:
    status 401, body [{ success: false, error: "Invalid email or password" }],
    no header and no cookie. *)
Theorem login_failures_indistinguishable (env : Env.t) (is_email : string -> bool)
    (db : Db.t) (email1 password1 email2 password2 : string) (u : UserService.User) :
  let wrong_password :=
    {| AuthService.cred_email := email1; AuthService.cred_password := password1 |} in
  let unknown_email :=
    {| AuthService.cred_email := email2; AuthService.cred_password := password2 |} in
  AuthRoutes.loginSchema is_email wrong_password = [] ->
  AuthRoutes.loginSchema is_email unknown_email = [] ->
  UserService.findByEmail email1 (Db.users db) = Some u ->
  UserService.verifyPassword password1 (UserService.password_hash u) = false ->
  UserService.findByEmail email2 (Db.users db) = None ->
  AuthRoutes.login env is_email wrong_password db
  = Http.json (Http.Failure "Invalid email or password") 401
  /\ AuthRoutes.login env is_email unknown_email db
     = AuthRoutes.login env is_email wrong_password db.
Proof.
  intros wrong_password unknown_email Hs1 Hs2 Hfound Hwrong Hmissing.
  unfold AuthRoutes.login, AuthService.login.
  rewrite Hs1, Hs2. simpl.
  rewrite Hfound, Hwrong, Hmissing. simpl. split; reflexivity.
Qed.

Lemma login_failures_indistinguishable_witness :
  AuthRoutes.login Sample.env Sample.contains_at
    {| AuthService.cred_email := "nobody@example.com";
       AuthService.cred_password := "Correct-Horse-1!" |} Sample.db0
  = AuthRoutes.login Sample.env Sample.contains_at
      {| AuthService.cred_email := "alice@example.com";
         AuthService.cred_password := "not-her-password" |} Sample.db0.
Proof.
  refine (proj2 (login_failures_indistinguishable Sample.env Sample.contains_at
                   Sample.db0 "alice@example.com" "not-her-password"
                   "nobody@example.com" "Correct-Horse-1!" Sample.alice _ _ _ _ _));
    vm_compute; reflexivity.
Defined.

(** The same credentials with the right password do log in. *)
Example login_succeeds :
  Http.status
    (AuthRoutes.login Sample.env Sample.contains_at
       {| AuthService.cred_email := "alice@example.com";
          AuthService.cred_password := "Correct-Horse-1!" |} Sample.db0) = 200.
Proof. vm_compute. reflexivity. Qed.

(** ** Password reset *)

(** C5.  Claim: [POST /auth/reset-password] answers 200 exactly when the reset
    succeeds and 400 on an invalid or expired token or a weak password.
    Evaluated on the code: the answer depends on the schema alone; a body with
    a non-empty token and a password of eight characters or more is answered
    200 "Password reset successfully" whatever [AuthService.resetPassword]
    returned, and 400 is the validator's answer only. *)
Theorem reset_password_answer (result_length : nat -> nat) (salt : nat) (now : Z)
    (body : AuthRoutes.ResetPasswordBody) (db : Db.t) :
  (AuthRoutes.reset_password result_length salt now body db).2
  = if AuthRoutes.is_nil (AuthRoutes.resetPasswordSchema body)
    then Http.json (Http.Success "Password reset successfully") 200
    else Http.json (Http.ValidationFailed (AuthRoutes.resetPasswordSchema body)) 400.
Proof.
  unfold AuthRoutes.reset_password.
  destruct (AuthRoutes.is_nil (AuthRoutes.resetPasswordSchema body)); reflexivity.
Qed.

(** An unknown token with a strong password, and a weak password: the service
    reports failure, the table is untouched, and both are answered 200. *)
Example reset_password_unknown_token :
  let body := {| AuthRoutes.token := "no-such-token";
                 AuthRoutes.password := "Str0ng&Secret" |} in
  (AuthService.resetPassword BunSql.result_length 3 1000
     (AuthRoutes.token body) (AuthRoutes.password body) (Db.users Sample.db0)).2 = false
  /\ AuthRoutes.reset_password BunSql.result_length 3 1000 body Sample.db0
     = (Sample.db0, Http.json (Http.Success "Password reset successfully") 200).
Proof. vm_compute. split; reflexivity. Qed.

Example reset_password_weak_password :
  let body := {| AuthRoutes.token := "no-such-token";
                 AuthRoutes.password := "password" |} in
  AuthService.valid (AuthService.validatePassword (AuthRoutes.password body)) = false
  /\ AuthRoutes.reset_password BunSql.result_length 3 1000 body Sample.db0
     = (Sample.db0, Http.json (Http.Success "Password reset successfully") 200).
Proof. vm_compute. split; reflexivity. Qed.

(** A token that was already consumed: the first request replaces Alice's
    password hash, the second changes nothing, the service reports failure
    for both (the array of an UPDATE without RETURNING is empty), and both
    are answered 200. *)
Example reset_password_consumed_token :
  let body := {| AuthRoutes.token := Sample.reset_token;
                 AuthRoutes.password := "N3w&Secret" |} in
  let db := Db.with_users Sample.users_resetting Sample.db0 in
  let first := AuthRoutes.reset_password BunSql.result_length 5 1000 body db in
  let second := AuthRoutes.reset_password BunSql.result_length 6 2000 body first.1 in
  (UserService.password_hash <$> Db.users first.1 !! 0%nat)
  = Some (BunPassword.MkHash 5 "N3w&Secret")
  /\ (AuthService.resetPassword BunSql.result_length 5 1000
        Sample.reset_token "N3w&Secret" (Db.users db)).2 = false
  /\ (AuthService.resetPassword BunSql.result_length 6 2000
        Sample.reset_token "N3w&Secret" (Db.users first.1)).2 = false
  /\ first.2 = Http.json (Http.Success "Password reset successfully") 200
  /\ second = (first.1, Http.json (Http.Success "Password reset successfully") 200).
Proof. vm_compute. repeat split; reflexivity. Qed.

(** A row left by a guarded update at [now1] does not match the same token at
    any later instant. *)
Lemma reset_row_no_longer_matches (token : string) (now1 now2 : Z)
    (h : BunPassword.Hash string) (u : UserService.User) :
  now1 <= now2 ->
  UserService.reset_token_matches token now2
    (if UserService.reset_token_matches token now1 u
     then UserService.with_new_password h u else u) = false.
Proof.
  intros Hle.
  destruct (UserService.reset_token_matches token now1 u) eqn:Hhit; [reflexivity|].
  unfold UserService.reset_token_matches in *.
  destruct (UserService.password_reset_token u) as [t|]; [|reflexivity].
  destruct (UserService.password_reset_expires u) as [e|]; [|reflexivity].
  destruct (String.eqb t token); [|reflexivity]. simpl in *.
  apply Z.ltb_ge in Hhit. apply Z.ltb_ge. lia.
Qed.

Lemma filter_none {A} (p : A -> bool) (l : list A) :
  (forall x, x ∈ l -> p x = false) -> List.filter p l = [].
Proof.
  induction l as [|x l IH]; intros H; [reflexivity|]. simpl.
  rewrite (H x) by constructor.
  apply IH. intros y Hy. apply H. by constructor.
Qed.

Lemma map_unless {A} (p : A -> bool) (f : A -> A) (l : list A) :
  (forall x, x ∈ l -> p x = false) ->
  List.map (fun x => if p x then f x else x) l = l.
Proof.
  induction l as [|x l IH]; intros H; [reflexivity|]. simpl.
  rewrite (H x) by constructor. f_equal.
  apply IH. intros y Hy. apply H. by constructor.
Qed.

Lemma filter_some {A} (p : A -> bool) (l : list A) :
  List.filter p l <> [] -> exists x, x ∈ l /\ p x = true.
Proof.
  induction l as [|x l IH]; [done|]. simpl.
  destruct (p x) eqn:Hp.
  - intros _. exists x. split; [constructor|exact Hp].
  - intros H. destruct (IH H) as (y & Hy & Hpy). exists y. split; [by constructor|done].
Qed.

(** After a guarded update for [token] at [now1], a second one for the same
    token at a later instant touches no row. *)
Lemma second_reset_touches_nothing (result_length : nat -> nat) (salt1 salt2 : nat)
    (now1 now2 : Z) (token password1 password2 : string) (users : UserService.Users) :
  result_length 0%nat = 0%nat ->
  now1 <= now2 ->
  let users1 := (UserService.resetPassword result_length salt1 now1 token password1 users).1 in
  UserService.resetPassword result_length salt2 now2 token password2 users1
  = (users1, false).
Proof.
  intros Hzero Hle users1.
  assert (forall x, x ∈ users1 -> UserService.reset_token_matches token now2 x = false)
    as Hnone.
  { subst users1. simpl. intros x Hx.
    apply list_elem_of_In, in_map_iff in Hx. destruct Hx as (u & <- & _).
    by apply reset_row_no_longer_matches. }
  unfold UserService.resetPassword at 1. unfold UserService.affected.
  rewrite (filter_none _ _ Hnone), (map_unless _ _ _ Hnone). simpl.
  by rewrite Hzero.
Qed.

(** [AuthService.resetPassword] is the guarded update behind the password
    policy. *)
Lemma AuthService_resetPassword_unfold (result_length : nat -> nat) (salt : nat)
    (now : Z) (token password : string) (users : UserService.Users) :
  AuthService.resetPassword result_length salt now token password users
  = if AuthService.valid (AuthService.validatePassword password)
    then UserService.resetPassword result_length salt now token password users
    else (users, false).
Proof.
  unfold AuthService.resetPassword.
  destruct (AuthService.valid (AuthService.validatePassword password)); [|reflexivity].
  cbv zeta. change (negb true) with false. cbv iota.
  destruct (UserService.resetPassword result_length salt now token password users)
    as [users' []]; reflexivity.
Qed.

Lemma lookup_map {A B} (f : A -> B) (l : list A) (i : nat) :
  List.map f l !! i = f <$> (l !! i).
Proof.
  revert i. induction l as [|x l IH]; intros [|i]; try reflexivity. apply IH.
Qed.

(** Whatever it changed, a call under Bun's SQL client reports failure. *)
Lemma resetPassword_reports_failure (salt : nat) (now : Z) (token password : string)
    (users : UserService.Users) :
  (UserService.resetPassword BunSql.result_length salt now token password users).2 = false
  /\ (AuthService.resetPassword BunSql.result_length salt now token password users).2
     = false.
Proof.
  split; [reflexivity|].
  rewrite AuthService_resetPassword_unfold.
  by destruct (AuthService.valid (AuthService.validatePassword password)).
Qed.

(** C9.  The reset token is single use.  A first call of
    [AuthService.resetPassword] with a token and a password that passes the
    policy rewrites, in one guarded UPDATE, every row that holds the token
    unexpired: the row then carries the hash of the new password, which the
    new password verifies against, and neither token nor expiry, its other
    columns as they were; every other row is kept.  A second call with the
    same token, at the same or a later instant and with any password, returns
    [false] and leaves the users table, password hashes included, as the
    first call left it.  The driver's [result.length] is only assumed to be 0
    for a statement that touched no row, which holds of Bun's. *)
Theorem reset_token_single_use (result_length : nat -> nat) (salt1 salt2 : nat)
    (now1 now2 : Z) (token password1 password2 : string) (users : UserService.Users) :
  result_length 0%nat = 0%nat ->
  now1 <= now2 ->
  AuthService.valid (AuthService.validatePassword password1) = true ->
  let first := AuthService.resetPassword result_length salt1 now1 token password1 users in
  length first.1 = length users
  /\ (forall (i : nat) (u : UserService.User) (expires : Z),
        users !! i = Some u ->
        UserService.password_reset_token u = Some token ->
        UserService.password_reset_expires u = Some expires ->
        now1 < expires ->
        exists u',
          first.1 !! i = Some u'
          /\ UserService.password_hash u' = BunPassword.MkHash salt1 password1
          /\ UserService.verifyPassword password1 (UserService.password_hash u') = true
          /\ UserService.password_reset_token u' = None
          /\ UserService.password_reset_expires u' = None
          /\ UserService.id u' = UserService.id u
          /\ UserService.email u' = UserService.email u
          /\ UserService.name u' = UserService.name u
          /\ UserService.created_at u' = UserService.created_at u
          /\ UserService.email_verified u' = UserService.email_verified u)
  /\ (forall (i : nat) (u : UserService.User),
        users !! i = Some u ->
        UserService.password_reset_token u <> Some token
        \/ (forall expires, UserService.password_reset_expires u = Some expires ->
              expires <= now1) ->
        first.1 !! i = Some u)
  /\ AuthService.resetPassword result_length salt2 now2 token password2 first.1
     = (first.1, false).
Proof.
  intros Hzero Hle Hvalid first. subst first.
  rewrite !AuthService_resetPassword_unfold, Hvalid.
  unfold UserService.Users in *.
  split; [|split; [|split]].
  - unfold UserService.resetPassword. cbn [fst]. apply length_map.
  - intros i u expires Hi Htoken Hexpires Hlive.
    unfold UserService.resetPassword. cbn [fst].
    exists (UserService.with_new_password (BunPassword.hash salt1 password1) u).
    split.
    { rewrite lookup_map, Hi. cbn [fmap option_fmap option_map].
      unfold UserService.reset_token_matches. rewrite Htoken, Hexpires.
      rewrite String.eqb_refl. apply Z.ltb_lt in Hlive. by rewrite Hlive. }
    cbn [UserService.with_new_password UserService.password_hash
         UserService.password_reset_token UserService.password_reset_expires
         UserService.id UserService.email UserService.name UserService.created_at
         UserService.email_verified].
    split_and!; try reflexivity.
    unfold UserService.verifyPassword, BunPassword.verify, BunPassword.hash.
    cbn [BunPassword.input]. by apply bool_decide_eq_true_2.
  - intros i u Hi Hmiss.
    unfold UserService.resetPassword. cbn [fst].
    rewrite lookup_map, Hi. cbn [fmap option_fmap option_map].
    assert (UserService.reset_token_matches token now1 u = false) as ->;
      [|reflexivity].
    unfold UserService.reset_token_matches.
    destruct (UserService.password_reset_token u) as [t|]; [|reflexivity].
    destruct (UserService.password_reset_expires u) as [e|]; [|reflexivity].
    destruct Hmiss as [Hother|Hdead].
    + destruct (String.eqb_spec t token) as [->|]; [done|reflexivity].
    + specialize (Hdead e eq_refl). apply andb_false_iff. right.
      apply Z.ltb_ge. exact Hdead.
  - destruct (AuthService.valid (AuthService.validatePassword password2));
      [|reflexivity].
    by apply second_reset_touches_nothing.
Qed.

Lemma reset_token_single_use_witness :
  let first :=
    AuthService.resetPassword BunSql.result_length 5 1000 Sample.reset_token
      "N3w&Secret" Sample.users_resetting in
  (exists u',
     first.1 !! 0%nat = Some u'
     /\ UserService.password_hash u' = BunPassword.MkHash 5 "N3w&Secret")
  /\ AuthService.resetPassword BunSql.result_length 6 2000 Sample.reset_token
       "An0ther&Secret" first.1 = (first.1, false).
Proof.
  assert (1000 <= 2000) as Hle by lia.
  assert (1000 < 3600000) as Hlive by lia.
  destruct (reset_token_single_use BunSql.result_length 5 6 1000 2000
              Sample.reset_token "N3w&Secret" "An0ther&Secret"
              Sample.users_resetting eq_refl Hle eq_refl)
    as (_ & Hhit & _ & Hsecond).
  split; [|exact Hsecond].
  destruct (Hhit 0%nat
              (UserService.with_reset_token Sample.reset_token 3600000 Sample.alice)
              3600000 eq_refl eq_refl eq_refl Hlive)
    as (u' & Hrow & Hhash & _).
  exists u'. split; [exact Hrow|exact Hhash].
Defined.

(** ** The rate limiter *)

Lemma ceil_div_1000_nonneg (x : Z) : 0 <= x -> 0 <= RateLimit.ceil_div_1000 x.
Proof. unfold RateLimit.ceil_div_1000. intros H. Z.div_mod_to_equations. lia. Qed.

Lemma ceil_div_1000_pos (x : Z) : 0 < x -> 0 < RateLimit.ceil_div_1000 x.
Proof. unfold RateLimit.ceil_div_1000. intros H. Z.div_mod_to_equations. lia. Qed.

Lemma ceil_div_1000_bounds (x : Z) :
  1000 * (RateLimit.ceil_div_1000 x - 1) < x <= 1000 * RateLimit.ceil_div_1000 x.
Proof. unfold RateLimit.ceil_div_1000. Z.div_mod_to_equations. lia. Qed.

Section Limiter.

Context (env : Env.t) (c : RateLimit.Context).

Local Abbreviation id := (RateLimit.getClientId env c).

(** The three branches of [isAllowed]. *)
Lemma isAllowed_new_window (l : RateLimit.RateLimiter) (now : Z) :
  (forall d, RateLimit.requests l !! id = Some d -> RateLimit.resetTime d < now) ->
  RateLimit.isAllowed env now c l
  = (RateLimit.with_requests
       (<[id := {| RateLimit.count := 1;
                   RateLimit.resetTime := now + RateLimit.windowSize l |}]>
          (RateLimit.requests l)) l,
     {| RateLimit.allowed := true; RateLimit.retryAfter := None |}).
Proof.
  intros Hdead. unfold RateLimit.isAllowed.
  destruct (RateLimit.requests l !! id) as [d|]; [|reflexivity].
  specialize (Hdead d eq_refl). apply Z.ltb_lt in Hdead. by rewrite Hdead.
Qed.

Lemma isAllowed_counting (l : RateLimit.RateLimiter) (now : Z) (d : RateLimit.ClientData) :
  RateLimit.requests l !! id = Some d ->
  now <= RateLimit.resetTime d ->
  RateLimit.count d < RateLimit.maxRequests l ->
  RateLimit.isAllowed env now c l
  = (RateLimit.with_requests
       (<[id := {| RateLimit.count := RateLimit.count d + 1;
                   RateLimit.resetTime := RateLimit.resetTime d |}]>
          (RateLimit.requests l)) l,
     {| RateLimit.allowed := true; RateLimit.retryAfter := None |}).
Proof.
  intros Hd Hlive Hroom. unfold RateLimit.isAllowed. rewrite Hd.
  apply Z.ltb_ge in Hlive. rewrite Hlive.
  assert ((RateLimit.maxRequests l <=? RateLimit.count d) = false) as -> by lia.
  reflexivity.
Qed.

Lemma isAllowed_exceeded (l : RateLimit.RateLimiter) (now : Z) (d : RateLimit.ClientData) :
  RateLimit.requests l !! id = Some d ->
  now <= RateLimit.resetTime d ->
  RateLimit.maxRequests l <= RateLimit.count d ->
  RateLimit.isAllowed env now c l
  = (l, {| RateLimit.allowed := false;
           RateLimit.retryAfter :=
             Some (RateLimit.ceil_div_1000 (RateLimit.resetTime d - now)) |}).
Proof.
  intros Hd Hlive Hfull. unfold RateLimit.isAllowed. rewrite Hd.
  apply Z.ltb_ge in Hlive. rewrite Hlive.
  assert ((RateLimit.maxRequests l <=? RateLimit.count d) = true) as -> by lia.
  reflexivity.
Qed.

(** A request of another client leaves this client's counter alone. *)
Lemma isAllowed_other_client (l : RateLimit.RateLimiter) (now : Z) (c' : RateLimit.Context) :
  RateLimit.getClientId env c' <> id ->
  RateLimit.requests (RateLimit.isAllowed env now c' l).1 !! id
  = RateLimit.requests l !! id.
Proof.
  intros Hne. unfold RateLimit.isAllowed.
  repeat case_match; simpl; try reflexivity; by rewrite lookup_insert_ne.
Qed.

(** The periodic cleanup keeps every window that is still open. *)
Lemma cleanup_keeps_live (l : RateLimit.RateLimiter) (now : Z) (d : RateLimit.ClientData) :
  RateLimit.requests l !! id = Some d ->
  now <= RateLimit.resetTime d ->
  RateLimit.requests (RateLimit.cleanup now l) !! id = Some d.
Proof.
  intros Hd Hlive. unfold RateLimit.cleanup. simpl.
  apply map_lookup_filter_Some. split; [exact Hd|]. simpl.
  apply negb_true_iff, Z.ltb_ge. exact Hlive.
Qed.

(** Requests inside an open window are counted one by one while there is
    room under the ceiling. *)
Lemma serve_within_window (ts : list Z) :
  forall (l : RateLimit.RateLimiter) (d : RateLimit.ClientData),
    RateLimit.requests l !! id = Some d ->
    Forall (fun t => t <= RateLimit.resetTime d) ts ->
    RateLimit.count d + Z.of_nat (length ts) <= RateLimit.maxRequests l ->
    let res := Trace.serve env c ts l in
    Forall (fun v => RateLimit.allowed v = true) res.2
    /\ length res.2 = length ts
    /\ RateLimit.requests res.1 !! id
       = Some {| RateLimit.count := RateLimit.count d + Z.of_nat (length ts);
                 RateLimit.resetTime := RateLimit.resetTime d |}
    /\ RateLimit.windowSize res.1 = RateLimit.windowSize l
    /\ RateLimit.maxRequests res.1 = RateLimit.maxRequests l.
Proof.
  induction ts as [|t ts IH]; intros l d Hd Hts Hroom res; subst res.
  - simpl. repeat split; [constructor|].
    rewrite Hd. destruct d as [n r]. simpl. by rewrite Z.add_0_r.
  - inversion Hts as [|? ? Ht Hts']; subst.
    simpl in Hroom. simpl Trace.serve.
    rewrite (isAllowed_counting l t d Hd Ht) by lia. cbn [fst snd].
    set (d' := {| RateLimit.count := RateLimit.count d + 1;
                  RateLimit.resetTime := RateLimit.resetTime d |}).
    set (l' := RateLimit.with_requests (<[id := d']> (RateLimit.requests l)) l).
    destruct (IH l' d') as (Hall & Hlen & Hreq & Hw & Hm).
    + subst l'. simpl. apply lookup_insert_eq.
    + exact Hts'.
    + subst l' d'. simpl. lia.
    + repeat split.
      * constructor; [reflexivity|exact Hall].
      * simpl. by rewrite Hlen.
      * rewrite Hreq. subst d'. simpl. do 2 f_equal. lia.
      * exact Hw.
      * exact Hm.
Qed.

End Limiter.

(** C6, as the code has it.  Take a limiter with ceiling N >= 1 and window W,
    and a client with no open window at [t1].  A request at [t1] opens a
    window with deadline [t1 + W]; it and the next N - 1 requests up to the
    deadline are all allowed.  From then on every request up to and including
    the deadline is rejected (429) without touching the state, with
    retry-after [ceil((deadline - t) / 1000)]: positive strictly before the
    deadline and 0 at the deadline itself.  The first request after the
    deadline is allowed and replaces the counter by a fresh window with count
    1 and deadline [t + W]. *)
Theorem rate_limit_window (env : Env.t) (c : RateLimit.Context)
    (l : RateLimit.RateLimiter) (t1 : Z) (ts : list Z) :
  let id := RateLimit.getClientId env c in
  let deadline := t1 + RateLimit.windowSize l in
  1 <= RateLimit.maxRequests l ->
  (forall d, RateLimit.requests l !! id = Some d -> RateLimit.resetTime d < t1) ->
  Z.of_nat (length ts) = RateLimit.maxRequests l - 1 ->
  Forall (fun t => t <= deadline) ts ->
  let res := Trace.serve env c (t1 :: ts) l in
  Forall (fun v => RateLimit.allowed v = true) res.2
  /\ Z.of_nat (length res.2) = RateLimit.maxRequests l
  /\ (forall t, t <= deadline ->
        RateLimit.isAllowed env t c res.1
        = (res.1, {| RateLimit.allowed := false;
                     RateLimit.retryAfter :=
                       Some (RateLimit.ceil_div_1000 (deadline - t)) |})
        /\ 0 <= RateLimit.ceil_div_1000 (deadline - t)
        /\ (t < deadline -> 0 < RateLimit.ceil_div_1000 (deadline - t))
        /\ (t = deadline -> RateLimit.ceil_div_1000 (deadline - t) = 0)
        /\ exists resp,
             (RateLimit.rateLimitMiddleware env t c res.1).2 = Some resp
             /\ Http.status resp = 429)
  /\ (forall t, deadline < t ->
        RateLimit.isAllowed env t c res.1
        = (RateLimit.with_requests
             (<[id := {| RateLimit.count := 1;
                         RateLimit.resetTime := t + RateLimit.windowSize l |}]>
                (RateLimit.requests res.1)) res.1,
           {| RateLimit.allowed := true; RateLimit.retryAfter := None |})).
Proof.
  intros id deadline HN Hdead Hlen Hts res. subst res id deadline.
  simpl Trace.serve. rewrite (isAllowed_new_window env c l t1 Hdead). cbn [fst snd].
  set (d1 := {| RateLimit.count := 1;
                RateLimit.resetTime := t1 + RateLimit.windowSize l |}).
  set (l1 := RateLimit.with_requests
               (<[RateLimit.getClientId env c := d1]> (RateLimit.requests l)) l).
  destruct (serve_within_window env c ts l1 d1) as (Hall & Hlen' & Hreq & Hw & Hm).
  { subst l1. simpl. apply lookup_insert_eq. }
  { exact Hts. }
  { subst l1 d1. simpl. lia. }
  set (l2 := (Trace.serve env c ts l1).1) in *.
  assert (RateLimit.count d1 + Z.of_nat (length ts) = RateLimit.maxRequests l) as Hcount
    by (subst d1; simpl; lia).
  rewrite Hcount in Hreq. simpl in Hreq, Hw, Hm.
  split; [constructor; [reflexivity|exact Hall]|].
  split; [simpl; rewrite Hlen'; lia|].
  split.
  - intros t Ht. split; [|split; [|split; [|split]]].
    + rewrite (isAllowed_exceeded env c l2 t _ Hreq); simpl; [reflexivity|lia|lia].
    + apply ceil_div_1000_nonneg. lia.
    + intros Hlt. apply ceil_div_1000_pos. lia.
    + intros ->. by rewrite Z.sub_diag.
    + unfold RateLimit.rateLimitMiddleware.
      rewrite (isAllowed_exceeded env c l2 t _ Hreq); simpl; [|lia|lia].
      eexists. split; reflexivity.
  - intros t Ht. rewrite isAllowed_new_window.
    + by rewrite Hw.
    + intros d Hd. rewrite Hreq in Hd. injection Hd as <-. simpl. lia.
Qed.

Lemma rate_limit_window_witness :
  let l := RateLimit.new_RateLimiter 60000 3 in
  let res := Trace.serve Sample.env Sample.browser [1000; 1500; 61000] l in
  (RateLimit.isAllowed Sample.env 60999 Sample.browser res.1).2
  = {| RateLimit.allowed := false; RateLimit.retryAfter := Some 1 |}
  /\ (RateLimit.isAllowed Sample.env 61001 Sample.browser res.1).2
     = {| RateLimit.allowed := true; RateLimit.retryAfter := None |}.
Proof.
  assert (1 <= 3) as HN by lia.
  assert (Z.of_nat (length [1500; 61000]) = 3 - 1) as Hlen by reflexivity.
  assert (Forall (fun t => t <= 1000 + 60000) [1500; 61000]) as Hts
    by (repeat constructor; lia).
  assert (forall d : RateLimit.ClientData,
            (∅ : gmap string RateLimit.ClientData)
              !! RateLimit.getClientId Sample.env Sample.browser = Some d ->
            RateLimit.resetTime d < 1000) as Hdead
    by (intros d Hd; rewrite lookup_empty in Hd; discriminate).
  pose proof (rate_limit_window Sample.env Sample.browser
                (RateLimit.new_RateLimiter 60000 3) 1000 [1500; 61000]
                HN Hdead Hlen Hts) as (_ & _ & Hin & Hout).
  simpl RateLimit.windowSize in Hin, Hout.
  assert (60999 <= 1000 + 60000) as Hbefore by lia.
  assert (1000 + 60000 < 61001) as Hafter by lia.
  split.
  - destruct (Hin 60999 Hbefore) as (-> & _). reflexivity.
  - rewrite (Hout 61001 Hafter). reflexivity.
Defined.

(** C6, as the claim has it, fails on two inputs.  With ceiling 1 and a
    window of 1000 ms opened at instant 0, the second request, at the deadline
    1000 and so still inside the window, is rejected with retry-after 0, which
    is not positive.  With ceiling 0 the first request is allowed all the
    same. *)
Lemma retry_after_zero_at_deadline :
  let l := RateLimit.new_RateLimiter 1000 1 in
  let first := RateLimit.isAllowed Sample.env 0 Sample.browser l in
  let second := RateLimit.isAllowed Sample.env 1000 Sample.browser first.1 in
  RateLimit.allowed first.2 = true
  /\ second.2 = {| RateLimit.allowed := false; RateLimit.retryAfter := Some 0 |}
  /\ ~ (exists n, RateLimit.retryAfter second.2 = Some n /\ 0 < n)
  /\ RateLimit.allowed
       (RateLimit.isAllowed Sample.env 0 Sample.browser
          (RateLimit.new_RateLimiter 1000 0)).2 = true.
Proof.
  vm_compute. repeat split; try reflexivity.
  intros (n & [= <-] & Hpos). discriminate.
Qed.

(** * Further properties of the code *)

(** ** The token codec *)

Lemma truthy_string_Some (x : string) : x <> "" -> truthy_string (Some x) = true.
Proof. intros H. simpl. apply negb_true_iff, String.eqb_neq. exact H. Qed.

(** [verifyToken] on a token the codec issued. *)
Lemma verifyToken_of_issued (env : Env.t) (now : Z) (u : UserService.User)
    (kind : string) (expected : option string) :
  UserService.id u <> "" ->
  UserService.email u <> "" ->
  kind <> "" ->
  AuthService.verifyToken env now
    (HonoJwt.sign (AuthService.token_payload u kind) (Env.JWT_SECRET env)) expected
  = if truthy_string expected && negb (String.eqb kind (default "" expected))
    then None
    else Some {| AuthService.userId := UserService.id u;
                 AuthService.email := UserService.email u;
                 AuthService.tokenType := kind;
                 AuthService.iat := None;
                 AuthService.exp := None |}.
Proof.
  intros Hid Hemail Hkind.
  unfold AuthService.verifyToken, HonoJwt.sign, HonoJwt.verify. cbv zeta.
  change (HonoJwt.nbf (AuthService.token_payload u kind)) with (@None Z).
  change (HonoJwt.exp (AuthService.token_payload u kind)) with (@None Z).
  change (HonoJwt.iat (AuthService.token_payload u kind)) with (@None Z).
  change (truthy_number None) with false. cbn [andb].
  rewrite String.eqb_refl.
  change (HonoJwt.userId (AuthService.token_payload u kind))
    with (Some (UserService.id u)).
  change (HonoJwt.email (AuthService.token_payload u kind))
    with (Some (UserService.email u)).
  change (HonoJwt.tokenType (AuthService.token_payload u kind)) with (Some kind).
  change (HonoJwt.exp (AuthService.token_payload u kind)) with (@None Z).
  change (HonoJwt.iat (AuthService.token_payload u kind)) with (@None Z).
  rewrite !truthy_string_Some by assumption.
  reflexivity.
Qed.

(** X1.  A token issued for a user with a non-empty id and email verifies as
    its own kind, at every instant, with the user's id and email and no time
    claim; it is refused as the other kind. *)
Theorem token_kind_round_trip (env : Env.t) (now : Z) (u : UserService.User) :
  UserService.id u <> "" ->
  UserService.email u <> "" ->
  AuthService.verifyAccessToken env now (AuthService.generateAccessToken env u)
  = Some {| AuthService.userId := UserService.id u;
            AuthService.email := UserService.email u;
            AuthService.tokenType := "access";
            AuthService.iat := None;
            AuthService.exp := None |}
  /\ AuthService.verifyRefreshToken env now (AuthService.generateRefreshToken env u)
     = Some {| AuthService.userId := UserService.id u;
               AuthService.email := UserService.email u;
               AuthService.tokenType := "refresh";
               AuthService.iat := None;
               AuthService.exp := None |}
  /\ AuthService.verifyAccessToken env now (AuthService.generateRefreshToken env u) = None
  /\ AuthService.verifyRefreshToken env now (AuthService.generateAccessToken env u) = None.
Proof.
  intros Hid Hemail.
  assert ("access" <> "") as Ha by discriminate.
  assert ("refresh" <> "") as Hr by discriminate.
  unfold AuthService.verifyAccessToken, AuthService.verifyRefreshToken,
    AuthService.generateAccessToken, AuthService.generateRefreshToken.
  rewrite !verifyToken_of_issued by assumption.
  repeat split; reflexivity.
Qed.

Lemma token_kind_round_trip_witness :
  AuthService.verifyAccessToken Sample.env 0 Sample.refresh = None
  /\ AuthService.verifyRefreshToken Sample.env 0 Sample.access = None.
Proof.
  assert (UserService.id Sample.alice <> "") as Hid by discriminate.
  assert (UserService.email Sample.alice <> "") as Hemail by discriminate.
  destruct (token_kind_round_trip Sample.env 0 Sample.alice Hid Hemail)
    as (_ & _ & Ha & Hr).
  split; [exact Ha|exact Hr].
Defined.

(** X2.  What [verifyToken] accepts, and nothing else: a token signed under
    [JWT_SECRET] whose [exp] claim, if it has one, lies after the second of
    the request (a token with [exp] 0 has expired), whose [nbf] and [iat]
    claims, where present and not 0, are not after it, whose [userId],
    [email] and [tokenType] are non-empty, and whose [tokenType] is the
    expected one when a non-empty expected type is given.  It returns those
    fields. *)
Theorem verifyToken_accepts_iff (env : Env.t) (now : Z) (token : HonoJwt.Token)
    (expected : option string) (decoded : AuthService.AuthTokenPayload) :
  AuthService.verifyToken env now token expected = Some decoded
  <-> exists payload,
        token = HonoJwt.Signed payload (Env.JWT_SECRET env)
        /\ (forall n, HonoJwt.nbf payload = Some n -> n <> 0 -> n <= now / 1000)
        /\ (forall n, HonoJwt.exp payload = Some n -> now / 1000 < n)
        /\ (forall n, HonoJwt.iat payload = Some n -> n <> 0 -> n <= now / 1000)
        /\ truthy_string (HonoJwt.userId payload) = true
        /\ truthy_string (HonoJwt.email payload) = true
        /\ truthy_string (HonoJwt.tokenType payload) = true
        /\ (truthy_string expected = true -> HonoJwt.tokenType payload = expected)
        /\ decoded = {| AuthService.userId := default "" (HonoJwt.userId payload);
                        AuthService.email := default "" (HonoJwt.email payload);
                        AuthService.tokenType := default "" (HonoJwt.tokenType payload);
                        AuthService.iat := HonoJwt.iat payload;
                        AuthService.exp := HonoJwt.exp payload |}.
Proof.
  unfold AuthService.verifyToken, HonoJwt.verify. split.
  - destruct token as [payload key|raw]; [|discriminate]. cbv zeta.
    destruct (truthy_number (HonoJwt.nbf payload)
              && (now / 1000 <? default 0 (HonoJwt.nbf payload))) eqn:Hnbf;
      [discriminate|].
    destruct (match HonoJwt.exp payload with
              | Some e => e <=? now / 1000
              | None => false
              end) eqn:Hexp; [discriminate|].
    destruct (truthy_number (HonoJwt.iat payload)
              && (now / 1000 <? default 0 (HonoJwt.iat payload))) eqn:Hiat;
      [discriminate|].
    destruct (String.eqb_spec key (Env.JWT_SECRET env)) as [->|]; [|discriminate].
    destruct (truthy_string (HonoJwt.userId payload)) eqn:Hu; [|discriminate].
    destruct (truthy_string (HonoJwt.email payload)) eqn:He; [|discriminate].
    destruct (truthy_string (HonoJwt.tokenType payload)) eqn:Ht; [|discriminate].
    cbn [negb orb].
    destruct (truthy_string expected
              && negb (String.eqb (default "" (HonoJwt.tokenType payload))
                         (default "" expected))) eqn:Hkind; [discriminate|].
    intros [= <-]. exists payload.
    split; [reflexivity|]. split; [|split; [|split]].
    + intros n Hn Hn0. rewrite Hn in Hnbf. simpl in Hnbf.
      apply Z.eqb_neq in Hn0. rewrite Hn0 in Hnbf. simpl in Hnbf. lia.
    + intros n Hn. rewrite Hn in Hexp. lia.
    + intros n Hn Hn0. rewrite Hn in Hiat. simpl in Hiat.
      apply Z.eqb_neq in Hn0. rewrite Hn0 in Hiat. simpl in Hiat. lia.
    + do 3 (split; [assumption|]). split; [|reflexivity].
      intros Hexpected. rewrite Hexpected in Hkind. simpl in Hkind.
      apply negb_false_iff, String.eqb_eq in Hkind.
      destruct (HonoJwt.tokenType payload) as [k|]; [|discriminate].
      destruct expected as [x|]; [|discriminate].
      simpl in Hkind. by subst.
  - intros (payload & -> & Hnbf & Hexp & Hiat & Hu & He & Ht & Hkind & ->). cbv zeta.
    assert (truthy_number (HonoJwt.nbf payload)
            && (now / 1000 <? default 0 (HonoJwt.nbf payload)) = false) as ->.
    { destruct (HonoJwt.nbf payload) as [n|]; [|reflexivity]. simpl.
      destruct (Z.eqb_spec n 0); [reflexivity|]. simpl.
      specialize (Hnbf n eq_refl). lia. }
    assert (match HonoJwt.exp payload with
            | Some e => e <=? now / 1000
            | None => false
            end = false) as ->.
    { destruct (HonoJwt.exp payload) as [n|]; [|reflexivity].
      specialize (Hexp n eq_refl). lia. }
    assert (truthy_number (HonoJwt.iat payload)
            && (now / 1000 <? default 0 (HonoJwt.iat payload)) = false) as ->.
    { destruct (HonoJwt.iat payload) as [n|]; [|reflexivity]. simpl.
      destruct (Z.eqb_spec n 0); [reflexivity|]. simpl.
      specialize (Hiat n eq_refl). lia. }
    rewrite String.eqb_refl, Hu, He, Ht. cbn [negb orb].
    destruct (truthy_string expected) eqn:Hexpected; [|reflexivity].
    rewrite (Hkind eq_refl). cbn [andb].
    by rewrite String.eqb_refl.
Qed.

(** X3.  Refreshing rotates nothing: for a stored user with a non-empty id
    and email, [refreshAccessToken] on the refresh token issued for that user
    returns the pair the codec issued in the first place, so the refresh
    token handed back is the one that was presented; the user's access token
    is refused. *)
Theorem refresh_returns_the_same_tokens (env : Env.t) (now : Z)
    (u : UserService.User) (users : UserService.Users) :
  UserService.id u <> "" ->
  UserService.email u <> "" ->
  UserService.findById (UserService.id u) users = Some u ->
  AuthService.refreshAccessToken env now (AuthService.generateRefreshToken env u) users
  = Some (AuthService.generateAccessToken env u, AuthService.generateRefreshToken env u)
  /\ AuthService.refreshAccessToken env now (AuthService.generateAccessToken env u) users
     = None.
Proof.
  intros Hid Hemail Hfind.
  destruct (token_kind_round_trip env now u Hid Hemail) as (_ & Hr & _ & Hcross).
  unfold AuthService.refreshAccessToken. rewrite Hr, Hcross.
  cbn [AuthService.userId]. by rewrite Hfind.
Qed.

Lemma refresh_returns_the_same_tokens_witness :
  AuthService.refreshAccessToken Sample.env 7000 Sample.refresh (Db.users Sample.db0)
  = Some (Sample.access, Sample.refresh).
Proof.
  assert (UserService.id Sample.alice <> "") as Hid by discriminate.
  assert (UserService.email Sample.alice <> "") as Hemail by discriminate.
  exact (proj1 (refresh_returns_the_same_tokens Sample.env 7000 Sample.alice
                  (Db.users Sample.db0) Hid Hemail eq_refl)).
Defined.

(** ** Password policy *)

(** X4.  [validatePassword] reports a password as valid exactly when its
    JavaScript [length] (UTF-16 code units) is at least eight and it contains
    a lowercase letter, an uppercase letter, a digit and one of [@$!%*?&];
    it is valid exactly when the list of error messages is empty. *)
Theorem validatePassword_valid_iff (password : string) :
  (AuthService.valid (AuthService.validatePassword password) = true
   <-> (8 <= js_length password)%nat
       /\ AuthService.some_char AuthService.is_lower password = true
       /\ AuthService.some_char AuthService.is_upper password = true
       /\ AuthService.some_char AuthService.is_digit password = true
       /\ AuthService.some_char AuthService.is_special password = true)
  /\ (AuthService.valid (AuthService.validatePassword password) = true
      <-> AuthService.errors (AuthService.validatePassword password) = []).
Proof.
  unfold AuthService.validatePassword.
  cbn [AuthService.valid AuthService.errors].
  destruct (Nat.ltb_spec (js_length password) 8);
    destruct (AuthService.some_char AuthService.is_lower password);
    destruct (AuthService.some_char AuthService.is_upper password);
    destruct (AuthService.some_char AuthService.is_digit password);
    destruct (AuthService.some_char AuthService.is_special password);
    cbn [negb app length Nat.eqb];
    (split;
     [ split;
       [ intros H'; first [discriminate | repeat split; first [reflexivity | lia]]
       | intros (? & ? & ? & ? & ?); first [reflexivity | discriminate | lia] ]
     | split; intros H'; first [reflexivity | discriminate] ]).
Qed.

(** Seven characters in ten bytes: the policy counts the characters. *)
Example validatePassword_counts_code_units :
  String.length "Aa1!ééé" = 10%nat
  /\ js_length "Aa1!ééé" = 7%nat
  /\ AuthService.errors (AuthService.validatePassword "Aa1!ééé")
     = ["Password must be at least 8 characters long"]
  /\ AuthService.valid (AuthService.validatePassword "Aa1!éééé") = true.
Proof. vm_compute. repeat split; reflexivity. Qed.

(** A string of positive length is not the empty string. *)
Lemma js_length_nonempty (s : string) : (1 <= js_length s)%nat -> s <> "".
Proof. intros H ->. simpl in H. lia. Qed.

(** ** Registration *)

Lemma find_app_None {A} (p : A -> bool) (l l' : list A) :
  List.find p l = None -> List.find p (l ++ l') = List.find p l'.
Proof.
  induction l as [|x l IH]; [reflexivity|]. simpl.
  destruct (p x); [discriminate|]. exact IH.
Qed.

Lemma find_app_Some {A} (p : A -> bool) (l l' : list A) (x : A) :
  List.find p l = Some x -> List.find p (l ++ l') = Some x.
Proof.
  induction l as [|y l IH]; [discriminate|]. simpl.
  destruct (p y); [done|]. exact IH.
Qed.

Lemma existsb_false_find {A} (p q : A -> bool) (l : list A) :
  existsb (fun x => p x || q x) l = false ->
  List.find p l = None /\ List.find q l = None.
Proof.
  induction l as [|x l IH]; [done|]. simpl.
  destruct (p x), (q x); simpl; try discriminate. exact IH.
Qed.

(** What a registration that is answered 201 did. *)
Lemma register_created (env : Env.t) (is_email : string -> bool) (salt : nat)
    (now : Z) (new_id : string) (body : AuthService.RegisterData)
    (db db1 : Db.t) (resp : Http.Response) :
  AuthRoutes.register env is_email salt now new_id body db = (db1, resp) ->
  Http.status resp = 201 ->
  let row := AuthService.registered_row salt now new_id body in
  AuthRoutes.registerSchema is_email body = []
  /\ UserService.findByEmail (AuthService.reg_email body) (Db.users db) = None
  /\ UserService.findById new_id (Db.users db) = None
  /\ db1 = Db.with_users (Db.users db ++ [row])%list db
  /\ resp = {| Http.status := 201;
               Http.body := Http.SuccessUser (Some "User registered successfully")
                              (UserService.without_password row);
               Http.headers := [];
               Http.cookies :=
                 [Http.SetCookie "access_token" (AuthService.generateAccessToken env row)
                    (Env.COOKIE_ACCESS_TOKEN_MAX_AGE env);
                  Http.SetCookie "refresh_token" (AuthService.generateRefreshToken env row)
                    (Env.COOKIE_REFRESH_TOKEN_MAX_AGE env)] |}.
Proof.
  unfold AuthRoutes.register, AuthService.register, UserService.create.
  destruct (AuthRoutes.registerSchema is_email body) as [|issue issues] eqn:Hschema;
    [|intros [= <- <-]; discriminate].
  cbn [AuthRoutes.is_nil negb].
  destruct (UserService.findByEmail _ _) eqn:Hemail; [intros [= <- <-]; discriminate|].
  destruct (js_length _ <? 8)%nat; [intros [= <- <-]; discriminate|].
  cbn [UserService.new_email UserService.new_password UserService.new_name].
  destruct (existsb _ (Db.users db)) eqn:Hex; [intros [= <- <-]; discriminate|].
  apply existsb_false_find in Hex. destruct Hex as [_ Hid].
  intros [= <- <-] _. repeat split; assumption.
Qed.

(** X5.  After a registration that was answered 201, a registration with the
    same email (any password, name, salt and row id that pass the schema) is
    answered 400 "User with this email already exists" and leaves the
    database as the first registration left it. *)
Theorem register_same_email_again (env : Env.t) (is_email : string -> bool)
    (salt1 salt2 : nat) (now1 now2 : Z) (id1 id2 : string)
    (body1 body2 : AuthService.RegisterData) (db : Db.t) :
  let first := AuthRoutes.register env is_email salt1 now1 id1 body1 db in
  Http.status first.2 = 201 ->
  AuthService.reg_email body2 = AuthService.reg_email body1 ->
  AuthRoutes.registerSchema is_email body2 = [] ->
  AuthRoutes.register env is_email salt2 now2 id2 body2 first.1
  = (first.1, Http.json (Http.Failure "User with this email already exists") 400).
Proof.
  intros first Hstatus Hemail Hschema.
  destruct first as [db1 resp] eqn:Hfirst. cbn [fst snd] in *.
  destruct (register_created _ _ _ _ _ _ _ _ _ Hfirst Hstatus)
    as (_ & Hnone & _ & -> & _).
  unfold AuthRoutes.register, AuthService.register. rewrite Hschema.
  cbn [AuthRoutes.is_nil negb Db.users Db.with_users]. rewrite Hemail.
  unfold UserService.findByEmail in *. rewrite (find_app_None _ _ _ Hnone).
  cbn [List.find]. unfold AuthService.registered_row, UserService.new_row.
  cbn [UserService.email UserService.new_email].
  by rewrite String.eqb_refl.
Qed.

Lemma register_same_email_again_witness :
  let first :=
    AuthRoutes.register Sample.env Sample.contains_at 21 1000 Sample.bob_id
      Sample.bob Sample.db0 in
  AuthRoutes.register Sample.env Sample.contains_at 22 2000
    "aaaaaaaa-0000-4000-8000-000000000000" Sample.bob first.1
  = (first.1, Http.json (Http.Failure "User with this email already exists") 400).
Proof.
  exact (register_same_email_again Sample.env Sample.contains_at 21 22 1000 2000
           Sample.bob_id "aaaaaaaa-0000-4000-8000-000000000000" Sample.bob Sample.bob
           Sample.db0 eq_refl eq_refl eq_refl).
Defined.

(** X6.  Registration then login: after a registration that was answered 201,
    a login with the same email and password is answered 200 with the
    registered user and sets the very cookies the registration set. *)
Theorem register_then_login (env : Env.t) (is_email : string -> bool)
    (salt : nat) (now : Z) (new_id : string) (body : AuthService.RegisterData)
    (db : Db.t) :
  let first := AuthRoutes.register env is_email salt now new_id body db in
  Http.status first.2 = 201 ->
  AuthRoutes.login env is_email
    {| AuthService.cred_email := AuthService.reg_email body;
       AuthService.cred_password := AuthService.reg_password body |} first.1
  = {| Http.status := 200;
       Http.body :=
         Http.SuccessUser (Some "Login successful")
           (UserService.without_password
              (AuthService.registered_row salt now new_id body));
       Http.headers := [];
       Http.cookies := Http.cookies first.2 |}.
Proof.
  intros first Hstatus.
  destruct first as [db1 resp] eqn:Hfirst. cbn [fst snd] in *.
  destruct (register_created _ _ _ _ _ _ _ _ _ Hfirst Hstatus)
    as (Hschema & Hnone & _ & -> & ->).
  unfold AuthRoutes.registerSchema in Hschema.
  destruct (is_email (AuthService.reg_email body)) eqn:Hmail; [|discriminate].
  destruct (Nat.leb_spec 8 (js_length (AuthService.reg_password body)));
    [|discriminate].
  unfold AuthRoutes.login, AuthRoutes.loginSchema, AuthService.login.
  cbn [AuthService.cred_email AuthService.cred_password Db.users Db.with_users].
  rewrite Hmail.
  assert ((1 <=? js_length (AuthService.reg_password body))%nat = true) as ->
    by (apply Nat.leb_le; lia).
  cbn [app AuthRoutes.is_nil negb].
  unfold UserService.findByEmail in *. rewrite (find_app_None _ _ _ Hnone).
  unfold AuthService.registered_row, UserService.new_row.
  cbn [List.find UserService.email UserService.new_email].
  rewrite String.eqb_refl.
  unfold UserService.verifyPassword, BunPassword.verify, BunPassword.hash.
  cbn [UserService.password_hash BunPassword.input].
  rewrite bool_decide_eq_true_2 by reflexivity.
  reflexivity.
Qed.

Lemma register_then_login_witness :
  Http.status
    (AuthRoutes.login Sample.env Sample.contains_at
       {| AuthService.cred_email := "bob@example.com";
          AuthService.cred_password := "hunter2-hunter2" |}
       (AuthRoutes.register Sample.env Sample.contains_at 21 1000 Sample.bob_id
          Sample.bob Sample.db0).1) = 200.
Proof.
  exact (f_equal Http.status
           (register_then_login Sample.env Sample.contains_at 21 1000 Sample.bob_id
              Sample.bob Sample.db0 eq_refl)).
Defined.

(** X7.  Registration then an authenticated request: after a registration
    that was answered 201 with a non-empty row id and email, the token of the
    [access_token] cookie it set passes the middleware as the registered
    user, at every instant, as long as no logout-all is recorded for the new
    id and the blacklist lookup finds nothing. *)
Theorem register_then_request (env : Env.t) (is_email : string -> bool)
    (salt salt' : nat) (now now' : Z) (new_id : string)
    (body : AuthService.RegisterData) (db : Db.t) :
  let first := AuthRoutes.register env is_email salt now new_id body db in
  Http.status first.2 = 201 ->
  new_id <> "" ->
  AuthService.reg_email body <> "" ->
  Db.user_logout_timestamps db !! new_id = None ->
  Forall (fun r => BunPassword.salt (Db.token_hash r) ≠ salt') (Db.token_blacklist db) ->
  forall token maxAge,
    In (Http.SetCookie "access_token" token maxAge) (Http.cookies first.2) ->
    AuthMiddleware.authMiddleware env salt' now' (Some token) first.1
    = Http.Next (UserService.without_password
                   (AuthService.registered_row salt now new_id body)).
Proof.
  intros first Hstatus Hid Hemail Hlogout Hsalt token maxAge Hcookie.
  destruct first as [db1 resp] eqn:Hfirst. cbn [fst snd] in *.
  destruct (register_created _ _ _ _ _ _ _ _ _ Hfirst Hstatus)
    as (_ & _ & Hfresh & -> & ->).
  cbn [Http.cookies] in Hcookie.
  destruct Hcookie as [[= <- _]|[[=]|[]]].
  set (row := AuthService.registered_row salt now new_id body).
  apply authMiddleware_next_iff.
  split; [reflexivity|]. split; [by apply isBlacklisted_unused_salt|].
  exists {| AuthService.userId := new_id;
            AuthService.email := AuthService.reg_email body;
            AuthService.tokenType := "access";
            AuthService.iat := None;
            AuthService.exp := None |}, row.
  split.
  - unfold AuthService.generateAccessToken.
    rewrite (verifyToken_of_issued env now' row "access" None); [reflexivity|..];
      [exact Hid|exact Hemail|discriminate].
  - split; [by apply isTokenValidForUser_no_logout|].
    split; [|reflexivity].
    cbn [AuthService.userId Db.users Db.with_users].
    unfold UserService.findById in *. rewrite (find_app_None _ _ _ Hfresh).
    subst row. unfold AuthService.registered_row, UserService.new_row.
    cbn [List.find UserService.id]. by rewrite String.eqb_refl.
Qed.

Lemma register_then_request_witness :
  let first :=
    AuthRoutes.register Sample.env Sample.contains_at 21 1000 Sample.bob_id
      Sample.bob Sample.db0 in
  AuthMiddleware.authMiddleware Sample.env 30 5000
    (Some (AuthService.generateAccessToken Sample.env
             (AuthService.registered_row 21 1000 Sample.bob_id Sample.bob)))
    first.1
  = Http.Next (UserService.without_password
                 (AuthService.registered_row 21 1000 Sample.bob_id Sample.bob)).
Proof.
  assert (Sample.bob_id <> "") as Hid by discriminate.
  assert (AuthService.reg_email Sample.bob <> "") as Hemail by discriminate.
  assert (Db.user_logout_timestamps Sample.db0 !! Sample.bob_id = None) as Hlogout
    by apply lookup_empty.
  assert (Forall (fun r => BunPassword.salt (Db.token_hash r) ≠ 30%nat)
            (Db.token_blacklist Sample.db0)) as Hsalt by constructor.
  apply (register_then_request Sample.env Sample.contains_at 21 30 1000 5000
           Sample.bob_id Sample.bob Sample.db0 eq_refl Hid Hemail Hlogout Hsalt
           _ (Env.COOKIE_ACCESS_TOKEN_MAX_AGE Sample.env)).
  left. reflexivity.
Defined.

(** ** Requesting and using a reset token *)

Lemma find_map_preserving {A} (p : A -> bool) (f : A -> A) (l : list A) :
  (forall x, p (f x) = p x) ->
  List.find p (List.map f l) = option_map f (List.find p l).
Proof.
  intros Hp. induction l as [|x l IH]; [reflexivity|]. simpl.
  rewrite Hp. destruct (p x); [reflexivity|exact IH].
Qed.

(** The rows after a reset request for the email of a stored user. *)
Lemma requestPasswordReset_users (env : Env.t) (result_length : nat -> nat)
    (now : Z) (token : string) (emailSent : bool) (e : string)
    (users : UserService.Users) (u : UserService.User) :
  UserService.findByEmail e users = Some u ->
  (AuthService.requestPasswordReset env result_length now token emailSent e users).1
  = List.map
      (fun u => if String.eqb (UserService.email u) e
                then UserService.with_reset_token token
                       (now + Env.PASSWORD_RESET_EXPIRY_HOURS env * 60 * 60 * 1000) u
                else u)
      users.
Proof.
  intros Hfind. unfold AuthService.requestPasswordReset. rewrite Hfind.
  destruct (negb _); [reflexivity|]. destruct (negb emailSent); reflexivity.
Qed.

(** The row of that user afterwards. *)
Lemma requestPasswordReset_row (env : Env.t) (result_length : nat -> nat)
    (now : Z) (token : string) (emailSent : bool) (e : string)
    (users : UserService.Users) (u : UserService.User) :
  UserService.findByEmail e users = Some u ->
  UserService.findByEmail e
    (AuthService.requestPasswordReset env result_length now token emailSent e users).1
  = Some (UserService.with_reset_token token
            (now + Env.PASSWORD_RESET_EXPIRY_HOURS env * 60 * 60 * 1000) u).
Proof.
  intros Hfind. rewrite (requestPasswordReset_users _ _ _ _ _ _ _ _ Hfind).
  unfold UserService.findByEmail in *.
  rewrite find_map_preserving.
  - rewrite Hfind. simpl. apply find_some in Hfind. destruct Hfind as [_ Heq].
    by rewrite Heq.
  - intros x. destruct (String.eqb (UserService.email x) e) eqn:E; [|exact E].
    cbn [UserService.with_reset_token UserService.email]. exact E.
Qed.

(** The guarded update keeps every row's email. *)
Lemma resetPassword_row (result_length : nat -> nat) (salt : nat) (now : Z)
    (token password e : string) (users : UserService.Users) :
  UserService.findByEmail e
    (UserService.resetPassword result_length salt now token password users).1
  = option_map
      (fun u => if UserService.reset_token_matches token now u
                then UserService.with_new_password (BunPassword.hash salt password) u
                else u)
      (UserService.findByEmail e users).
Proof.
  unfold UserService.resetPassword, UserService.findByEmail. cbn [fst].
  apply find_map_preserving.
  intros x. by destruct (UserService.reset_token_matches token now x).
Qed.

(** X8.  [POST /auth/forgot-password] answers every well-formed email with
    status 200 and the body [{ success: true, message: "If an account with
    that email exists, a reset code has been sent" }], no header and no
    cookie, whether or not the email is registered, whether or not the mail
    could be sent and whatever the driver reported, so any two such requests
    get the same response; it touches neither revocation table, and for an
    unregistered email the database is left as it was. *)
Theorem forgot_password_reveals_nothing (env : Env.t) (is_email : string -> bool)
    (rl1 rl2 : nat -> nat) (now1 now2 : Z) (token1 token2 : string)
    (sent1 sent2 : bool) (e1 e2 : string) (db1 db2 : Db.t) :
  is_email e1 = true ->
  is_email e2 = true ->
  let r1 := AuthRoutes.forgot_password env is_email rl1 now1 token1 sent1 e1 db1 in
  let r2 := AuthRoutes.forgot_password env is_email rl2 now2 token2 sent2 e2 db2 in
  r1.2 = {| Http.status := 200;
            Http.body :=
              Http.Success
                "If an account with that email exists, a reset code has been sent";
            Http.headers := [];
            Http.cookies := [] |}
  /\ r2.2 = r1.2
  /\ Db.token_blacklist r1.1 = Db.token_blacklist db1
  /\ Db.user_logout_timestamps r1.1 = Db.user_logout_timestamps db1
  /\ (UserService.findByEmail e1 (Db.users db1) = None -> r1.1 = db1).
Proof.
  intros H1 H2 r1 r2. subst r1 r2.
  unfold AuthRoutes.forgot_password, AuthRoutes.resetPasswordRequestSchema.
  rewrite H1, H2. cbn [AuthRoutes.is_nil negb snd fst].
  split_and!; try reflexivity.
  intros Hnone. unfold AuthService.requestPasswordReset. rewrite Hnone.
  by destruct db1.
Qed.

Lemma forgot_password_reveals_nothing_witness :
  Http.status
    (AuthRoutes.forgot_password Sample.env Sample.contains_at BunSql.result_length
       0 Sample.reset_token true "alice@example.com" Sample.db0).2 = 200
  /\ (AuthRoutes.forgot_password Sample.env Sample.contains_at BunSql.result_length
        0 Sample.reset_token false "nobody@example.com" Sample.db0).2
     = (AuthRoutes.forgot_password Sample.env Sample.contains_at BunSql.result_length
          0 Sample.reset_token true "alice@example.com" Sample.db0).2.
Proof.
  destruct (forgot_password_reveals_nothing Sample.env Sample.contains_at
              BunSql.result_length BunSql.result_length 0 0
              Sample.reset_token Sample.reset_token true false
              "alice@example.com" "nobody@example.com" Sample.db0 Sample.db0
              eq_refl eq_refl) as (Hfirst & Hsame & _).
  split; [by rewrite Hfirst|exact Hsame].
Defined.

(** X9.  The reset flow end to end: for a registered email, a reset request
    at [now1] followed by [resetPassword] with the requested token and a
    valid new password strictly before [now1 + PASSWORD_RESET_EXPIRY_HOURS]
    makes a login with the new password succeed as that user and makes a
    login with any other password, the old one included, fail. *)
Theorem reset_then_login (env : Env.t) (result_length : nat -> nat) (salt : nat)
    (now1 now2 : Z) (token : string) (emailSent : bool) (e password : string)
    (users : UserService.Users) (u : UserService.User) :
  UserService.findByEmail e users = Some u ->
  AuthService.valid (AuthService.validatePassword password) = true ->
  now2 < now1 + Env.PASSWORD_RESET_EXPIRY_HOURS env * 60 * 60 * 1000 ->
  let users1 :=
    (AuthService.requestPasswordReset env result_length now1 token emailSent e users).1 in
  let users2 :=
    (AuthService.resetPassword result_length salt now2 token password users1).1 in
  (exists resp,
     AuthService.login env
       {| AuthService.cred_email := e; AuthService.cred_password := password |} users2
     = inr resp
     /\ UserService.pub_id (AuthService.user resp) = UserService.id u)
  /\ forall other, other <> password ->
       AuthService.login env
         {| AuthService.cred_email := e; AuthService.cred_password := other |} users2
       = inl "Invalid email or password".
Proof.
  intros Hfind Hvalid Hlive users1 users2.
  assert (UserService.findByEmail e users2
          = Some (UserService.with_new_password (BunPassword.hash salt password)
                    (UserService.with_reset_token token
                       (now1 + Env.PASSWORD_RESET_EXPIRY_HOURS env * 60 * 60 * 1000) u)))
    as Hrow.
  { subst users2 users1. rewrite AuthService_resetPassword_unfold, Hvalid.
    rewrite resetPassword_row, (requestPasswordReset_row _ _ _ _ _ _ _ _ Hfind).
    cbn [option_map]. unfold UserService.reset_token_matches.
    cbn [UserService.with_reset_token UserService.password_reset_token
         UserService.password_reset_expires].
    rewrite String.eqb_refl. apply Z.ltb_lt in Hlive. by rewrite Hlive. }
  unfold AuthService.login. cbn [AuthService.cred_email AuthService.cred_password].
  rewrite Hrow.
  unfold UserService.verifyPassword, BunPassword.verify, BunPassword.hash.
  cbn [UserService.with_new_password UserService.password_hash BunPassword.input].
  split.
  - rewrite bool_decide_eq_true_2 by reflexivity. cbn [negb].
    eexists. split; reflexivity.
  - intros other Hother. by rewrite bool_decide_eq_false_2.
Qed.

Lemma reset_then_login_witness :
  let users2 :=
    (AuthService.resetPassword BunSql.result_length 5 1000 Sample.reset_token
       "N3w&Secret" Sample.users_resetting).1 in
  AuthService.login Sample.env
    {| AuthService.cred_email := "alice@example.com";
       AuthService.cred_password := "Correct-Horse-1!" |} users2
  = inl "Invalid email or password".
Proof.
  assert (1000 < 0 + Env.PASSWORD_RESET_EXPIRY_HOURS Sample.env * 60 * 60 * 1000)
    as Hlive by (vm_compute; reflexivity).
  assert ("Correct-Horse-1!" <> "N3w&Secret") as Hother by discriminate.
  exact (proj2 (reset_then_login Sample.env BunSql.result_length 5 0 1000
                  Sample.reset_token true "alice@example.com" "N3w&Secret"
                  (Db.users Sample.db0) Sample.alice eq_refl eq_refl Hlive)
           "Correct-Horse-1!" Hother).
Defined.

(** X10.  The reset token expires: when no row held the token before the
    request, [resetPassword] with the requested token at or after
    [now1 + PASSWORD_RESET_EXPIRY_HOURS] (the expiry instant itself included)
    returns [false] and changes no row, whatever the new password. *)
Theorem reset_token_expires (env : Env.t) (result_length : nat -> nat) (salt : nat)
    (now1 now2 : Z) (token : string) (emailSent : bool) (e password : string)
    (users : UserService.Users) (u : UserService.User) :
  result_length 0%nat = 0%nat ->
  UserService.findByEmail e users = Some u ->
  Forall (fun x => UserService.password_reset_token x <> Some token) users ->
  now1 + Env.PASSWORD_RESET_EXPIRY_HOURS env * 60 * 60 * 1000 <= now2 ->
  let users1 :=
    (AuthService.requestPasswordReset env result_length now1 token emailSent e users).1 in
  AuthService.resetPassword result_length salt now2 token password users1
  = (users1, false).
Proof.
  intros Hzero Hfind Hfresh Hlate users1.
  rewrite AuthService_resetPassword_unfold.
  destruct (AuthService.valid _); [|reflexivity].
  assert (forall x, x ∈ users1 -> UserService.reset_token_matches token now2 x = false)
    as Hnone.
  { subst users1. rewrite (requestPasswordReset_users _ _ _ _ _ _ _ _ Hfind).
    intros x Hx. apply list_elem_of_In, in_map_iff in Hx.
    destruct Hx as (y & <- & Hy).
    unfold UserService.reset_token_matches.
    destruct (String.eqb (UserService.email y) e).
    - cbn [UserService.with_reset_token UserService.password_reset_token
           UserService.password_reset_expires].
      rewrite String.eqb_refl. cbn [andb]. apply Z.ltb_ge. exact Hlate.
    - rewrite Forall_forall in Hfresh.
      specialize (Hfresh y (proj2 (list_elem_of_In _ _) Hy)).
      destruct (UserService.password_reset_token y) as [t|]; [|reflexivity].
      destruct (UserService.password_reset_expires y); [|reflexivity].
      destruct (String.eqb_spec t token) as [->|]; [done|reflexivity]. }
  unfold UserService.resetPassword, UserService.affected.
  rewrite (filter_none _ _ Hnone), (map_unless _ _ _ Hnone). simpl.
  by rewrite Hzero.
Qed.

Lemma reset_token_expires_witness :
  AuthService.resetPassword BunSql.result_length 5 3600000 Sample.reset_token
    "N3w&Secret" Sample.users_resetting
  = (Sample.users_resetting, false).
Proof.
  assert (Forall (fun x => UserService.password_reset_token x <> Some Sample.reset_token)
            (Db.users Sample.db0)) as Hfresh
    by (repeat constructor; discriminate).
  assert (0 + Env.PASSWORD_RESET_EXPIRY_HOURS Sample.env * 60 * 60 * 1000 <= 3600000)
    as Hlate by (vm_compute; discriminate).
  exact (reset_token_expires Sample.env BunSql.result_length 5 0 3600000
           Sample.reset_token true "alice@example.com" "N3w&Secret"
           (Db.users Sample.db0) Sample.alice eq_refl eq_refl Hfresh Hlate).
Defined.

(** X11.  A new reset request supersedes the previous one: once a second
    request for the same email has stored a different token, [resetPassword]
    with the first token leaves that user's row, password hash included, as
    it was. *)
Theorem reset_token_superseded (env : Env.t) (result_length : nat -> nat)
    (salt : nat) (now1 now2 now3 : Z) (token1 token2 : string)
    (sent1 sent2 : bool) (e password : string)
    (users : UserService.Users) (u : UserService.User) :
  UserService.findByEmail e users = Some u ->
  token1 <> token2 ->
  let users1 :=
    (AuthService.requestPasswordReset env result_length now1 token1 sent1 e users).1 in
  let users2 :=
    (AuthService.requestPasswordReset env result_length now2 token2 sent2 e users1).1 in
  UserService.findByEmail e
    (AuthService.resetPassword result_length salt now3 token1 password users2).1
  = UserService.findByEmail e users2
  /\ UserService.password_hash <$> UserService.findByEmail e users2
     = Some (UserService.password_hash u).
Proof.
  intros Hfind Hne users1 users2.
  pose proof (requestPasswordReset_row env result_length now1 token1 sent1 e users u Hfind)
    as Hrow1. fold users1 in Hrow1.
  pose proof (requestPasswordReset_row env result_length now2 token2 sent2 e users1 _ Hrow1)
    as Hrow2. fold users2 in Hrow2.
  split; [|by rewrite Hrow2].
  rewrite AuthService_resetPassword_unfold.
  destruct (AuthService.valid _); [|reflexivity].
  rewrite resetPassword_row, Hrow2. cbn [option_map].
  unfold UserService.reset_token_matches.
  cbn [UserService.with_reset_token UserService.password_reset_token
       UserService.password_reset_expires].
  apply not_eq_sym, String.eqb_neq in Hne. by rewrite Hne.
Qed.

Lemma reset_token_superseded_witness :
  let users2 :=
    (AuthService.requestPasswordReset Sample.env BunSql.result_length 500
       "00000000000000000000000000000000" true "alice@example.com"
       Sample.users_resetting).1 in
  UserService.findByEmail "alice@example.com"
    (AuthService.resetPassword BunSql.result_length 5 1000 Sample.reset_token
       "N3w&Secret" users2).1
  = UserService.findByEmail "alice@example.com" users2.
Proof.
  assert (Sample.reset_token <> "00000000000000000000000000000000") as Hne
    by discriminate.
  exact (proj1 (reset_token_superseded Sample.env BunSql.result_length 5 0 500 1000
                  Sample.reset_token "00000000000000000000000000000000" true true
                  "alice@example.com" "N3w&Secret" (Db.users Sample.db0) Sample.alice
                  eq_refl Hne)).
Defined.

(** ** Maintenance and scope of the revocation ledger *)

Lemma existsb_filter_implied {A} (p q : A -> bool) (l : list A) :
  (forall x, p x = true -> q x = true) ->
  existsb p (List.filter q l) = existsb p l.
Proof.
  intros Hpq. induction l as [|x l IH]; [reflexivity|]. simpl.
  destruct (q x) eqn:Hq; simpl; rewrite IH; [reflexivity|].
  destruct (p x) eqn:Hp; [|reflexivity].
  rewrite (Hpq x Hp) in Hq. discriminate.
Qed.

(** X12.  The hourly cleanup cannot be observed through the blacklist: a
    lookup at the instant of the cleanup or later gives the same answer on
    the cleaned table as on the uncleaned one, for every token and salt; the
    users table is not touched. *)
Theorem cleanupExpired_invisible (salt : nat) (now later : Z)
    (token : HonoJwt.Token) (db : Db.t) :
  now <= later ->
  TokenBlacklist.isBlacklisted salt later token (TokenBlacklist.cleanupExpired now db)
  = TokenBlacklist.isBlacklisted salt later token db
  /\ Db.users (TokenBlacklist.cleanupExpired now db) = Db.users db.
Proof.
  intros Hle. split; [|reflexivity].
  unfold TokenBlacklist.isBlacklisted, TokenBlacklist.cleanupExpired.
  cbn [Db.token_blacklist Db.with_user_logout_timestamps Db.with_token_blacklist].
  apply existsb_filter_implied. intros r Hr.
  apply andb_true_iff in Hr. destruct Hr as [_ Hlive].
  destruct (Db.expires_at r) as [e|]; [|reflexivity].
  apply Z.ltb_lt in Hlive. apply negb_true_iff, Z.ltb_ge. lia.
Qed.

Lemma cleanupExpired_invisible_witness :
  let db1 := (AuthRoutes.logout Sample.env 1 1000 (Some Sample.access) Sample.db0).1 in
  TokenBlacklist.isBlacklisted 1 5000 Sample.access
    (TokenBlacklist.cleanupExpired 4000 db1)
  = TokenBlacklist.isBlacklisted 1 5000 Sample.access db1.
Proof.
  assert (4000 <= 5000) as Hle by lia.
  exact (proj1 (cleanupExpired_invisible 1 4000 5000 Sample.access
                  (AuthRoutes.logout Sample.env 1 1000 (Some Sample.access) Sample.db0).1
                  Hle)).
Defined.

(** X13.  The cleanup ends a logout-all after thirty days: once the recorded
    instant is more than thirty days old the cleanup deletes it and every
    token of that user, whatever its issued-at, is valid for the user again;
    a younger record, and a user without record, are left as they are. *)
Theorem cleanupExpired_ends_logout_all (now : Z) (userId : string)
    (issued : option Z) (db : Db.t) :
  TokenBlacklist.isTokenValidForUser userId issued (TokenBlacklist.cleanupExpired now db)
  = match Db.user_logout_timestamps db !! userId with
    | Some logout_at =>
        if logout_at <? now - TokenBlacklist.thirty_days then true
        else TokenBlacklist.isTokenValidForUser userId issued db
    | None => true
    end.
Proof.
  unfold TokenBlacklist.isTokenValidForUser, TokenBlacklist.cleanupExpired.
  cbn [Db.user_logout_timestamps Db.with_user_logout_timestamps Db.with_token_blacklist].
  destruct (Db.user_logout_timestamps db !! userId) as [logout_at|] eqn:Hlookup.
  - destruct (logout_at <? now - TokenBlacklist.thirty_days) eqn:Hold.
    + assert (filter (fun kv : string * Z =>
                        negb (kv.2 <? now - TokenBlacklist.thirty_days) = true)
                (Db.user_logout_timestamps db) !! userId = None) as ->; [|reflexivity].
      apply map_lookup_filter_None. right. intros x Hx.
      rewrite Hlookup in Hx. injection Hx as <-. simpl. by rewrite Hold.
    + assert (filter (fun kv : string * Z =>
                        negb (kv.2 <? now - TokenBlacklist.thirty_days) = true)
                (Db.user_logout_timestamps db) !! userId = Some logout_at) as ->;
        [|reflexivity].
      apply map_lookup_filter_Some. split; [exact Hlookup|]. simpl. by rewrite Hold.
  - assert (filter (fun kv : string * Z =>
                      negb (kv.2 <? now - TokenBlacklist.thirty_days) = true)
              (Db.user_logout_timestamps db) !! userId = None) as ->; [|reflexivity].
    apply map_lookup_filter_None. by left.
Qed.

(** A logout-all at instant 1000 is gone after a cleanup thirty-one days
    later, and the token it had invalidated passes the middleware again. *)
Example logout_all_forgotten :
  let db1 :=
    (AuthRoutes.logout_all Sample.env 1000
       (Some (AuthRoutes.Bearer Sample.access)) Sample.db0).1 in
  let later := 1000 + 31 * 24 * 60 * 60 * 1000 in
  (exists r, AuthMiddleware.authMiddleware Sample.env 1 later (Some Sample.access) db1
             = Http.Respond r)
  /\ AuthMiddleware.authMiddleware Sample.env 1 later (Some Sample.access)
       (TokenBlacklist.cleanupExpired later db1)
     = Http.Next (UserService.without_password Sample.alice).
Proof. split; [eexists|]; vm_compute; reflexivity. Qed.

(** X14.  A logout-all concerns one user.  Whether the statement is accepted
    (the id is a stored user's) or rejected by the foreign key, it changes
    the validity of no other user's tokens and the answer of no blacklist
    lookup, and of two logout-alls of the same user only the later instant is
    kept.  It is accepted exactly for the id of a stored user, and then
    records the instant of the call for that id. *)
Theorem logout_all_scope (now1 now2 : Z) (userId other : string)
    (issued : option Z) (salt : nat) (at_ : Z) (token : HonoJwt.Token) (db : Db.t) :
  other <> userId ->
  let after :=
    match TokenBlacklist.blacklistAllUserTokens now1 userId db with
    | Some db1 => db1
    | None => db
    end in
  TokenBlacklist.isTokenValidForUser other issued after
  = TokenBlacklist.isTokenValidForUser other issued db
  /\ TokenBlacklist.isBlacklisted salt at_ token after
     = TokenBlacklist.isBlacklisted salt at_ token db
  /\ TokenBlacklist.blacklistAllUserTokens now2 userId after
     = TokenBlacklist.blacklistAllUserTokens now2 userId db
  /\ (UserService.findById userId (Db.users db) = None ->
      TokenBlacklist.blacklistAllUserTokens now1 userId db = None)
  /\ (forall u, UserService.findById userId (Db.users db) = Some u ->
        TokenBlacklist.blacklistAllUserTokens now1 userId db = Some after
        /\ Db.user_logout_timestamps after !! userId = Some now1).
Proof.
  intros Hne after. subst after.
  unfold TokenBlacklist.blacklistAllUserTokens, Db.references_user.
  destruct (UserService.findById userId (Db.users db)) as [u|] eqn:Hfind.
  - split_and!.
    + unfold TokenBlacklist.isTokenValidForUser.
      cbn [Db.user_logout_timestamps Db.with_user_logout_timestamps].
      by rewrite lookup_insert_ne.
    + reflexivity.
    + cbn [Db.users Db.with_user_logout_timestamps]. rewrite Hfind.
      unfold Db.with_user_logout_timestamps.
      cbn [Db.users Db.token_blacklist Db.user_logout_timestamps].
      by rewrite insert_insert_eq.
    + discriminate.
    + intros u' _. split; [reflexivity|].
      cbn [Db.user_logout_timestamps Db.with_user_logout_timestamps].
      apply lookup_insert_eq.
  - split_and!; try reflexivity.
    + by rewrite Hfind.
    + discriminate.
Qed.

Lemma logout_all_scope_witness :
  exists db1,
    TokenBlacklist.blacklistAllUserTokens 1000 (UserService.id Sample.alice) Sample.db0
    = Some db1
    /\ Db.user_logout_timestamps db1 !! UserService.id Sample.alice = Some 1000
    /\ TokenBlacklist.isTokenValidForUser Sample.bob_id None db1
       = TokenBlacklist.isTokenValidForUser Sample.bob_id None Sample.db0.
Proof.
  assert (Sample.bob_id <> UserService.id Sample.alice) as Hne by discriminate.
  destruct (logout_all_scope 1000 2000 (UserService.id Sample.alice) Sample.bob_id
              None 1 0 Sample.access Sample.db0 Hne)
    as (Hother & _ & _ & _ & Hstored).
  destruct (Hstored Sample.alice eq_refl) as [Hsome Hlookup].
  eexists. split; [exact Hsome|]. split; [exact Hlookup|exact Hother].
Defined.

(** ** The logout routes *)

(** X15.  [POST /auth/logout] always answers 200 "Logout successful" and
    deletes both cookies.  It never touches the users or the logout-all
    table, and it adds at most one blacklist row: none when the cookie is
    absent or is not accepted as an access token, otherwise at most the row
    for the cookie's token, owned by the token's subject and expiring eight
    days later. *)
Theorem logout_always_succeeds (env : Env.t) (salt : nat) (now : Z)
    (cookie : option HonoJwt.Token) (db : Db.t) :
  let r := AuthRoutes.logout env salt now cookie db in
  r.2 = {| Http.status := 200;
           Http.body := Http.Success "Logout successful";
           Http.headers := [];
           Http.cookies := [Http.DeleteCookie "access_token";
                            Http.DeleteCookie "refresh_token"] |}
  /\ Db.users r.1 = Db.users db
  /\ Db.user_logout_timestamps r.1 = Db.user_logout_timestamps db
  /\ (r.1 = db
      \/ exists token decoded,
           cookie = Some token
           /\ AuthService.verifyAccessToken env now token = Some decoded
           /\ Db.token_blacklist r.1
              = (Db.token_blacklist db ++
                   [ {| Db.token_hash := BunPassword.hash salt token;
                        Db.user_id :=
                          TokenBlacklist.or_null (Some (AuthService.userId decoded));
                        Db.expires_at := Some (now + TokenBlacklist.eight_days) |} ])%list)
  /\ (cookie = None -> r.1 = db)
  /\ (forall token, cookie = Some token ->
        AuthService.verifyAccessToken env now token = None -> r.1 = db).
Proof.
  intros r. subst r. unfold AuthRoutes.logout. cbn [fst snd].
  split; [reflexivity|].
  destruct cookie as [token|].
  2:{ split_and!; try reflexivity; try discriminate. by left. }
  destruct (HonoJwt.is_empty token) eqn:Hempty.
  { split_and!; try reflexivity; try discriminate. by left. }
  destruct (AuthService.verifyAccessToken env now token) as [decoded|] eqn:Hverify.
  2:{ split_and!; try reflexivity; try discriminate. by left. }
  destruct (TokenBlacklist.blacklistToken salt now token
              (Some (AuthService.userId decoded)) db) as [db1|] eqn:Hsome.
  2:{ split_and!; try reflexivity; try discriminate. by left. }
  destruct (blacklistToken_Some _ _ _ _ _ _ Hsome) as [[_ ->]|[_ ->]].
  { split_and!; try reflexivity; try discriminate. by left. }
  split_and!; try reflexivity; try discriminate.
  - right. exists token, decoded. split_and!; [reflexivity|exact Hverify|reflexivity].
  - intros t [= <-] Hnone. rewrite Hverify in Hnone. discriminate.
Qed.

(** X16.  [POST /auth/logout-all] answers 200, 401 or 500 and never touches
    the users or the blacklist table.  It answers 200 exactly when the header
    is [Bearer token] with a token [verifyToken] accepts (of either kind)
    whose subject is a stored user, and then the only change is that the
    logout instant of that subject is the instant of the request.  It answers
    500 "Logout failed" exactly when the token is accepted but its subject is
    no stored user (a deleted account): the foreign key rejects the INSERT.
    Whenever the answer is not 200 the database is unchanged. *)
Theorem logout_all_effect (env : Env.t) (now : Z)
    (authHeader : option AuthRoutes.Authorization) (db : Db.t) :
  let r := AuthRoutes.logout_all env now authHeader db in
  Db.users r.1 = Db.users db
  /\ Db.token_blacklist r.1 = Db.token_blacklist db
  /\ (Http.status r.2 = 200 \/ Http.status r.2 = 401 \/ Http.status r.2 = 500)
  /\ (Http.status r.2 <> 200 -> r.1 = db)
  /\ (Http.status r.2 = 200 <->
      exists token decoded usr,
        authHeader = Some (AuthRoutes.Bearer token)
        /\ AuthService.verifyToken env now token None = Some decoded
        /\ UserService.findById (AuthService.userId decoded) (Db.users db) = Some usr)
  /\ (forall token decoded,
        authHeader = Some (AuthRoutes.Bearer token) ->
        AuthService.verifyToken env now token None = Some decoded ->
        Http.status r.2 = 200 ->
        r.2 = Http.json (Http.Success "Logged out from all devices") 200
        /\ Db.user_logout_timestamps r.1
           = <[AuthService.userId decoded := now]> (Db.user_logout_timestamps db))
  /\ (Http.status r.2 = 500 <->
      exists token decoded,
        authHeader = Some (AuthRoutes.Bearer token)
        /\ AuthService.verifyToken env now token None = Some decoded
        /\ UserService.findById (AuthService.userId decoded) (Db.users db) = None)
  /\ (Http.status r.2 = 500 -> r.2 = Http.json (Http.Failure "Logout failed") 500).
Proof.
  intros r. subst r. unfold AuthRoutes.logout_all.
  destruct authHeader as [[token|raw]|]; cbn [fst snd].
  2,3: split_and!; try reflexivity; try discriminate; try (by right; left);
       (split;
        [ discriminate
        | first [ solve [intros (? & ? & [=] & _)]
                | solve [intros (? & ? & ? & [=] & _)] ] ]).
  destruct (AuthService.verifyToken env now token None) as [decoded|] eqn:Hverify;
    cbn [fst snd].
  2:{ split_and!; try reflexivity; try discriminate; try (by right; left).
      - split; [discriminate|]. intros (t & d & u & [= <-] & Hv & _).
        rewrite Hverify in Hv. discriminate.
      - split; [discriminate|]. intros (t & d & [= <-] & Hv & _).
        rewrite Hverify in Hv. discriminate. }
  unfold TokenBlacklist.blacklistAllUserTokens, Db.references_user.
  destruct (UserService.findById (AuthService.userId decoded) (Db.users db))
    as [usr|] eqn:Hfind; cbn [fst snd].
  - split_and!.
    + reflexivity.
    + reflexivity.
    + by left.
    + intros Hne. by destruct Hne.
    + split; [|reflexivity]. intros _. exists token, decoded, usr. done.
    + intros t d [= <-] Hv _. rewrite Hverify in Hv. injection Hv as <-.
      split; reflexivity.
    + split; [discriminate|]. intros (t & d & [= <-] & Hv & Hnone).
      rewrite Hverify in Hv. injection Hv as <-. rewrite Hfind in Hnone.
      discriminate.
    + discriminate.
  - split_and!.
    + reflexivity.
    + reflexivity.
    + by right; right.
    + reflexivity.
    + split; [discriminate|]. intros (t & d & u & [= <-] & Hv & Hsome).
      rewrite Hverify in Hv. injection Hv as <-. rewrite Hfind in Hsome.
      discriminate.
    + intros t d _ _ [=].
    + split; [|reflexivity]. intros _. exists token, decoded. done.
    + reflexivity.
Qed.

(** A validly signed token of an account that has been deleted: logout-all
    answers 500 and stores nothing. *)
Example logout_all_of_deleted_account :
  let db1 :=
    (UsersRoutes.delete_account BunSql.result_length
       (Some (UserService.without_password Sample.alice)) Sample.db0).1 in
  AuthRoutes.logout_all Sample.env 1000 (Some (AuthRoutes.Bearer Sample.access)) db1
  = (db1, Http.json (Http.Failure "Logout failed") 500).
Proof. vm_compute. reflexivity. Qed.

(** ** More on the rate limiter *)

(** The verdict for a client depends on the limiter through that client's
    entry and the ceiling only. *)
Lemma isAllowed_verdict_congr (env : Env.t) (now : Z) (c : RateLimit.Context)
    (l1 l2 : RateLimit.RateLimiter) :
  RateLimit.requests l1 !! RateLimit.getClientId env c
  = RateLimit.requests l2 !! RateLimit.getClientId env c ->
  RateLimit.maxRequests l1 = RateLimit.maxRequests l2 ->
  (RateLimit.isAllowed env now c l1).2 = (RateLimit.isAllowed env now c l2).2.
Proof.
  intros Hentry Hmax. unfold RateLimit.isAllowed. rewrite Hentry, Hmax.
  repeat case_match; reflexivity.
Qed.

Lemma isAllowed_keeps_settings (env : Env.t) (now : Z) (c : RateLimit.Context)
    (l : RateLimit.RateLimiter) :
  RateLimit.maxRequests (RateLimit.isAllowed env now c l).1 = RateLimit.maxRequests l
  /\ RateLimit.windowSize (RateLimit.isAllowed env now c l).1 = RateLimit.windowSize l.
Proof. unfold RateLimit.isAllowed. repeat case_match; split; reflexivity. Qed.

Lemma isAllowed_keeps_bound (env : Env.t) (now : Z) (c : RateLimit.Context)
    (l : RateLimit.RateLimiter) (bound : Z) :
  Z.max 1 (RateLimit.maxRequests l) <= bound ->
  map_Forall (fun _ d => 1 <= RateLimit.count d <= bound) (RateLimit.requests l) ->
  map_Forall (fun _ d => 1 <= RateLimit.count d <= bound)
    (RateLimit.requests (RateLimit.isAllowed env now c l).1).
Proof.
  intros Hbound Hinv. unfold RateLimit.isAllowed.
  destruct (RateLimit.requests l !! RateLimit.getClientId env c) as [d|] eqn:Hd.
  - destruct (RateLimit.resetTime d <? now).
    + cbn [fst RateLimit.requests RateLimit.with_requests].
      apply map_Forall_insert_2; [simpl; lia|exact Hinv].
    + destruct (Z.leb_spec (RateLimit.maxRequests l) (RateLimit.count d)).
      * exact Hinv.
      * cbn [fst RateLimit.requests RateLimit.with_requests].
        apply map_Forall_insert_2; [|exact Hinv].
        specialize (Hinv _ _ Hd). simpl in *. lia.
  - cbn [fst RateLimit.requests RateLimit.with_requests].
    apply map_Forall_insert_2; [simpl; lia|exact Hinv].
Qed.

(** X17.  Whatever requests of whatever clients and whatever cleanup runs
    happen, in any order and at any instants, the limiter keeps its ceiling
    and window, and every stored counter stays between 1 and the ceiling (or
    1 when the ceiling is below 1). *)
Theorem limiter_counters_bounded (env : Env.t) (events : list Schedule.Event)
    (l : RateLimit.RateLimiter) :
  map_Forall (fun _ d => 1 <= RateLimit.count d <= Z.max 1 (RateLimit.maxRequests l))
    (RateLimit.requests l) ->
  let l' := Schedule.run env events l in
  RateLimit.maxRequests l' = RateLimit.maxRequests l
  /\ RateLimit.windowSize l' = RateLimit.windowSize l
  /\ map_Forall (fun _ d => 1 <= RateLimit.count d <= Z.max 1 (RateLimit.maxRequests l))
       (RateLimit.requests l').
Proof.
  unfold Schedule.run.
  set (bound := Z.max 1 (RateLimit.maxRequests l)).
  assert (Z.max 1 (RateLimit.maxRequests l) <= bound) as Hbound by (subst bound; lia).
  clearbody bound.
  set (N := RateLimit.maxRequests l) in *. set (W := RateLimit.windowSize l).
  assert (RateLimit.maxRequests l = N) as HN by reflexivity.
  assert (RateLimit.windowSize l = W) as HW by reflexivity.
  clearbody N W.
  revert l HN HW. induction events as [|e events IH]; intros l HN HW Hinv.
  - simpl. by rewrite HN, HW.
  - simpl. apply IH.
    + destruct e as [now c|now]; simpl;
        [by rewrite (proj1 (isAllowed_keeps_settings env now c l))|exact HN].
    + destruct e as [now c|now]; simpl;
        [by rewrite (proj2 (isAllowed_keeps_settings env now c l))|exact HW].
    + destruct e as [now c|now]; simpl.
      * apply isAllowed_keeps_bound; [by rewrite HN|exact Hinv].
      * intros k d Hk. apply map_lookup_filter_Some in Hk.
        destruct Hk as [Hk _]. exact (Hinv k d Hk).
Qed.

Lemma limiter_counters_bounded_witness :
  let l' :=
    Schedule.run Sample.env
      [Schedule.Request 0 Sample.browser; Schedule.Request 10 Sample.browser;
       Schedule.Cleanup 20; Schedule.Request 30 Sample.browser]
      (RateLimit.new_RateLimiter 60000 2) in
  map_Forall (fun _ d => 1 <= RateLimit.count d <= Z.max 1 2) (RateLimit.requests l').
Proof.
  assert (map_Forall
            (fun (_ : string) d =>
               1 <= RateLimit.count d
               <= Z.max 1 (RateLimit.maxRequests (RateLimit.new_RateLimiter 60000 2)))
            (RateLimit.requests (RateLimit.new_RateLimiter 60000 2))) as Hinit
    by apply map_Forall_empty.
  exact (proj2 (proj2 (limiter_counters_bounded Sample.env
                         [Schedule.Request 0 Sample.browser;
                          Schedule.Request 10 Sample.browser;
                          Schedule.Cleanup 20; Schedule.Request 30 Sample.browser]
                         (RateLimit.new_RateLimiter 60000 2) Hinit))).
Defined.

(** X18.  The limiter's periodic cleanup cannot be observed: for a request at
    the instant of the cleanup or later, the verdict and the client's counter
    afterwards are the same with and without the cleanup. *)
Theorem limiter_cleanup_invisible (env : Env.t) (now t : Z) (c : RateLimit.Context)
    (l : RateLimit.RateLimiter) :
  now <= t ->
  (RateLimit.isAllowed env t c (RateLimit.cleanup now l)).2
  = (RateLimit.isAllowed env t c l).2
  /\ RateLimit.requests (RateLimit.isAllowed env t c (RateLimit.cleanup now l)).1
       !! RateLimit.getClientId env c
     = RateLimit.requests (RateLimit.isAllowed env t c l).1
         !! RateLimit.getClientId env c.
Proof.
  intros Hle. unfold RateLimit.isAllowed, RateLimit.cleanup.
  cbn [RateLimit.requests RateLimit.with_requests RateLimit.windowSize
       RateLimit.maxRequests].
  destruct (RateLimit.requests l !! RateLimit.getClientId env c) as [d|] eqn:Hd.
  - destruct (Z.ltb_spec (RateLimit.resetTime d) now) as [Hdead|Hlive].
    + assert (filter (fun kv : string * RateLimit.ClientData =>
                        negb (RateLimit.resetTime kv.2 <? now) = true)
                (RateLimit.requests l) !! RateLimit.getClientId env c = None) as ->.
      { apply map_lookup_filter_None. right. intros x Hx.
        rewrite Hd in Hx. injection Hx as <-. simpl.
        apply Z.ltb_lt in Hdead. by rewrite Hdead. }
      assert ((RateLimit.resetTime d <? t) = true) as -> by lia.
      cbn [fst snd RateLimit.requests RateLimit.with_requests].
      by rewrite !lookup_insert_eq.
    + assert (filter (fun kv : string * RateLimit.ClientData =>
                        negb (RateLimit.resetTime kv.2 <? now) = true)
                (RateLimit.requests l) !! RateLimit.getClientId env c = Some d) as Hkept.
      { apply map_lookup_filter_Some. split; [exact Hd|]. simpl.
        apply negb_true_iff, Z.ltb_ge. exact Hlive. }
      rewrite Hkept.
      destruct (RateLimit.resetTime d <? t);
        [|destruct (RateLimit.maxRequests l <=? RateLimit.count d)];
        cbn [fst snd RateLimit.requests RateLimit.with_requests];
        rewrite ?lookup_insert_eq, ?Hkept, ?Hd; split; reflexivity.
  - assert (filter (fun kv : string * RateLimit.ClientData =>
                      negb (RateLimit.resetTime kv.2 <? now) = true)
              (RateLimit.requests l) !! RateLimit.getClientId env c = None) as ->
      by (apply map_lookup_filter_None; by left).
    cbn [fst snd RateLimit.requests RateLimit.with_requests].
    by rewrite !lookup_insert_eq.
Qed.

Lemma limiter_cleanup_invisible_witness :
  let l := (RateLimit.isAllowed Sample.env 0 Sample.browser
              (RateLimit.new_RateLimiter 1000 1)).1 in
  (RateLimit.isAllowed Sample.env 5000 Sample.browser (RateLimit.cleanup 3000 l)).2
  = (RateLimit.isAllowed Sample.env 5000 Sample.browser l).2.
Proof.
  assert (3000 <= 5000) as Hle by lia.
  exact (proj1 (limiter_cleanup_invisible Sample.env 3000 5000 Sample.browser
                  (RateLimit.isAllowed Sample.env 0 Sample.browser
                     (RateLimit.new_RateLimiter 1000 1)).1 Hle)).
Defined.

(** X19.  A request is rejected exactly when the client has an open window
    (deadline not passed) whose counter has reached the ceiling; a rejected
    request leaves the limiter exactly as it was, so it neither extends the
    window nor counts, and its retry-after is not negative. *)
Theorem rejection_changes_nothing (env : Env.t) (now : Z) (c : RateLimit.Context)
    (l : RateLimit.RateLimiter) :
  let r := RateLimit.isAllowed env now c l in
  (RateLimit.allowed r.2 = false
   <-> exists d, RateLimit.requests l !! RateLimit.getClientId env c = Some d
                 /\ now <= RateLimit.resetTime d
                 /\ RateLimit.maxRequests l <= RateLimit.count d)
  /\ (RateLimit.allowed r.2 = false ->
      r.1 = l /\ exists n, RateLimit.retryAfter r.2 = Some n /\ 0 <= n)
  /\ (RateLimit.allowed r.2 = true -> RateLimit.retryAfter r.2 = None).
Proof.
  intros r. subst r. unfold RateLimit.isAllowed.
  destruct (RateLimit.requests l !! RateLimit.getClientId env c) as [d|].
  - destruct (Z.ltb_spec (RateLimit.resetTime d) now) as [Hdead|Hlive].
    + cbn [fst snd RateLimit.allowed RateLimit.retryAfter].
      split_and!; try discriminate; try reflexivity.
      split; [discriminate|]. intros (d' & [= <-] & Hl & _). lia.
    + destruct (Z.leb_spec (RateLimit.maxRequests l) (RateLimit.count d)) as [Hfull|Hroom];
        cbn [fst snd RateLimit.allowed RateLimit.retryAfter].
      * split_and!; try discriminate.
        -- split; [|reflexivity]. intros _. exists d. done.
        -- intros _. split; [reflexivity|]. eexists. split; [reflexivity|].
           apply ceil_div_1000_nonneg. lia.
      * split_and!; try discriminate; try reflexivity.
        split; [discriminate|]. intros (d' & [= <-] & _ & Hf). lia.
  - cbn [fst snd RateLimit.allowed RateLimit.retryAfter].
    split_and!; try discriminate; try reflexivity.
    split; [discriminate|]. intros (d' & [=] & _).
Qed.

(** X20.  Clients do not share counters: a request of a client with another
    fingerprint, at any instant, changes neither this client's entry nor the
    verdict this client gets. *)
Theorem clients_isolated (env : Env.t) (now now' : Z) (c c' : RateLimit.Context)
    (l : RateLimit.RateLimiter) :
  RateLimit.getClientId env c' <> RateLimit.getClientId env c ->
  let l' := (RateLimit.isAllowed env now' c' l).1 in
  RateLimit.requests l' !! RateLimit.getClientId env c
  = RateLimit.requests l !! RateLimit.getClientId env c
  /\ (RateLimit.isAllowed env now c l').2 = (RateLimit.isAllowed env now c l).2.
Proof.
  intros Hne l'. subst l'.
  pose proof (isAllowed_other_client env c l now' c' Hne) as Hentry.
  split; [exact Hentry|].
  apply isAllowed_verdict_congr; [exact Hentry|].
  apply isAllowed_keeps_settings.
Qed.

Lemma clients_isolated_witness :
  let other := {| RateLimit.x_forwarded_for := None;
                  RateLimit.x_real_ip := Some "198.51.100.9";
                  RateLimit.user_agent := None |} in
  let l := (RateLimit.isAllowed Sample.env 0 Sample.browser
              (RateLimit.new_RateLimiter 1000 1)).1 in
  (RateLimit.isAllowed Sample.env 500 Sample.browser
     (RateLimit.isAllowed Sample.env 100 other l).1).2
  = (RateLimit.isAllowed Sample.env 500 Sample.browser l).2.
Proof.
  assert (RateLimit.getClientId Sample.env
            {| RateLimit.x_forwarded_for := None;
               RateLimit.x_real_ip := Some "198.51.100.9";
               RateLimit.user_agent := None |}
          <> RateLimit.getClientId Sample.env Sample.browser) as Hne
    by (vm_compute; discriminate).
  exact (proj2 (clients_isolated Sample.env 500 100 Sample.browser _
                  (RateLimit.isAllowed Sample.env 0 Sample.browser
                     (RateLimit.new_RateLimiter 1000 1)).1 Hne)).
Defined.





(** X22.  [getRateLimitHeaders] agrees with the limiter while a window is
    open: the [X-RateLimit-Remaining] it reports is the decimal of
    [max(0, ceiling - count)], never negative, and that number is 0 exactly
    when a request of the client at that instant is rejected. *)
Theorem remaining_zero_iff_rejected (env : Env.t) (now : Z) (c : RateLimit.Context)
    (l : RateLimit.RateLimiter) (d : RateLimit.ClientData) :
  RateLimit.requests l !! RateLimit.getClientId env c = Some d ->
  now <= RateLimit.resetTime d ->
  In ("X-RateLimit-Remaining", RateLimit.toString (RateLimit.remaining d l))
     (RateLimit.getRateLimitHeaders env now c l)
  /\ 0 <= RateLimit.remaining d l
  /\ (RateLimit.remaining d l = 0
      <-> RateLimit.allowed (RateLimit.isAllowed env now c l).2 = false).
Proof.
  intros Hd Hlive. split; [|split].
  - unfold RateLimit.getRateLimitHeaders. rewrite Hd. right. left. reflexivity.
  - unfold RateLimit.remaining. lia.
  - unfold RateLimit.remaining.
    destruct (Z.le_gt_cases (RateLimit.maxRequests l) (RateLimit.count d)) as [Hfull|Hroom].
    + rewrite (isAllowed_exceeded env c l now d Hd Hlive Hfull).
      cbn [snd RateLimit.allowed]. split; [reflexivity|lia].
    + rewrite (isAllowed_counting env c l now d Hd Hlive Hroom).
      cbn [snd RateLimit.allowed]. split; [lia|discriminate].
Qed.

Lemma remaining_zero_iff_rejected_witness :
  let l := (RateLimit.isAllowed Sample.env 0 Sample.browser
              (RateLimit.new_RateLimiter 1000 1)).1 in
  In ("X-RateLimit-Remaining", "0")
     (RateLimit.getRateLimitHeaders Sample.env 500 Sample.browser l).
Proof.
  assert (500 <= RateLimit.resetTime {| RateLimit.count := 1; RateLimit.resetTime := 1000 |})
    as Hlive by (simpl; lia).
  exact (proj1 (remaining_zero_iff_rejected Sample.env 500 Sample.browser
                  (RateLimit.isAllowed Sample.env 0 Sample.browser
                     (RateLimit.new_RateLimiter 1000 1)).1
                  {| RateLimit.count := 1; RateLimit.resetTime := 1000 |}
                  eq_refl Hlive)).
Defined.

(** ** The optional middleware *)

(** X23.  [optionalAuthMiddleware] sets the user on every request that
    [authMiddleware] lets through, and the same user; unlike it, it looks at
    neither the blacklist nor the logout-all table, and it sets a user exactly
    when [GET /auth/me] answers 200 with that user. *)
Theorem optional_middleware_agrees (env : Env.t) (salt : nat) (now : Z)
    (cookie : option HonoJwt.Token) (db : Db.t) (u : UserService.UserWithoutPassword) :
  (AuthMiddleware.authMiddleware env salt now cookie db = Http.Next u ->
   AuthMiddleware.optionalAuthMiddleware env now cookie db = Some u)
  /\ (forall db', Db.users db' = Db.users db ->
        AuthMiddleware.optionalAuthMiddleware env now cookie db'
        = AuthMiddleware.optionalAuthMiddleware env now cookie db)
  /\ (AuthMiddleware.optionalAuthMiddleware env now cookie db = Some u
      <-> AuthRoutes.me env now cookie db = Http.json (Http.SuccessUser None u) 200).
Proof.
  split_and!.
  - destruct cookie as [token|]; [|discriminate].
    intros Hnext. apply authMiddleware_next_iff in Hnext.
    destruct Hnext as (Hne & _ & decoded & usr & Hverify & _ & Hfind & ->).
    unfold AuthMiddleware.optionalAuthMiddleware, AuthService.getUserFromToken.
    by rewrite Hne, Hverify, Hfind.
  - intros db' Husers. unfold AuthMiddleware.optionalAuthMiddleware.
    by rewrite Husers.
  - unfold AuthMiddleware.optionalAuthMiddleware, AuthRoutes.me.
    destruct cookie as [token|]; [|split; discriminate].
    destruct (HonoJwt.is_empty token); [split; discriminate|].
    destruct (AuthService.getUserFromToken env now token (Db.users db)) as [u'|];
      [|split; discriminate].
    split; [by intros [= ->]|]. by intros [= ->].
Qed.

(** ** The error handler *)

(** X24.  What the error handler lets out.  The status it answers with is
    the error's status code, or 500 when the error has none or 0, and the
    body repeats it; when that status is neither 101 nor between 200 and 599
    the handler throws instead of answering.  Outside development no details
    are attached, and the error's message is replaced by "Internal server
    error" unless the error is marked [expose] or its status is below 500.
    An error that is not an [AppError] and went through [asyncHandler] is
    answered 500 "Internal server error"; its own message appears nowhere,
    not even in the development details. *)
Theorem error_handler_exposure (isDevelopment : bool) (now : Z)
    (err : ErrorHandler.SecurityError) (message : string)
    (stack stack' : option string) :
  let code :=
    match ErrorHandler.statusCode err with
    | Some n => if n =? 0 then 500 else n
    | None => 500
    end in
  let masked :=
    ErrorHandler.secureErrorHandler isDevelopment now
      (ErrorHandler.asyncHandler_rethrow stack' (ErrorHandler.Other message stack)) in
  (code = 101 \/ 200 <= code <= 599 <->
   exists r, ErrorHandler.secureErrorHandler isDevelopment now err = Some r)
  /\ (code <> 101 /\ (code < 200 \/ 599 < code) <->
      ErrorHandler.secureErrorHandler isDevelopment now err = None)
  /\ (forall r, ErrorHandler.secureErrorHandler isDevelopment now err = Some r ->
        ErrorHandler.status r = code
        /\ ErrorHandler.body_statusCode r = code
        /\ ErrorHandler.timestamp r = now
        /\ ErrorHandler.headers r
           = [("X-Content-Type-Options", "nosniff"); ("Cache-Control", "no-store")]
        /\ (isDevelopment = false -> ErrorHandler.details r = None)
        /\ (code < 500 -> ErrorHandler.details r = None)
        /\ (isDevelopment = true -> 500 <= code ->
            ErrorHandler.details r
            = Some {| ErrorHandler.details_stack := ErrorHandler.stack err;
                      ErrorHandler.originalMessage := ErrorHandler.message err |})
        /\ (ErrorHandler.expose err = Some true \/ code < 500 ->
            ErrorHandler.error r = ErrorHandler.message err)
        /\ (ErrorHandler.expose err <> Some true -> 500 <= code ->
            ErrorHandler.error r = "Internal server error"))
  /\ masked
     = Some {| ErrorHandler.status := 500;
               ErrorHandler.error := "Internal server error";
               ErrorHandler.body_statusCode := 500;
               ErrorHandler.timestamp := now;
               ErrorHandler.details :=
                 if isDevelopment
                 then Some {| ErrorHandler.details_stack := stack';
                              ErrorHandler.originalMessage :=
                                "An unexpected error occurred" |}
                 else None;
               ErrorHandler.headers :=
                 [("X-Content-Type-Options", "nosniff"); ("Cache-Control", "no-store")] |}.
Proof.
  intros code masked. subst masked.
  split_and!; [| | |destruct isDevelopment; reflexivity].
  all: unfold ErrorHandler.secureErrorHandler, ErrorHandler.status_accepted.
  all: assert ((if truthy_number (ErrorHandler.statusCode err)
                then default 500 (ErrorHandler.statusCode err) else 500) = code) as ->
         by (subst code; destruct (ErrorHandler.statusCode err) as [n|]; [|reflexivity];
             simpl; by destruct (n =? 0)).
  all: clearbody code.
  - destruct (Z.eqb_spec code 101) as [->|Hne]; cbn [orb].
    + split; [intros _; by eexists|intros _; by left].
    + destruct (Z.leb_spec 200 code); destruct (Z.leb_spec code 599); cbn [andb].
      * split; [intros _; by eexists|intros _; right; lia].
      * split; [intros [?|?]; lia|intros [? [=]]].
      * split; [intros [?|?]; lia|intros [? [=]]].
      * split; [intros [?|?]; lia|intros [? [=]]].
  - destruct (Z.eqb_spec code 101) as [->|Hne]; cbn [orb].
    + split; [intros [? _]; lia|discriminate].
    + destruct (Z.leb_spec 200 code); destruct (Z.leb_spec code 599); cbn [andb].
      * split; [intros [_ [?|?]]; lia|discriminate].
      * split; [reflexivity|intros _; split; [exact Hne|right; lia]].
      * split; [reflexivity|intros _; split; [exact Hne|left; lia]].
      * split; [reflexivity|intros _; split; [exact Hne|left; lia]].
  - intros r.
    destruct ((code =? 101) || ((200 <=? code) && (code <=? 599))); [|discriminate].
    intros [= <-].
    cbn [ErrorHandler.status ErrorHandler.body_statusCode ErrorHandler.details
         ErrorHandler.error ErrorHandler.timestamp ErrorHandler.headers].
    split_and!; try reflexivity.
    + intros ->. reflexivity.
    + intros Hlt. destruct (Z.leb_spec 500 code); [lia|]. by rewrite andb_false_r.
    + intros -> Hge. destruct (Z.leb_spec 500 code); [reflexivity|lia].
    + intros [->|Hlt]; [reflexivity|].
      destruct (Z.ltb_spec code 500); [|lia]. by rewrite orb_true_r.
    + intros Hexpose Hge.
      assert (default false (ErrorHandler.expose err) = false) as ->.
      { destruct (ErrorHandler.expose err) as [[]|]; [done|reflexivity|reflexivity]. }
      destruct (Z.ltb_spec code 500); [lia|reflexivity].
Qed.

(** A status code the runtime refuses: the handler throws. *)
Example error_handler_throws_on_status_99 :
  ErrorHandler.secureErrorHandler false 0
    (ErrorHandler.AppError "teapot" (Some 99) (Some true) None) = None
  /\ (exists r,
        ErrorHandler.secureErrorHandler false 0
          (ErrorHandler.createNotFoundError None None) = Some r
        /\ ErrorHandler.status r = 404
        /\ ErrorHandler.error r = "Resource not found").
Proof. split; [reflexivity|]. eexists. repeat split. Qed.

(** ** Profile routes and [UserService.update] *)

Lemma findById_id (i : string) (users : UserService.Users) (u : UserService.User) :
  UserService.findById i users = Some u -> UserService.id u = i.
Proof.
  intros H. apply find_some in H. destruct H as [_ H]. by apply String.eqb_eq.
Qed.

(** X25.  Changing the password: when [POST /users/change-password] answers
    200 for an account whose email finds that account, a login with the
    account's email and the new password succeeds as that account on the
    resulting database, and a login with any other password, the previous one
    included, is refused. *)
Theorem change_password_then_login (env : Env.t) (salt : nat) (now : Z)
    (user : UserService.UserWithoutPassword) (body : UsersRoutes.ChangePasswordBody)
    (db : Db.t) (u : UserService.User) :
  let r := UsersRoutes.change_password salt now (Some user) body db in
  Http.status r.2 = 200 ->
  UserService.findById (UserService.pub_id user) (Db.users db) = Some u ->
  UserService.findByEmail (UserService.email u) (Db.users db) = Some u ->
  (exists resp,
     AuthService.login env
       {| AuthService.cred_email := UserService.email u;
          AuthService.cred_password := UsersRoutes.newPassword body |} (Db.users r.1)
     = inr resp
     /\ UserService.pub_id (AuthService.user resp) = UserService.id u)
  /\ forall other, other <> UsersRoutes.newPassword body ->
       AuthService.login env
         {| AuthService.cred_email := UserService.email u;
            AuthService.cred_password := other |} (Db.users r.1)
       = inl "Invalid email or password".
Proof.
  intros r Hstatus Hid Hemail. subst r.
  unfold UsersRoutes.change_password in *.
  unfold UsersRoutes.changePasswordSchema in *.
  destruct (1 <=? js_length (UsersRoutes.currentPassword body))%nat;
    [|discriminate].
  destruct (Nat.leb_spec 8 (js_length (UsersRoutes.newPassword body)))
    as [Hlen|]; [|discriminate].
  cbn [app AuthRoutes.is_nil negb] in *.
  unfold AuthMiddleware.getAuthUserId, AuthMiddleware.getAuthUser in *.
  destruct (String.eqb (UserService.pub_id user) ""); [discriminate|].
  rewrite Hid in *.
  destruct (negb (UserService.verifyPassword _ _)); [discriminate|].
  assert (truthy_string (Some (UsersRoutes.newPassword body)) = true) as Htruthy.
  { apply truthy_string_Some, js_length_nonempty. lia. }
  unfold UserService.update, UserService.update_statement in *.
  cbn [UserService.upd_password UserService.upd_email UserService.upd_name
       UserService.upd_email_verified] in *.
  rewrite Htruthy in *. cbn [truthy_string andb fst snd] in *.
  clear Hstatus.
  set (h := BunPassword.hash salt (default "" (Some (UsersRoutes.newPassword body)))).
  assert (UserService.findByEmail (UserService.email u)
            (List.map
               (fun x => if String.eqb (UserService.id x) (UserService.pub_id user)
                         then UserService.assign None None None (Some h) now x else x)
               (Db.users db))
          = Some (UserService.assign None None None (Some h) now u)) as Hrow.
  { unfold UserService.findByEmail in *. rewrite find_map_preserving.
    - rewrite Hemail. simpl. by rewrite (findById_id _ _ _ Hid), String.eqb_refl.
    - intros x. by destruct (String.eqb (UserService.id x) (UserService.pub_id user)). }
  assert (forall o : option UserService.User,
            Db.users
              (match o with
               | Some _ =>
                   (Db.with_users
                      (List.map
                         (fun x => if String.eqb (UserService.id x) (UserService.pub_id user)
                                   then UserService.assign None None None (Some h) now x
                                   else x) (Db.users db)) db,
                    Http.json (Http.Success "Password updated successfully") 200)
               | None =>
                   (Db.with_users
                      (List.map
                         (fun x => if String.eqb (UserService.id x) (UserService.pub_id user)
                                   then UserService.assign None None None (Some h) now x
                                   else x) (Db.users db)) db,
                    Http.json (Http.Failure "Failed to update password") 500)
               end).1
            = List.map
                (fun x => if String.eqb (UserService.id x) (UserService.pub_id user)
                          then UserService.assign None None None (Some h) now x
                          else x) (Db.users db)) as Husers
    by (intros [?|]; reflexivity).
  rewrite Husers. unfold AuthService.login.
  cbn [AuthService.cred_email AuthService.cred_password]. rewrite Hrow.
  unfold UserService.verifyPassword, BunPassword.verify.
  subst h. cbn [UserService.assign UserService.password_hash default from_option
                BunPassword.hash BunPassword.input]. unfold id.
  split.
  - rewrite bool_decide_eq_true_2 by reflexivity. cbn [negb].
    eexists. split; reflexivity.
  - intros other Hother. by rewrite bool_decide_eq_false_2.
Qed.

Lemma change_password_then_login_witness :
  let r :=
    UsersRoutes.change_password 40 9000
      (Some (UserService.without_password Sample.alice))
      {| UsersRoutes.currentPassword := "Correct-Horse-1!";
         UsersRoutes.newPassword := "Brand-new-pass9" |} Sample.db0 in
  AuthService.login Sample.env
    {| AuthService.cred_email := "alice@example.com";
       AuthService.cred_password := "Correct-Horse-1!" |} (Db.users r.1)
  = inl "Invalid email or password".
Proof.
  assert ("Correct-Horse-1!" <> "Brand-new-pass9") as Hother by discriminate.
  exact (proj2 (change_password_then_login Sample.env 40 9000
                  (UserService.without_password Sample.alice)
                  {| UsersRoutes.currentPassword := "Correct-Horse-1!";
                     UsersRoutes.newPassword := "Brand-new-pass9" |}
                  Sample.db0 Sample.alice eq_refl eq_refl eq_refl)
           "Correct-Horse-1!" Hother).
Defined.

(** Every UPDATE statement the chain can pick keeps the row's id and stamps
    [updated_at]. *)
Lemma update_statement_keeps_id (salt : nat) (now : Z)
    (userData : UserService.UpdateUserData) (set : UserService.User -> UserService.User) :
  UserService.update_statement salt now userData = Some set ->
  forall u, UserService.id (set u) = UserService.id u
            /\ UserService.updated_at (set u) = now
            /\ UserService.created_at (set u) = UserService.created_at u
            /\ UserService.password_reset_token (set u) = UserService.password_reset_token u.
Proof.
  unfold UserService.update_statement.
  repeat case_match; intros [= <-] u; repeat split; reflexivity.
Qed.

(** X26.  [UserService.update] changes rows of the given id only and never
    an id: the ids stay as they were, row by row, and every row with another
    id is kept.  When it returns [null] nothing was changed; when it returns a
    row, that row has the given id, is stored, and carries the instant of the
    update.  With a password in the request, an email, a name or a
    verification flag is only taken into account when email and name are both
    given: otherwise the password alone is updated. *)
Theorem update_scope (salt : nat) (now : Z) (i : string)
    (userData : UserService.UpdateUserData) (users : UserService.Users) :
  let r := UserService.update salt now i userData users in
  List.map UserService.id r.1 = List.map UserService.id users
  /\ (forall u, In u users -> UserService.id u <> i -> In u r.1)
  /\ (r.2 = None -> r.1 = users)
  /\ (forall u', r.2 = Some u' ->
        UserService.id u' = i /\ In u' r.1 /\ UserService.updated_at u' = now)
  /\ (truthy_string (UserService.upd_password userData) = true ->
      truthy_string (UserService.upd_email userData)
      && truthy_string (UserService.upd_name userData) = false ->
      r = UserService.update salt now i
            {| UserService.upd_email := None;
               UserService.upd_name := None;
               UserService.upd_email_verified := None;
               UserService.upd_password := UserService.upd_password userData |} users).
Proof.
  intros r. subst r. unfold UserService.update.
  destruct (UserService.update_statement salt now userData) as [set|] eqn:Hset.
  - pose proof (update_statement_keeps_id _ _ _ _ Hset) as Hkeeps.
    cbn [fst snd]. split_and!.
    + rewrite map_map. apply map_ext. intros u.
      destruct (String.eqb (UserService.id u) i); [apply Hkeeps|reflexivity].
    + intros u Hu Hne. apply in_map_iff. exists u. split; [|exact Hu].
      apply String.eqb_neq in Hne. by rewrite Hne.
    + intros Hnone. apply map_unless. intros x Hx.
      destruct (String.eqb (UserService.id x) i) eqn:Hhit; [|reflexivity].
      assert (In x (List.filter (fun u => String.eqb (UserService.id u) i) users)) as Hin
        by (apply filter_In; split; [by apply list_elem_of_In|exact Hhit]).
      destruct (List.filter _ users); [destruct Hin|discriminate].
    + intros u' Hsome.
      destruct (List.filter (fun u => String.eqb (UserService.id u) i) users)
        as [|x rest] eqn:Hfilter; [discriminate|].
      injection Hsome as <-.
      assert (In x (List.filter (fun u => String.eqb (UserService.id u) i) users)) as Hin
        by (rewrite Hfilter; by left).
      apply filter_In in Hin. destruct Hin as [Hin Hhit].
      split_and!.
      * rewrite (proj1 (Hkeeps x)). by apply String.eqb_eq.
      * apply in_map_iff. exists x. by rewrite Hhit.
      * apply Hkeeps.
    + intros Hpw Hboth. unfold UserService.update_statement in *.
      cbn [UserService.upd_password UserService.upd_email UserService.upd_name
           UserService.upd_email_verified] in *.
      rewrite Hpw, Hboth in *. cbn [andb truthy_string] in *.
      injection Hset as <-. reflexivity.
  - cbn [fst snd]. split_and!; try done.
    intros Hpw _. unfold UserService.update_statement in Hset.
    rewrite Hpw in Hset. repeat case_match; discriminate.
Qed.

Lemma find_filter_negb {A} (p : A -> bool) (l : list A) :
  List.find p (List.filter (fun x => negb (p x)) l) = None.
Proof.
  induction l as [|x l IH]; [reflexivity|]. simpl.
  destruct (p x) eqn:Hp; simpl; [exact IH|]. by rewrite Hp.
Qed.

(** X27.  Deleting the account locks its tokens out: after
    [DELETE /users/account] for a user with a non-empty id, whatever the route
    answered, no row with that id is left, and every token whose subject is
    that id is answered 401 by the middleware under every salt, and by
    [GET /auth/me]. *)
Theorem deleted_account_locked_out (env : Env.t) (result_length : nat -> nat)
    (salt : nat) (now : Z) (user : UserService.UserWithoutPassword) (db : Db.t)
    (token : HonoJwt.Token) (decoded : AuthService.AuthTokenPayload) :
  UserService.pub_id user <> "" ->
  AuthService.verifyToken env now token None = Some decoded ->
  AuthService.userId decoded = UserService.pub_id user ->
  let r := UsersRoutes.delete_account result_length (Some user) db in
  UserService.findById (UserService.pub_id user) (Db.users r.1) = None
  /\ (exists resp,
        AuthMiddleware.authMiddleware env salt now (Some token) r.1 = Http.Respond resp
        /\ Http.status resp = 401)
  /\ Http.status (AuthRoutes.me env now (Some token) r.1) = 401.
Proof.
  intros Hid Hverify Hsubject r.
  assert (UserService.findById (UserService.pub_id user) (Db.users r.1) = None) as Hgone.
  { subst r. unfold UsersRoutes.delete_account, AuthMiddleware.getAuthUserId,
      AuthMiddleware.getAuthUser.
    apply String.eqb_neq in Hid. rewrite Hid.
    unfold Db.delete_user, UserService.delete. cbn [fst snd].
    destruct (0 <? UserService.affected _ _)%nat; destruct (negb _);
      cbn [fst Db.users Db.with_users]; apply find_filter_negb. }
  split; [exact Hgone|]. split.
  - destruct (AuthMiddleware.authMiddleware env salt now (Some token) r.1)
      as [resp|u] eqn:Hmw.
    + exists resp. split; [reflexivity|]. by eapply authMiddleware_respond_401.
    + exfalso. apply authMiddleware_next_iff in Hmw.
      destruct Hmw as (_ & _ & decoded' & usr & Hverify' & _ & Hfind & _).
      rewrite Hverify in Hverify'. injection Hverify' as <-.
      rewrite Hsubject, Hgone in Hfind. discriminate.
  - unfold AuthRoutes.me, AuthService.getUserFromToken.
    rewrite (verifyToken_not_empty _ _ _ _ _ Hverify), Hverify, Hsubject, Hgone.
    reflexivity.
Qed.

Lemma deleted_account_locked_out_witness :
  let r :=
    UsersRoutes.delete_account BunSql.result_length
      (Some (UserService.without_password Sample.alice)) Sample.db0 in
  Http.status (AuthRoutes.me Sample.env 100 (Some Sample.access) r.1) = 401.
Proof.
  assert (UserService.pub_id (UserService.without_password Sample.alice) <> "") as Hid
    by discriminate.
  exact (proj2 (proj2 (deleted_account_locked_out Sample.env BunSql.result_length 1 100
                         (UserService.without_password Sample.alice) Sample.db0
                         Sample.access
                         {| AuthService.userId := UserService.id Sample.alice;
                            AuthService.email := UserService.email Sample.alice;
                            AuthService.tokenType := "access";
                            AuthService.iat := None;
                            AuthService.exp := None |}
                         Hid eq_refl eq_refl))).
Defined.

(** ** The [user_tokens] table *)

Lemma filter_map_none {A} (p : A -> bool) (f : A -> A) (l : list A) :
  (forall x, p (f x) = false) -> List.filter p (List.map f l) = [].
Proof.
  intros H. induction l as [|x l IH]; [reflexivity|]. simpl. by rewrite H.
Qed.

Lemma filter_map_length {A} (p : A -> bool) (f : A -> A) (l : list A) :
  (forall x, p (f x) = p x) ->
  length (List.filter p (List.map f l)) = length (List.filter p l).
Proof.
  intros H. induction l as [|x l IH]; [reflexivity|]. simpl. rewrite H.
  destruct (p x); simpl; by rewrite IH.
Qed.

(** X28.  A stored token is single use: once [markTokenAsUsed] (or
    [revokeToken], which is the same statement) has run for a token, neither
    [verifyToken], with or without a type and at any instant, nor
    [findByToken] returns a row for it; rows of other tokens are kept as they
    are. *)
Theorem used_token_never_verifies (now now' : Z) (token : string)
    (tokenType : option TokenService.TokenType) (tokens : TokenService.UserTokens) :
  let tokens' := TokenService.markTokenAsUsed now token tokens in
  TokenService.verifyToken now' token tokenType tokens' = None
  /\ TokenService.findByToken token tokens' = None
  /\ TokenService.revokeToken now token tokens = tokens'
  /\ (forall t, In t tokens -> TokenService.token t <> token -> In t tokens').
Proof.
  intros tokens'. subst tokens'.
  unfold TokenService.verifyToken, TokenService.findByToken,
    TokenService.markTokenAsUsed, TokenService.revokeToken.
  split_and!.
  - destruct tokenType as [ty|]; rewrite filter_map_none; try reflexivity;
      intros x; destruct (String.eqb (TokenService.token x) token) eqn:Hx;
      cbn [TokenService.set_used TokenService.token TokenService.unused
           TokenService.used_at]; rewrite Hx; reflexivity.
  - rewrite filter_map_none; [reflexivity|].
    intros x; destruct (String.eqb (TokenService.token x) token) eqn:Hx;
      cbn [TokenService.set_used TokenService.token TokenService.unused
           TokenService.used_at]; rewrite Hx; reflexivity.
  - reflexivity.
  - intros t Ht Hne. apply in_map_iff. exists t. split; [|exact Ht].
    apply String.eqb_neq in Hne. by rewrite Hne.
Qed.

(** X29.  One live reset token per user: when [createPasswordResetToken]
    returns a row, that row is the only unused [password_reset] row of the
    user in the table; its token verifies as a reset token strictly before
    one hour has passed and no longer from then on. *)
Theorem one_live_reset_token (new_id token : string) (now : Z) (userId : string)
    (tokens tokens' : TokenService.UserTokens) (row : TokenService.UserToken) :
  TokenService.createPasswordResetToken new_id token now userId tokens
  = (tokens', Some row) ->
  (forall t, In t tokens' ->
     TokenService.user_id t = userId ->
     TokenService.token_type t = TokenService.password_reset ->
     TokenService.unused t = true -> t = row)
  /\ (forall now', now' < now + TokenService.one_hour ->
        TokenService.verifyToken now' token (Some TokenService.password_reset) tokens'
        = Some row)
  /\ (forall now', now + TokenService.one_hour <= now' ->
        TokenService.verifyToken now' token (Some TokenService.password_reset) tokens'
        = None).
Proof.
  unfold TokenService.createPasswordResetToken, TokenService.createToken.
  set (revoked := TokenService.revokeAllUserTokens now userId
                    (Some TokenService.password_reset) tokens).
  destruct (existsb _ revoked) eqn:Hex; [discriminate|].
  intros [= <- <-].
  assert (forall x, In x revoked -> String.eqb (TokenService.token x) token = false)
    as Hfresh.
  { intros x Hx. destruct (String.eqb (TokenService.token x) token) eqn:E; [|reflexivity].
    assert (existsb (fun t => String.eqb (TokenService.token t) token
                              || String.eqb (TokenService.id t) new_id) revoked = true)
      as Hyes by (apply existsb_exists; exists x; split; [exact Hx|by rewrite E]).
    rewrite Hyes in Hex. discriminate. }
  assert (forall (q : TokenService.UserToken -> bool),
            List.filter (fun t => String.eqb (TokenService.token t) token && q t) revoked
            = []) as Hnone.
  { intros q. apply filter_none. intros x Hx.
    apply list_elem_of_In in Hx. by rewrite (Hfresh x Hx). }
  split_and!.
  - intros t Ht Huser Htype Hunused. apply in_app_or in Ht.
    destruct Ht as [Ht|[<-|[]]]; [exfalso|reflexivity].
    subst revoked. unfold TokenService.revokeAllUserTokens in Ht.
    apply in_map_iff in Ht. destruct Ht as (y & Hy & _).
    destruct (String.eqb (TokenService.user_id y) userId && TokenService.unused y
              && bool_decide (TokenService.token_type y = TokenService.password_reset))
      eqn:Hhit.
    + subst t. discriminate Hunused.
    + subst t. rewrite Hunused in Hhit.
      apply String.eqb_eq in Huser. rewrite Huser in Hhit.
      rewrite bool_decide_eq_true_2 in Hhit by exact Htype. discriminate.
  - intros now' Hlive. unfold TokenService.verifyToken.
    rewrite List.filter_app.
    rewrite (List.filter_ext _
               (fun t => String.eqb (TokenService.token t) token
                         && (TokenService.unused t && TokenService.unexpired now' t
                             && bool_decide (TokenService.token_type t
                                             = TokenService.password_reset))))
      by (intros t; by rewrite !andb_assoc).
    rewrite Hnone. cbn [app List.filter TokenService.token TokenService.unused
                        TokenService.used_at TokenService.unexpired
                        TokenService.expires_at TokenService.token_type
                        TokenService.data_expires_at TokenService.data_token_type].
    rewrite String.eqb_refl. apply Z.ltb_lt in Hlive. rewrite Hlive.
    rewrite bool_decide_eq_true_2 by reflexivity. reflexivity.
  - intros now' Hdead. unfold TokenService.verifyToken.
    rewrite List.filter_app.
    rewrite (List.filter_ext _
               (fun t => String.eqb (TokenService.token t) token
                         && (TokenService.unused t && TokenService.unexpired now' t
                             && bool_decide (TokenService.token_type t
                                             = TokenService.password_reset))))
      by (intros t; by rewrite !andb_assoc).
    rewrite Hnone. cbn [app List.filter TokenService.token TokenService.unused
                        TokenService.used_at TokenService.unexpired
                        TokenService.expires_at TokenService.token_type
                        TokenService.data_expires_at TokenService.data_token_type].
    rewrite String.eqb_refl. apply Z.ltb_ge in Hdead. rewrite Hdead. reflexivity.
Qed.

(** X30.  Revoking all tokens of a user ends every session of that user and
    of nobody else: afterwards the user's active session count is 0 at every
    instant, also when only the [auth] tokens were revoked, and the count of
    every other user is what it was. *)
Theorem revoke_all_ends_sessions (now now' : Z) (userId other : string)
    (tokens : TokenService.UserTokens) :
  TokenService.getActiveSessionCount now' userId
    (TokenService.revokeAllUserTokens now userId None tokens) = 0
  /\ TokenService.getActiveSessionCount now' userId
       (TokenService.revokeAllUserTokens now userId (Some TokenService.auth) tokens) = 0
  /\ (other <> userId ->
      forall ty,
        TokenService.getActiveSessionCount now' other
          (TokenService.revokeAllUserTokens now userId ty tokens)
        = TokenService.getActiveSessionCount now' other tokens).
Proof.
  unfold TokenService.getActiveSessionCount, TokenService.revokeAllUserTokens.
  split_and!.
  - rewrite filter_map_none; [reflexivity|]. intros x.
    destruct (String.eqb (TokenService.user_id x) userId) eqn:Hu;
      destruct (TokenService.unused x) eqn:Hx;
      cbn [andb TokenService.set_used TokenService.user_id TokenService.unused
           TokenService.used_at TokenService.token_type];
      rewrite ?Hu, ?Hx, ?andb_false_r; reflexivity.
  - rewrite filter_map_none; [reflexivity|]. intros x.
    destruct (String.eqb (TokenService.user_id x) userId) eqn:Hu;
      destruct (TokenService.unused x) eqn:Hx;
      destruct (bool_decide (TokenService.token_type x = TokenService.auth)) eqn:Ht;
      cbn [andb TokenService.set_used TokenService.user_id TokenService.unused
           TokenService.used_at TokenService.token_type];
      rewrite ?Hu, ?Hx, ?Ht, ?andb_false_r; reflexivity.
  - intros Hne ty. f_equal.
    destruct ty as [ty|]; apply filter_map_length; intros x;
      destruct (String.eqb_spec (TokenService.user_id x) userId) as [Hu|Hu];
      cbn [andb]; try reflexivity;
      (assert (String.eqb (TokenService.user_id x) other = false) as Hother
         by (apply String.eqb_neq; congruence));
      repeat case_match;
      cbn [TokenService.set_used TokenService.user_id]; rewrite ?Hother; reflexivity.
Qed.

Lemma one_live_reset_token_witness :
  let first :=
    TokenService.createPasswordResetToken "row-1" "first-reset-token" 0
      (UserService.id Sample.alice) [] in
  let second :=
    TokenService.createPasswordResetToken "row-2" "second-reset-token" 1000
      (UserService.id Sample.alice) first.1 in
  TokenService.verifyToken 1000 "first-reset-token"
    (Some TokenService.password_reset) first.1 = first.2
  /\ TokenService.verifyToken 2000 "second-reset-token"
       (Some TokenService.password_reset) second.1 = second.2
  /\ TokenService.verifyToken 2000 "first-reset-token"
       (Some TokenService.password_reset) second.1 = None.
Proof.
  assert (2000 < 1000 + TokenService.one_hour) as Hlive by (vm_compute; reflexivity).
  split; [vm_compute; reflexivity|]. split; [|vm_compute; reflexivity].
  exact (proj1 (proj2 (one_live_reset_token "row-2" "second-reset-token" 1000
                         (UserService.id Sample.alice)
                         (TokenService.createPasswordResetToken "row-1"
                            "first-reset-token" 0 (UserService.id Sample.alice) []).1
                         _ _ eq_refl)) 2000 Hlive).
Defined.
